(** * py-image-compress-mcp: the decision-and-execution compression engine

    A shallow embedding of [core/strategy.py], [core/formats.py],
    [core/optimizer.py], [core/image_info.py], [core/compression_engine.py],
    [exceptions.py] and of the data model they use ([models/*.py]),
    followed by the properties of the engine.

    Conventions of the embedding.
    - Python [int] is [Z]; a Python [float] is the rational [Q] it denotes.
      Where the code rounds (the product with the fallback threshold, the
      compression ratio, the mean of the complexity metrics) the model
      rounds to binary64 as Python does ([Float]).  The size thresholds
      of the strategy and the histogram ratios of the classifier compare
      a ratio of integers with a decimal constant, which rounding cannot
      flip for sizes and pixel counts below 2^50; they are kept exact.
      So are the percentages of the result statistics: rounding is
      monotone and keeps 0 and 100, so the bounds stated for them
      survive it.
    - [x | None] is [option x]; a [dict[str, Any]] is a [gmap string PyVal].
    - The file system is a finite map from files to their contents.  A
      file is a directory entry: the resolved directory and the name of
      the entry, folded on a case-insensitive volume, so that two
      spellings of one file are one key, while the comparisons the code
      makes between paths stay comparisons of spellings.  Every function
      that touches the file system threads it explicitly and keeps the
      changes made before an exception was raised.
    - Pillow and the operating system are outside the repository: what they
      answer (decoded image attributes, encoder output, failing system
      calls, the table of registered extensions, the directory a spelling
      resolves to) is read from a record [Env]. *)

From Stdlib Require Import ZArith QArith String Ascii List Bool Lia.
From stdpp Require Import base option countable gmap strings.

Local Open Scope string_scope.
Local Open Scope Z_scope.

(* ===================================================================== *)
(** ** Strings: the fragment of [str] the engine uses                     *)
(* ===================================================================== *)

Module Str.

(** [str.upper] and [str.lower] on ASCII letters. *)
Definition upper_ascii (c : ascii) : ascii :=
  let n := nat_of_ascii c in
  if ((97 <=? n)%nat && (n <=? 122)%nat)%bool then ascii_of_nat (n - 32) else c.

Definition lower_ascii (c : ascii) : ascii :=
  let n := nat_of_ascii c in
  if ((65 <=? n)%nat && (n <=? 90)%nat)%bool then ascii_of_nat (n + 32) else c.

Fixpoint upper (s : string) : string :=
  match s with
  | EmptyString => EmptyString
  | String c s' => String (upper_ascii c) (upper s')
  end.

Fixpoint lower (s : string) : string :=
  match s with
  | EmptyString => EmptyString
  | String c s' => String (lower_ascii c) (lower s')
  end.

(** [s.rfind('.')]: index of the last dot, [None] for Python's [-1]. *)
Fixpoint rfind_dot (s : string) : option nat :=
  match s with
  | EmptyString => None
  | String c s' =>
      match rfind_dot s' with
      | Some i => Some (S i)
      | None => if Ascii.eqb c "."%char then Some 0%nat else None
      end
  end.

(** Truthiness of a string: non-empty. *)
Definition truthy (s : string) : bool :=
  match s with EmptyString => false | _ => true end.

(** [x in (a, b, ...)] on strings. *)
Definition mem (x : string) (l : list string) : bool :=
  existsb (String.eqb x) l.

(** [str(n)] for an integer. *)
Fixpoint digits (fuel : nat) (n : Z) (acc : string) : string :=
  match fuel with
  | O => acc
  | S fuel' =>
      let d := String (ascii_of_nat (48 + Z.to_nat (n mod 10))) acc in
      if n <? 10 then d else digits fuel' (n / 10) d
  end.

Definition of_Z (n : Z) : string :=
  if n <? 0 then "-" ++ digits (S (Z.to_nat (Z.log2 (- n)))) (- n) ""
  else digits (S (Z.to_nat (Z.log2 n))) n "".

End Str.

(* ===================================================================== *)
(** ** Paths ([pathlib.Path]) and the file system                         *)
(* ===================================================================== *)

(** A path is its directory part and its final component. *)
Record Path := mkPath { parent : string; name : string }.

#[global] Instance Path_eq_dec : EqDecision Path.
Proof. solve_decision. Defined.

#[global] Instance Path_countable : Countable Path.
Proof.
  refine (inj_countable' (fun p => (parent p, name p))
                         (fun q => mkPath (fst q) (snd q)) _).
  intros []; reflexivity.
Defined.

Module PathOps.

(** [PurePath.suffix]: the part of the name from its last dot, unless the
    dot is the first or the last character. *)
Definition split_at_suffix (nm : string) : string * string :=
  match Str.rfind_dot nm with
  | Some i =>
      if ((0 <? i)%nat && (i <? String.length nm - 1)%nat)%bool
      then (substring 0 i nm, substring i (String.length nm - i) nm)
      else (nm, "")
  | None => (nm, "")
  end.

Definition suffix (p : Path) : string := snd (split_at_suffix (name p)).
Definition stem (p : Path) : string := fst (split_at_suffix (name p)).

(** [PurePath.with_suffix]: raises [ValueError] on an empty name
    ([None] here); the suffixes the engine passes are well formed. *)
Definition with_suffix (p : Path) (sfx : string) : option Path :=
  if Str.truthy (name p)
  then Some (mkPath (parent p) (stem p ++ sfx))
  else None.

(** [dir / file_name]. *)
Definition join (dir : string) (file_name : string) : Path :=
  mkPath dir file_name.

(** The part of a name from its last dot on. *)
Fixpoint last_dot_suffix (nm : string) : option string :=
  match nm with
  | EmptyString => None
  | String c rest =>
      match last_dot_suffix rest with
      | Some ext => Some ext
      | None => if Ascii.eqb c "."%char then Some nm else None
      end
  end.

(** [os.path.splitext(name)[1]]: the part from the last dot on, unless
    only dots come before it. *)
Fixpoint splitext (nm : string) : string :=
  match nm with
  | EmptyString => EmptyString
  | String c rest =>
      if Ascii.eqb c "."%char then splitext rest
      else match last_dot_suffix rest with
           | Some ext => ext
           | None => EmptyString
           end
  end.

End PathOps.

(** A file: its size as [stat().st_size] reports it, and its bytes, kept as
    an opaque token (the engine never reads them: two files hold the same
    bytes exactly when they are the same record). *)
Record FileData := mkFile { st_size : Z; payload : N }.

#[global] Instance FileData_eq_dec : EqDecision FileData.
Proof. solve_decision. Defined.

(** A file as the file system knows it: the directory that holds it,
    resolved, and the name of its entry there.  Several paths can spell
    one file. *)
Record FileId := mkFileId { file_dir : string; file_entry : string }.

#[global] Instance FileId_eq_dec : EqDecision FileId.
Proof. solve_decision. Defined.

#[global] Instance FileId_countable : Countable FileId.
Proof.
  refine (inj_countable' (fun i => (file_dir i, file_entry i))
                         (fun q => mkFileId (fst q) (snd q)) _).
  intros []; reflexivity.
Defined.

Abbreviation FS := (gmap FileId FileData).

(** Python exceptions, by the classes [handle_compression_error]
    dispatches on, with [str(e)]. *)
Inductive ExnClass :=
| ValidationError          (* the repository's own class *)
| UnsupportedFormatError
| FileNotFoundError
| PermissionError
| OSError                  (* any other OSError, shutil.SameFileError too *)
| OtherError.              (* ValueError, pydantic's ValidationError, ... *)

Record Exn := mkExn { exn_class : ExnClass; exn_msg : string }.

Inductive Exc (A : Type) :=
| Return (a : A)
| Raise (e : Exn).
Arguments Return {A} a.
Arguments Raise {A} e.

(** Pure fallible code. *)
Definition exc_bind {A B} (m : Exc A) (k : A -> Exc B) : Exc B :=
  match m with
  | Return a => k a
  | Raise e => Raise e
  end.

(** Fallible code over the file system. *)
Definition IO (A : Type) : Type := FS -> Exc A * FS.

Definition io_ret {A} (a : A) : IO A := fun fs => (Return a, fs).
Definition io_raise {A} (e : Exn) : IO A := fun fs => (Raise e, fs).
Definition io_bind {A B} (m : IO A) (k : A -> IO B) : IO B :=
  fun fs =>
    match m fs with
    | (Return a, fs') => k a fs'
    | (Raise e, fs') => (Raise e, fs')
    end.
Definition io_lift {A} (m : Exc A) : IO A := fun fs => (m, fs).

(** [try: m except Exception as e: h e]. *)
Definition io_try {A} (m : IO A) (h : Exn -> IO A) : IO A :=
  fun fs =>
    match m fs with
    | (Return a, fs') => (Return a, fs')
    | (Raise e, fs') => h e fs'
    end.

(** [let* x := m in k] sequences pure fallible code, [let! x := m in k]
    code over the file system. *)
Notation "'let*' x ':=' m 'in' k" := (exc_bind m (fun x => k))
  (at level 10, x name, m at level 100, k at level 200).
Notation "'let!' x ':=' m 'in' k" := (io_bind m (fun x => k))
  (at level 10, x name, m at level 100, k at level 200).

(* ===================================================================== *)
(** ** Numbers: integers, rationals and binary64 rounding                 *)
(* ===================================================================== *)

Module Num.

Definition ltb (x y : Q) : bool := negb (Qle_bool y x).
Definition gtb (x y : Q) : bool := ltb y x.
Definition geb (x y : Q) : bool := Qle_bool y x.
Definition leb (x y : Q) : bool := Qle_bool x y.

(** [a / b] on integers (true division). *)
Definition div (a b : Z) : Q := (inject_Z a / inject_Z b)%Q.

(** [sum(l)] and [l[a:b]]. *)
Definition sum (l : list Z) : Z := fold_right Z.add 0 l.
Definition slice (a b : nat) (l : list Z) : list Z := firstn (b - a) (skipn a l).

End Num.

(** Python's [float] arithmetic: every operation returns the binary64
    value nearest to the exact result, ties going to the even significand.
    A value is kept as the rational it denotes.  Results beyond the
    binary64 range (about 1.8e308), where Python gives [inf] or raises
    [OverflowError], are outside the model; file sizes are far below. *)
Module Float.

(** [floor (log2 (a / b))] for positive [a] and [b]. *)
Definition ilog2 (a b : Z) : Z :=
  let e := Z.log2 a - Z.log2 b in
  if 0 <=? e
  then if b * 2 ^ e <=? a then e else e - 1
  else if b <=? a * 2 ^ (- e) then e else e - 1.

(** [a / b], positive, rounded to 53 significant bits, the last place
    being no finer than [2 ^ -1074] (subnormal values). *)
Definition round_pos (a b : Z) : Q :=
  let s := Z.max (ilog2 a b - 52) (-1074) in
  let n := if 0 <=? s then a else a * 2 ^ (- s) in
  let d := if 0 <=? s then b * 2 ^ s else b in
  let q := n / d in
  let r := n mod d in
  let m := if (d <? 2 * r) || ((d =? 2 * r) && Z.odd q) then q + 1 else q in
  if 0 <=? s then inject_Z (m * 2 ^ s) else Qmake m (Z.to_pos (2 ^ (- s))).

Definition round (x : Q) : Q :=
  match Qnum x with
  | Z0 => 0%Q
  | Zpos a => round_pos (Zpos a) (Zpos (Qden x))
  | Zneg a => (- round_pos (Zpos a) (Zpos (Qden x)))%Q
  end.

(** A decimal literal of the source, [float(n)], and the operations. *)
Definition lit (x : Q) : Q := round x.
Definition of_Z (n : Z) : Q := round (inject_Z n).
Definition add (x y : Q) : Q := round (x + y).
Definition mul (x y : Q) : Q := round (x * y).
Definition div (x y : Q) : Q := round (x / y).

End Float.

(* ===================================================================== *)
(** ** models/image_metadata.py                                           *)
(* ===================================================================== *)

Record BasicImageInfo := mkBasic {
  file_path : Path;
  file_size : Z;
  format : string;
  mode : string;
  width : Z;
  height : Z;
  has_transparency : bool;
  frame_count : Z
}.

(** [HistogramData.brightness_stats]; the empty dict is [None]. *)
Record BrightnessStats := mkStats {
  mean_brightness : Q;
  dark_ratio : Q;
  mid_ratio : Q;
  bright_ratio : Q
}.

Record HistogramData := mkHist {
  red_histogram : list Z;
  green_histogram : list Z;
  blue_histogram : list Z;
  luminance_histogram : list Z
}.

Fixpoint weighted_sum_from (i : Z) (l : list Z) : Z :=
  match l with
  | [] => 0
  | count :: l' => i * count + weighted_sum_from (i + 1) l'
  end.

Definition brightness_stats (h : HistogramData) : option BrightnessStats :=
  match luminance_histogram h with
  | [] => None
  | lum =>
      let total_pixels := Num.sum lum in
      if total_pixels =? 0 then None
      else
        let weighted_sum := weighted_sum_from 0 lum in
        let dark_pixels := Num.sum (firstn 85 lum) in
        let mid_pixels := Num.sum (Num.slice 85 170 lum) in
        let bright_pixels := Num.sum (skipn 170 lum) in
        Some {| mean_brightness :=
                  (Num.div weighted_sum total_pixels / inject_Z 255)%Q;
                dark_ratio := Num.div dark_pixels total_pixels;
                mid_ratio := Num.div mid_pixels total_pixels;
                bright_ratio := Num.div bright_pixels total_pixels |}
  end.

Record ComplexityMetrics := mkComplexity {
  edge_density : Q;
  color_diversity : Q;
  texture_complexity : Q;
  compression_difficulty : Q
}.

(** The mean is computed in floating point: two additions and a division,
    each rounded. *)
Definition overall_complexity (c : ComplexityMetrics) : string :=
  let avg_complexity :=
    Float.div
      (Float.add (Float.add (edge_density c) (color_diversity c))
                 (texture_complexity c))
      (Float.of_Z 3) in
  if Num.geb avg_complexity (Float.lit (8 # 10)) then "very_high"
  else if Num.geb avg_complexity (Float.lit (6 # 10)) then "high"
  else if Num.geb avg_complexity (Float.lit (4 # 10)) then "medium"
  else if Num.geb avg_complexity (Float.lit (2 # 10)) then "low"
  else "very_low".

(** [ImageMetadata]; the EXIF, ICC and XMP records play no part in the
    engine's decisions and are left out. *)
Record ImageMetadata := mkMetadata {
  basic_info : BasicImageInfo;
  histogram : option HistogramData;
  complexity : option ComplexityMetrics
}.

Record ImageCharacteristics := mkCharacteristics {
  is_simple_graphic : bool;
  is_photo_like : bool;
  color_count : Z;
  complexity_score : Q;
  ch_has_transparency : bool
}.

(** An exception raised by a pydantic validator: a [ValueError] subclass,
    none of the classes the error handler singles out. *)
Definition pydantic_error (what : string) : Exn :=
  mkExn OtherError ("validation error for " ++ what).

(** The constructor of [ImageCharacteristics] with its field constraints
    ([color_count >= 0], [0.0 <= complexity_score <= 1.0]). *)
Definition ImageCharacteristics_new (simple photo : bool) (colors : Z)
    (score : Q) (transparency : bool) : Exc ImageCharacteristics :=
  if (colors <? 0) || Num.ltb score 0 || Num.gtb score 1
  then Raise (pydantic_error "ImageCharacteristics")
  else Return (mkCharacteristics simple photo colors score transparency).

(* ===================================================================== *)
(** ** models/compression_config.py                                       *)
(* ===================================================================== *)

Module QualityMode.
Inductive t := LOSSLESS | CUSTOM.
Definition eqb (a b : t) : bool :=
  match a, b with
  | LOSSLESS, LOSSLESS | CUSTOM, CUSTOM => true
  | _, _ => false
  end.
End QualityMode.

Module StrategyType.
Inductive t := LOSSLESS | LOSSY | ADAPTIVE | SKIP.
End StrategyType.

Record ResizeConfig := mkResize {
  max_width : option Z;
  max_height : option Z;
  maintain_aspect_ratio : bool;
  upscale_allowed : bool
}.

Record CompressionConfig := mkConfig {
  input_path : Path;
  output_path : option Path;
  output_dir : option string;
  quality_mode : QualityMode.t;
  custom_quality : option Z;
  target_format : option string;
  preserve_format : bool;
  resize_config : option ResizeConfig;
  optimize : bool;
  progressive : bool;
  strip_metadata : bool;
  keep_orientation : bool;
  fallback_to_original : bool
}.

Record CompressionDecision := mkDecision {
  strategy_type : StrategyType.t;
  recommended_quality : option Z;
  recommended_format : option string;
  reason : string;
  skip_compression : bool
}.

(** [o is not None]. *)
Definition is_some {A} (o : option A) : bool :=
  match o with Some _ => true | None => false end.

(** Truthiness of [str | None]. *)
Definition opt_truthy (o : option string) : bool :=
  match o with Some s => Str.truthy s | None => false end.

(** [a or b] on [str | None] with a string default. *)
Definition opt_or (o : option string) (d : string) : string :=
  match o with
  | Some s => if Str.truthy s then s else d
  | None => d
  end.

Definition effective_quality (c : CompressionConfig) : option Z :=
  match quality_mode c with
  | QualityMode.LOSSLESS => None
  | QualityMode.CUSTOM => custom_quality c
  end.

Definition should_resize (c : CompressionConfig) : bool :=
  match resize_config c with
  | Some r => is_some (max_width r) || is_some (max_height r)
  | None => false
  end.

(* ===================================================================== *)
(** ** models/compression_result.py                                       *)
(* ===================================================================== *)

Module Result.

Record CompressionResult := mkResult {
  input_path : Path;
  output_path : Path;
  original_size : Z;
  compressed_size : Z;
  success : bool;
  format_used : string;
  quality_used : option Z;
  was_resized : bool;
  original_dimensions : option (Z * Z);
  final_dimensions : option (Z * Z);
  error : option string
}.

(** [BaseResult.is_successful]. *)
Definition is_successful (r : CompressionResult) : bool :=
  success r && negb (is_some (error r)).

End Result.

Abbreviation CompressionResult := Result.CompressionResult.

(** [CompressionResult.get_size_saved] and [get_compression_ratio]. *)
Definition get_size_saved (r : CompressionResult) : Z :=
  Z.max 0 (Result.original_size r - Result.compressed_size r).

Definition get_compression_ratio (r : CompressionResult) : Q :=
  if Result.original_size r =? 0 then 0%Q
  else (Num.div (get_size_saved r) (Result.original_size r) * inject_Z 100)%Q.

(** [ResultCollection]: the statistics over a list of results. *)
Definition get_successful_items (results : list CompressionResult)
  : list CompressionResult :=
  List.filter Result.success results.

Definition get_failed_items (results : list CompressionResult)
  : list CompressionResult :=
  List.filter (fun r => negb (Result.success r)) results.

Definition get_total_count (results : list CompressionResult) : Z :=
  Z.of_nat (List.length results).

Definition get_success_count (results : list CompressionResult) : Z :=
  Z.of_nat (List.length (get_successful_items results)).

Definition get_failure_count (results : list CompressionResult) : Z :=
  Z.of_nat (List.length (get_failed_items results)).

Definition get_success_rate (results : list CompressionResult) : Q :=
  let total := get_total_count results in
  if total =? 0 then 0%Q
  else (Num.div (get_success_count results) total * inject_Z 100)%Q.

(** [max(items, key=key)] on a non-empty sequence: the first item whose
    key is the largest. *)
Fixpoint max_by {A} (key : A -> Z) (best : A) (items : list A) : A :=
  match items with
  | [] => best
  | x :: rest => max_by key (if key best <? key x then x else best) rest
  end.

(** [MultiFormatResult.get_best_result]. *)
Definition get_best_result (results : list CompressionResult)
  : option CompressionResult :=
  match get_successful_items results with
  | [] => None
  | first :: rest => Some (max_by get_size_saved first rest)
  end.

(** [BatchResult]: the totals. *)
Definition get_total_original_size (results : list CompressionResult) : Z :=
  Num.sum (map Result.original_size results).

Definition get_total_compressed_size (results : list CompressionResult) : Z :=
  Num.sum (map Result.compressed_size (get_successful_items results)).

Definition get_total_size_saved (results : list CompressionResult) : Z :=
  Num.sum (map get_size_saved (get_successful_items results)).

Definition get_overall_compression_ratio (results : list CompressionResult)
  : Q :=
  let total_original := get_total_original_size results in
  if total_original =? 0 then 0%Q
  else (Num.div (get_total_size_saved results) total_original
        * inject_Z 100)%Q.

(* ===================================================================== *)
(** ** config.py and the world outside the repository                     *)
(* ===================================================================== *)

(** The defaults of [CompressionDefaults] and [ProcessingDefaults] the
    engine reads; two of them can be overridden by environment variables,
    so they are fields, not constants. *)
Record AppConfig := mkAppConfig {
  JPEG_QUALITY : Z;
  WEBP_QUALITY : Z;
  SIZE_THRESHOLD_MB : Q;
  COMPLEXITY_THRESHOLD : Q;
  PREFER_QUALITY : bool
}.

Definition default_app_config : AppConfig :=
  {| JPEG_QUALITY := 85; WEBP_QUALITY := 75; SIZE_THRESHOLD_MB := 5;
     COMPLEXITY_THRESHOLD := 7 # 10; PREFER_QUALITY := true |}.

(** Values stored in a dictionary of save parameters. *)
Inductive PyVal :=
| PyBool (b : bool)
| PyInt (n : Z)
| PyStr (s : string)
| PyBytes (s : string)
| PyNone.

Definition py_truthy (v : PyVal) : bool :=
  match v with
  | PyBool b => b
  | PyInt n => negb (n =? 0)
  | PyStr s | PyBytes s => Str.truthy s
  | PyNone => false
  end.

Abbreviation Params := (gmap string PyVal).

(** What Pillow reports of an opened image after EXIF transposition, with
    the histogram and the complexity metrics the extractor computes from
    its pixels ([None] when that extraction failed). *)
Record DecodedImage := mkDecoded {
  img_format : option string;
  img_mode : string;
  img_width : Z;
  img_height : Z;
  info_transparency : bool;
  n_frames : option Z;
  img_histogram : option HistogramData;
  img_complexity : option ComplexityMetrics
}.

(** The outcome of [_process_image] (EXIF rotation, resizing, conversion of
    the colour mode): the three values the result object records. *)
Record ProcessedImage := mkProcessed {
  p_was_resized : bool;
  p_original_dimensions : Z * Z;
  p_size : Z * Z
}.

(** What an encoder that raised left at the path it was writing. *)
Inductive Leftover :=
| Untouched
| Partial (f : FileData)
| Removed.

Inductive SaveOutcome :=
| Saved (f : FileData)
| SaveRaises (e : Exn) (l : Leftover).

Record Env := mkEnv {
  app_config : AppConfig;
  (** [Image.registered_extensions()]: extension to format name. *)
  registered_extensions : list (string * string);
  (** [Image.open] and the pixel analyses of [ImageInfoExtractor.extract]. *)
  pil_open : Path -> FileData -> Exc DecodedImage;
  (** [Image.open] followed by [_process_image]. *)
  pil_process : CompressionConfig -> FileData -> string -> Exc ProcessedImage;
  (** [optimize_parameters] followed by the encoder [Image.save] runs once
      it has chosen one. *)
  pil_save : CompressionConfig -> ImageMetadata -> string -> Params -> SaveOutcome;
  (** The directory a spelling names: made absolute, [.] and [..] and
      links among the directories resolved. *)
  os_realdir : string -> string;
  (** Whether the volume compares names without regard to case. *)
  os_case_insensitive : bool;
  os_mkdir_error : string -> option Exn;
  os_copy_error : Path -> Path -> option Exn;
  os_unlink_error : Path -> option Exn;
  os_rename_error : Path -> Path -> option Exn
}.

(** [except OSError]. *)
Definition is_OSError (e : Exn) : bool :=
  match exn_class e with
  | FileNotFoundError | PermissionError | OSError => true
  | _ => false
  end.

(** Lookup in a table of pairs, the first match. *)
Fixpoint assoc (k : string) (l : list (string * string)) : option string :=
  match l with
  | [] => None
  | (k', v) :: l' => if String.eqb k k' then Some v else assoc k l'
  end.

(** *** System calls *)

Module Os.

(** The file a path names. *)
Definition file (env : Env) (p : Path) : FileId :=
  mkFileId (os_realdir env (parent p))
           (if os_case_insensitive env then Str.lower (name p) else name p).

Definition exists_ (env : Env) (p : Path) (fs : FS) : bool :=
  is_some (fs !! file env p).

Definition stat_size (env : Env) (p : Path) : IO Z := fun fs =>
  match fs !! file env p with
  | Some f => (Return (st_size f), fs)
  | None => (Raise (mkExn FileNotFoundError "No such file or directory"), fs)
  end.

Definition mkdir (env : Env) (dir : string) : IO unit := fun fs =>
  match os_mkdir_error env dir with
  | Some e => (Raise e, fs)
  | None => (Return tt, fs)
  end.

(** [shutil.copy2]; it refuses to copy a file onto itself, however the
    two paths are spelled, with a [SameFileError] (an [OSError]) whose
    message, which also spells out both paths, is shortened here. *)
Definition copy2 (env : Env) (src dst : Path) : IO unit := fun fs =>
  match fs !! file env src with
  | None => (Raise (mkExn FileNotFoundError "No such file or directory"), fs)
  | Some f =>
      if bool_decide (file env src = file env dst)
      then (Raise (mkExn OSError "are the same file"), fs)
      else match os_copy_error env src dst with
           | Some e => (Raise e, fs)
           | None => (Return tt, <[file env dst := f]> fs)
           end
  end.

Definition unlink (env : Env) (p : Path) : IO unit := fun fs =>
  match fs !! file env p with
  | None => (Raise (mkExn FileNotFoundError "No such file or directory"), fs)
  | Some _ =>
      match os_unlink_error env p with
      | Some e => (Raise e, fs)
      | None => (Return tt, delete (file env p) fs)
      end
  end.

Definition rename (env : Env) (src dst : Path) : IO unit := fun fs =>
  match fs !! file env src with
  | None => (Raise (mkExn FileNotFoundError "No such file or directory"), fs)
  | Some f =>
      match os_rename_error env src dst with
      | Some e => (Raise e, fs)
      | None => (Return tt, <[file env dst := f]> (delete (file env src) fs))
      end
  end.

(** The encoder [Image.save] chooses when it is given no format: the one
    registered for the lower-cased extension of the file name. *)
Definition encoder (env : Env) (p : Path) : option string :=
  assoc (Str.lower (PathOps.splitext (name p))) (registered_extensions env).

(** The file system after [Image.save] on [p]. *)
Definition after_save (env : Env) (p : Path) (o : SaveOutcome) (fs : FS) : FS :=
  match o with
  | Saved f => <[file env p := f]> fs
  | SaveRaises _ Untouched => fs
  | SaveRaises _ (Partial f) => <[file env p := f]> fs
  | SaveRaises _ Removed => delete (file env p) fs
  end.

End Os.

(** The set [{fmt.upper() for fmt in registered_extensions().values() if fmt}]
    as a membership test on an already upper-cased name. *)
Definition supported_format (env : Env) (upper_name : string) : bool :=
  existsb (fun ef => Str.truthy (snd ef) && String.eqb (Str.upper (snd ef)) upper_name)
          (registered_extensions env).

(** The constructor of [CompressionDecision]: the bounds of
    [recommended_quality] and [validate_recommended_format]. *)
Definition CompressionDecision_new (env : Env) (st : StrategyType.t)
    (quality : option Z) (fmt : option string) (why : string) (skip : bool)
  : Exc CompressionDecision :=
  let quality_ok :=
    match quality with Some q => (1 <=? q) && (q <=? 100) | None => true end in
  let format_ok :=
    match fmt with Some v => supported_format env (Str.upper v) | None => true end in
  if quality_ok && format_ok
  then Return {| strategy_type := st;
                 recommended_quality := quality;
                 recommended_format :=
                   match fmt with
                   | Some v => Some (if Str.truthy v then Str.upper v else v)
                   | None => None
                   end;
                 reason := why;
                 skip_compression := skip |}
  else Raise (pydantic_error "CompressionDecision").

(** *** [CompressionConfig.get_output_path] and its helpers *)

Definition _get_quality_suffix (c : CompressionConfig) : string :=
  match quality_mode c with
  | QualityMode.CUSTOM =>
      match effective_quality c with
      | Some q => if q =? 0 then "_compress" else "_compress_" ++ Str.of_Z q
      | None => "_compress"
      end
  | QualityMode.LOSSLESS => "_compress"
  end.

Definition preferred_extensions : list (string * string) :=
  [("JPEG", ".jpg"); ("PNG", ".png"); ("WEBP", ".webp"); ("GIF", ".gif");
   ("BMP", ".bmp"); ("TIFF", ".tiff"); ("ICO", ".ico")].

Definition _get_format_extension (env : Env) (format_name : string) : string :=
  let format_upper := Str.upper format_name in
  match assoc format_upper preferred_extensions with
  | Some ext => ext
  | None =>
      match find (fun ef => Str.truthy (snd ef)
                            && String.eqb (Str.upper (snd ef)) format_upper)
                 (registered_extensions env) with
      | Some (ext, _) => Str.lower ext
      | None => ".jpg"
      end
  end.

Definition _determine_extension (env : Env) (c : CompressionConfig)
    (original_path : Path) (format_override : option string) : string :=
  match format_override with
  | Some f => if Str.truthy f then _get_format_extension env f
              else if opt_truthy (target_format c)
                   then _get_format_extension env (opt_or (target_format c) "")
                   else PathOps.suffix original_path
  | None => if opt_truthy (target_format c)
            then _get_format_extension env (opt_or (target_format c) "")
            else PathOps.suffix original_path
  end.

Definition _generate_auto_path (env : Env) (c : CompressionConfig)
    (original_path : Path) (format_override : option string)
    (skip_suffix : bool) : Path :=
  let out_dir :=
    match output_dir c with Some d => d | None => parent original_path end in
  let base_name := PathOps.stem original_path in
  let base_name :=
    if skip_suffix then base_name else base_name ++ _get_quality_suffix c in
  let ext := _determine_extension env c original_path format_override in
  PathOps.join out_dir (base_name ++ ext).

Definition get_output_path (env : Env) (c : CompressionConfig)
    (original_path : Path) (format_override : option string)
    (skip_suffix : bool) : Path :=
  match output_path c with
  | Some p => p
  | None => _generate_auto_path env c original_path format_override skip_suffix
  end.

(* ===================================================================== *)
(** ** core/image_info.py                                                 *)
(* ===================================================================== *)

Definition _get_format_from_extension (env : Env) (extension : string)
  : option string :=
  assoc (Str.lower extension) (registered_extensions env).

Definition _detect_transparency (img : DecodedImage) : bool :=
  if Str.mem (img_mode img) ["RGBA"; "LA"; "PA"] then true
  else if info_transparency img then true
  else String.eqb (img_mode img) "P" && info_transparency img.

Definition _extract_basic_info (env : Env) (img : DecodedImage)
    (path : Path) (size_on_disk : Z) : BasicImageInfo :=
  let detected_format := opt_or (img_format img) "UNKNOWN" in
  let detected_format :=
    if String.eqb detected_format "UNKNOWN"
    then match _get_format_from_extension env (PathOps.suffix path) with
         | Some format_from_ext =>
             if Str.truthy format_from_ext then format_from_ext
             else detected_format
         | None => detected_format
         end
    else detected_format in
  {| file_path := path;
     file_size := size_on_disk;
     format := detected_format;
     mode := img_mode img;
     width := img_width img;
     height := img_height img;
     has_transparency := _detect_transparency img;
     frame_count := match n_frames img with Some n => n | None => 1 end |}.

(** [ImageInfoExtractor.extract]. *)
Definition extract (env : Env) (path : Path) : IO ImageMetadata := fun fs =>
  match fs !! Os.file env path with
  | None => (Raise (mkExn FileNotFoundError "No such file or directory"), fs)
  | Some f =>
      match pil_open env path f with
      | Raise e => (Raise e, fs)
      | Return img =>
          (Return {| basic_info := _extract_basic_info env img path (st_size f);
                     histogram := img_histogram img;
                     complexity := img_complexity img |}, fs)
      end
  end.

Definition analyze_image_from_metadata (metadata : ImageMetadata)
  : Exc ImageCharacteristics :=
  let simple_photo_score :=
    match complexity metadata with
    | Some cx =>
        let is_simple_graphic := String.eqb (overall_complexity cx) "simple" in
        let is_photo_like :=
          Str.mem (overall_complexity cx) ["moderate"; "complex"] in
        let '(is_simple_graphic, is_photo_like) :=
          if Num.ltb (color_diversity cx) (1 # 10) then (true, is_photo_like)
          else if Num.gtb (color_diversity cx) (5 # 10)
               then (is_simple_graphic, true)
               else (is_simple_graphic, is_photo_like) in
        (is_simple_graphic, is_photo_like, texture_complexity cx)
    | None => (false, false, 0%Q)
    end in
  let '(is_simple_graphic, is_photo_like, complexity_score) :=
    simple_photo_score in
  let is_photo_like :=
    match histogram metadata with
    | Some h =>
        match brightness_stats h with
        | Some stats =>
            if Num.gtb (mid_ratio stats) (3 # 10) then true else is_photo_like
        | None => is_photo_like
        end
    | None => is_photo_like
    end in
  ImageCharacteristics_new is_simple_graphic is_photo_like 0 complexity_score
    (has_transparency (basic_info metadata)).

(* ===================================================================== *)
(** ** core/strategy.py                                                   *)
(* ===================================================================== *)

Record CompressionStrategy := mkStrategy {
  prefer_quality : bool;
  size_threshold_mb : Q;
  complexity_threshold : Q
}.

(** [CompressionStrategy()] with no argument. *)
Definition CompressionStrategy_new (env : Env) : CompressionStrategy :=
  {| prefer_quality := PREFER_QUALITY (app_config env);
     size_threshold_mb := SIZE_THRESHOLD_MB (app_config env);
     complexity_threshold := COMPLEXITY_THRESHOLD (app_config env) |}.

Definition file_size_mb (basic : BasicImageInfo) : Q :=
  Num.div (file_size basic) (1024 * 1024).

Definition _should_skip_compression (metadata : ImageMetadata) : bool :=
  let basic := basic_info metadata in
  if file_size basic <? 5 * 1024 then true
  else if Str.mem (format basic) ["WEBP"; "JPEG"] && (file_size basic <? 50 * 1024)
  then true
  else if String.eqb (format basic) "PNG" && (file_size basic <? 100 * 1024)
  then
    let pixel_count := width basic * height basic in
    let bytes_per_pixel :=
      if 0 <? pixel_count then Num.div (file_size basic) pixel_count else 0%Q in
    if Num.ltb bytes_per_pixel (15 # 10) then true else false
  else false.

Definition _try_original_format_optimization (env : Env)
    (metadata : ImageMetadata) : Exc (option CompressionDecision) :=
  let basic := basic_info metadata in
  let some d := let* x := d in Return (Some x) in
  if String.eqb (format basic) "JPEG" then
    some (CompressionDecision_new env StrategyType.LOSSLESS None (Some "JPEG")
            "JPEG 无损优化，使用 optimize 参数减小文件大小" false)
  else if String.eqb (format basic) "PNG" then
    if Num.ltb (file_size_mb basic) (2 # 10) then
      some (CompressionDecision_new env StrategyType.LOSSLESS None (Some "PNG")
              "PNG 小文件无损优化，保持原格式" false)
    else
      some (CompressionDecision_new env StrategyType.LOSSLESS None (Some "PNG")
              "PNG 无损优化，使用最佳压缩参数" false)
  else if String.eqb (format basic) "WEBP" then
    if Num.ltb (file_size_mb basic) (2 # 10) then
      some (CompressionDecision_new env StrategyType.LOSSLESS None (Some "WEBP")
              "WebP 小文件无损优化" false)
    else
      some (CompressionDecision_new env StrategyType.LOSSY (Some 85) (Some "WEBP")
              "WebP 高质量压缩" false)
  else Return None.

Definition _estimate_color_count (metadata : ImageMetadata) : Z :=
  let basic := basic_info metadata in
  let pixel_count := width basic * height basic in
  let level := option_map overall_complexity (complexity metadata) in
  match level with
  | Some l =>
      if Str.mem l ["very_low"; "simple"]
      then Z.min 256 (Z.max 16 (pixel_count / 1000))
      else if String.eqb l "complex"
           then Z.min 65536 (pixel_count / 10)
           else Z.min 4096 (pixel_count / 100)
  | None => Z.min 4096 (pixel_count / 100)
  end.

Definition _is_photo_like (metadata : ImageMetadata) : Exc bool :=
  let* characteristics := analyze_image_from_metadata metadata in
  Return (is_photo_like characteristics).

Definition _is_simple_graphic (metadata : ImageMetadata) : Exc bool :=
  let* characteristics := analyze_image_from_metadata metadata in
  Return (is_simple_graphic characteristics).

Definition _handle_simple_graphic (env : Env) (metadata : ImageMetadata)
  : Exc CompressionDecision :=
  let basic := basic_info metadata in
  let color_count := _estimate_color_count metadata in
  if String.eqb (format basic) "JPEG" && Num.gtb (file_size_mb basic) (1 # 10)
  then CompressionDecision_new env StrategyType.LOSSY (Some 75) (Some "JPEG")
         "JPEG图片使用适中质量压缩，保持格式一致性" false
  else if (color_count <=? 64) && Num.ltb (file_size_mb basic) (5 # 100)
  then CompressionDecision_new env StrategyType.LOSSLESS None (Some "PNG")
         "极简单小图形，PNG无损压缩效果最佳" false
  else CompressionDecision_new env StrategyType.LOSSY (Some 80) (Some "WEBP")
         "简单图形，使用WebP适中质量压缩" false.

Record Factors := mkFactors {
  large_file : bool;
  high_complexity : bool;
  f_has_transparency : bool;
  is_photo : bool;
  f_is_simple_graphic : bool
}.

Definition _make_decision (env : Env) (self : CompressionStrategy)
    (factors : Factors) (metadata : ImageMetadata) : Exc CompressionDecision :=
  if _should_skip_compression metadata then
    CompressionDecision_new env StrategyType.SKIP None None
      "文件已经很小或已经高度压缩" true
  else
    match f_has_transparency factors, f_is_simple_graphic factors,
          is_photo factors, large_file factors, high_complexity factors with
    | true, _, _, true, _ =>
        CompressionDecision_new env StrategyType.LOSSY (Some 90) (Some "WEBP")
          "大文件透明图片，使用WebP有损压缩平衡质量和大小" false
    | true, _, _, false, _ =>
        CompressionDecision_new env StrategyType.LOSSLESS None (Some "PNG")
          "透明图片，使用PNG无损压缩保持质量" false
    | false, true, _, _, _ => _handle_simple_graphic env metadata
    | false, false, true, true, _
    | false, false, true, _, true =>
        let quality :=
          if prefer_quality self then JPEG_QUALITY (app_config env) else 75 in
        CompressionDecision_new env StrategyType.LOSSY (Some quality) (Some "JPEG")
          "照片类图片，文件大或复杂，使用JPEG有损压缩" false
    | false, false, true, false, false =>
        CompressionDecision_new env StrategyType.LOSSLESS None (Some "WEBP")
          "小尺寸照片，尝试WebP无损压缩" false
    | false, false, false, true, _ =>
        CompressionDecision_new env StrategyType.LOSSY
          (Some (WEBP_QUALITY (app_config env))) (Some "WEBP")
          "大文件，使用WebP有损压缩平衡质量和大小" false
    | _, _, _, _, _ =>
        CompressionDecision_new env StrategyType.LOSSLESS None (Some "WEBP")
          "中小文件，使用WebP无损压缩" false
    end.

Definition _analyze_and_decide (env : Env) (self : CompressionStrategy)
    (metadata : ImageMetadata) : Exc CompressionDecision :=
  let basic := basic_info metadata in
  if _should_skip_compression metadata then
    CompressionDecision_new env StrategyType.SKIP None (Some (format basic))
      "文件已经高度优化，跳过压缩避免负优化" true
  else
    let* original_format_decision :=
      _try_original_format_optimization env metadata in
    match original_format_decision with
    | Some d => Return d
    | None =>
        let large := Num.gtb (file_size_mb basic) (size_threshold_mb self) in
        let complex :=
          match complexity metadata with
          | Some cx => String.eqb (overall_complexity cx) "complex"
          | None => false
          end in
        let* photo := _is_photo_like metadata in
        let* simple := _is_simple_graphic metadata in
        _make_decision env self
          {| large_file := large; high_complexity := complex;
             f_has_transparency := has_transparency basic;
             is_photo := photo; f_is_simple_graphic := simple |}
          metadata
    end.

Definition _suggest_format (self : CompressionStrategy)
    (metadata : ImageMetadata) (user_preference : option string) : Exc string :=
  if opt_truthy user_preference
  then Return (Str.upper (opt_or user_preference ""))
  else
    let* characteristics := analyze_image_from_metadata metadata in
    Return
      match has_transparency (basic_info metadata),
            is_photo_like characteristics,
            is_simple_graphic characteristics,
            prefer_quality self with
      | true, _, _, _ => if prefer_quality self then "WEBP" else "PNG"
      | false, true, _, true => "WEBP"
      | false, true, _, false => "JPEG"
      | false, false, true, _ => "PNG"
      | _, _, _, _ => "WEBP"
      end.

Definition _apply_user_config (env : Env) (self : CompressionStrategy)
    (config : CompressionConfig) (metadata : ImageMetadata)
  : Exc CompressionDecision :=
  let quality := effective_quality config in
  let* format_hint := _suggest_format self metadata (target_format config) in
  let st :=
    match quality with
    | None => StrategyType.LOSSLESS
    | Some _ => StrategyType.LOSSY
    end in
  CompressionDecision_new env st quality (Some format_hint) "用户指定配置" false.

Definition select_optimal (env : Env) (self : CompressionStrategy)
    (metadata : ImageMetadata) (config : option CompressionConfig)
  : Exc CompressionDecision :=
  match config with
  | Some c =>
      match quality_mode c with
      | QualityMode.CUSTOM => _apply_user_config env self c metadata
      | QualityMode.LOSSLESS => _analyze_and_decide env self metadata
      end
  | None => _analyze_and_decide env self metadata
  end.

(* ===================================================================== *)
(** ** core/formats.py: the save parameters                               *)
(* ===================================================================== *)

Definition clamp_quality (quality : Z) : Z := Z.max 1 (Z.min 100 quality).

Definition jpeg_input (config : CompressionConfig) : bool :=
  Str.mem (Str.lower (PathOps.suffix (input_path config))) [".jpg"; ".jpeg"].

Definition get_jpeg_params (quality : option Z) (config : CompressionConfig)
  : Params * option Z :=
  let build (jpeg_quality : Z) : Params * option Z :=
    let params : Params :=
      <["progressive" :=
          PyBool (if is_some quality then progressive config else false)]>
      (<["optimize" := PyBool (optimize config)]>
      (<["quality" := PyInt jpeg_quality]> ∅)) in
    let params : Params :=
      if is_some quality || negb (jpeg_input config) then
        if 95 <=? jpeg_quality then <["subsampling" := PyInt 1]> params
        else if 85 <=? jpeg_quality then <["subsampling" := PyInt 1]> params
        else <["subsampling" := PyInt 2]> params
      else params in
    let params : Params :=
      if strip_metadata config
      then <["icc_profile" := PyNone]> (<["exif" := PyBytes ""]> params)
      else params in
    (params, Some jpeg_quality) in
  match quality with
  | None =>
      if jpeg_input config
      then (<["skip_processing" := PyBool true]> ∅, None)
      else
        let input_ext := Str.lower (PathOps.suffix (input_path config)) in
        if Str.mem input_ext [".webp"; ".avif"; ".heif"]
        then build 75
        else build 85
  | Some q =>
      let jpeg_quality := clamp_quality q in
      let jpeg_quality := if jpeg_quality =? 100 then 98 else jpeg_quality in
      build jpeg_quality
  end.

Definition get_png_params (quality : option Z) (config : CompressionConfig)
  : Params :=
  let compress_level := match quality with None => 9 | Some _ => 9 end in
  <["bits" := PyInt 8]>
  (<["compress_level" := PyInt compress_level]>
  (<["optimize" := PyBool (optimize config)]> ∅)).

Definition get_webp_params (quality : option Z) (config : CompressionConfig)
  : Params :=
  match quality with
  | None =>
      <["exact" := PyBool true]> (<["method" := PyInt 2]>
      (<["quality" := PyInt 30]> (<["lossless" := PyBool true]> ∅)))
  | Some q =>
      let webp_quality := clamp_quality q in
      let params : Params :=
        <["method" := PyInt 6]> (<["quality" := PyInt webp_quality]> ∅) in
      if 85 <=? webp_quality then <["alpha_quality" := PyInt 100]> params
      else if 70 <=? webp_quality
           then <["alpha_quality" := PyInt (Z.min 100 (webp_quality + 10))]> params
           else <["alpha_quality" := PyInt webp_quality]> params
  end.

Definition get_avif_params (quality : option Z) (config : CompressionConfig)
  : Params :=
  match quality with
  | None =>
      <["speed" := PyInt 4]> (<["quality" := PyInt 100]>
      (<["lossless" := PyBool true]> ∅))
  | Some q =>
      let avif_quality := clamp_quality q in
      let params : Params := <["quality" := PyInt avif_quality]> ∅ in
      let params : Params :=
        if 90 <=? avif_quality then <["speed" := PyInt 2]> params
        else if 70 <=? avif_quality then <["speed" := PyInt 4]> params
        else <["speed" := PyInt 6]> params in
      if 95 <=? avif_quality then <["subsampling" := PyStr "4:4:4"]> params
      else if 80 <=? avif_quality then <["subsampling" := PyStr "4:2:2"]> params
      else <["subsampling" := PyStr "4:2:0"]> params
  end.

Definition get_heif_params (quality : option Z) (config : CompressionConfig)
  : Params :=
  match quality with
  | None => <["quality" := PyInt 100]> ∅
  | Some q => <["quality" := PyInt (clamp_quality q)]> ∅
  end.

Definition get_save_parameters (format_name : string)
    (config : CompressionConfig) : Params * option Z :=
  let quality := effective_quality config in
  if String.eqb format_name "JPEG" then get_jpeg_params quality config
  else if String.eqb format_name "PNG" then (get_png_params quality config, quality)
  else if String.eqb format_name "WEBP" then (get_webp_params quality config, quality)
  else if String.eqb format_name "AVIF" then (get_avif_params quality config, quality)
  else if String.eqb format_name "HEIF" then (get_heif_params quality config, quality)
  else (∅, quality).

(** [params.get(key)] read as a truth value. *)
Definition param_truthy (params : Params) (key : string) : bool :=
  match params !! key with
  | Some v => py_truthy v
  | None => false
  end.

(* ===================================================================== *)
(** ** core/optimizer.py: refinement of the save parameters               *)
(* ===================================================================== *)

Module Optimizer.

(** The integer a parameter value stands for in a comparison or in
    arithmetic; [bool] is an [int] in Python, the other values are not. *)
Definition py_int (v : PyVal) : option Z :=
  match v with
  | PyInt n => Some n
  | PyBool b => Some (if b then 1 else 0)
  | _ => None
  end.

(** [params.get(key, default)]. *)
Definition get (params : Params) (key : string) (dflt : PyVal) : PyVal :=
  match params !! key with
  | Some v => v
  | None => dflt
  end.

(** [isinstance(v, int) and test(v)]. *)
Definition is_int_and (v : PyVal) (test : Z -> bool) : bool :=
  match py_int v with
  | Some n => test n
  | None => false
  end.

Definition type_error : Exn :=
  mkExn OtherError "not supported between instances".

(** [v], used as a number; a [TypeError] for a value that is none. *)
Definition number (v : PyVal) : Exc Z :=
  match py_int v with
  | Some n => Return n
  | None => Raise type_error
  end.

(** [v and test(v)]: false for a falsy value, a [TypeError] for a truthy
    one that is no number. *)
Definition truthy_and (v : PyVal) (test : Z -> bool) : Exc bool :=
  if py_truthy v then let* n := number v in Return (test n)
  else Return false.

Definition pixels (basic : BasicImageInfo) : Z := width basic * height basic.

(** *** JPEG *)

Definition _apply_basic_jpeg_optimization (params : Params)
    (basic : BasicImageInfo) (quality : PyVal) : Params :=
  if String.eqb (format basic) "JPEG" then
    if Num.gtb (file_size_mb basic) 1 || is_int_and quality (fun q => q <? 80)
    then <["optimize" := PyBool true]> params
    else params
  else <["optimize" := PyBool true]> params.

Definition _set_photo_subsampling (params : Params) (quality : PyVal)
  : Params :=
  if is_int_and quality (fun q => 90 <=? q)
  then <["subsampling" := PyStr "4:4:4"]> params
  else if is_int_and quality (fun q => 75 <=? q)
  then <["subsampling" := PyStr "4:2:2"]> params
  else if is_int_and quality (fun _ => true)
  then <["subsampling" := PyStr "4:2:0"]> params
  else params.

Definition _optimize_photo_jpeg (params : Params) (basic : BasicImageInfo)
    (quality : PyVal) : Params :=
  let params :=
    if 2000000 <? pixels basic
    then _set_photo_subsampling (<["progressive" := PyBool true]> params) quality
    else <["subsampling" := PyStr "4:4:4"]> params in
  if is_int_and quality (fun q => 95 <=? q)
  then <["keep_rgb" := PyBool true]> params
  else params.

Definition _optimize_graphic_jpeg (params : Params) : Params :=
  <["subsampling" := PyStr "4:4:4"]>
  (<["progressive" := PyBool false]>
  (<["optimize" := PyBool true]> params)).

Definition _apply_jpeg_feature_optimization (params : Params)
    (characteristics : ImageCharacteristics) (basic : BasicImageInfo)
    (quality : PyVal) : Params :=
  if is_photo_like characteristics
  then _optimize_photo_jpeg params basic quality
  else if is_simple_graphic characteristics
  then _optimize_graphic_jpeg params
  else params.

Definition _apply_jpeg_size_optimization (params : Params)
    (basic : BasicImageInfo) : Params :=
  if Num.gtb (file_size_mb basic) 5
  then <["progressive" := PyBool true]> (<["optimize" := PyBool true]> params)
  else params.

Definition _apply_jpeg_restart_markers (params : Params)
    (basic : BasicImageInfo) (quality : PyVal) : Params :=
  if (4000000 <? pixels basic) && is_int_and quality (fun q => 80 <=? q)
  then <["restart_marker_blocks" := PyInt 64]> params
  else params.

Definition _optimize_jpeg_params (config : CompressionConfig)
    (metadata : ImageMetadata) (params : Params) : Exc Params :=
  let basic := basic_info metadata in
  let* characteristics := analyze_image_from_metadata metadata in
  let quality := get params "quality" (PyInt 85) in
  if QualityMode.eqb (quality_mode config) QualityMode.LOSSLESS
     && String.eqb (format basic) "JPEG"
  then Return (<["optimize" := PyBool true]> ∅)
  else
    let params := _apply_basic_jpeg_optimization params basic quality in
    let params :=
      _apply_jpeg_feature_optimization params characteristics basic quality in
    let params := _apply_jpeg_size_optimization params basic in
    let params := _apply_jpeg_restart_markers params basic quality in
    Return params.

(** *** PNG *)

Definition _optimize_png_params (config : CompressionConfig)
    (metadata : ImageMetadata) (params : Params) : Exc Params :=
  let basic := basic_info metadata in
  let* characteristics := analyze_image_from_metadata metadata in
  let params : Params :=
    if is_simple_graphic characteristics then
      let params : Params :=
        <["optimize" := PyBool true]>
        (<["compress_level" := PyInt 9]> params) in
      if negb (has_transparency basic) && Str.mem (mode basic) ["RGB"; "L"]
      then <["bits" := PyInt 8]> params
      else params
    else if is_photo_like characteristics then
      <["optimize" := PyBool true]> (<["compress_level" := PyInt 6]> params)
    else
      <["optimize" := PyBool true]> (<["compress_level" := PyInt 7]> params) in
  let* params :=
    if 4000000 <? pixels basic then
      let* level := number (get params "compress_level" PyNone) in
      Return (<["compress_level" := PyInt (Z.min level 6)]> params)
    else if pixels basic <? 100000 then
      Return (<["compress_level" := PyInt 9]> params)
    else Return params in
  let params : Params :=
    if has_transparency basic then
      let params : Params := <["optimize" := PyBool true]> params in
      if String.eqb (mode basic) "RGBA"
      then <["bits" := PyInt 8]> params
      else params
    else params in
  let params : Params :=
    if Num.gtb (file_size_mb basic) 2
    then <["optimize" := PyBool true]> (<["compress_level" := PyInt 9]> params)
    else params in
  Return params.

(** *** WEBP *)

Definition _optimize_webp_lossless_params (metadata : ImageMetadata)
    (params : Params) : Exc Params :=
  let basic := basic_info metadata in
  let* characteristics := analyze_image_from_metadata metadata in
  let params : Params :=
    <["method" := PyInt 6]> (<["exact" := PyBool true]> params) in
  if is_simple_graphic characteristics
  then Return (<["quality" := PyInt 100]> params)
  else if 2000000 <? pixels basic
  then Return (<["quality" := PyInt 80]> (<["method" := PyInt 4]> params))
  else Return (<["quality" := PyInt 90]> params).

Definition pass_for (q : Z) : Z :=
  if 90 <=? q then 10 else if 70 <=? q then 6 else 4.

Definition _apply_webp_photo_settings (params : Params) (quality : PyVal)
  : Exc Params :=
  let params : Params :=
    <["filter_type" := PyInt 1]> (<["filter_sharpness" := PyInt 0]>
    (<["filter_strength" := PyInt 60]> (<["sns_strength" := PyInt 50]>
    (<["segments" := PyInt 4]> (<["method" := PyInt 6]> params))))) in
  let* q := number quality in
  Return (<["pass" := PyInt (pass_for q)]> params).

Definition _apply_webp_graphic_settings (params : Params) : Params :=
  <["pass" := PyInt 6]> (<["filter_type" := PyInt 0]>
  (<["segments" := PyInt 1]> (<["method" := PyInt 6]> params))).

Definition _apply_webp_general_settings (params : Params) (quality : PyVal)
  : Exc Params :=
  let* q := number quality in
  if 90 <=? q then
    Return (<["alpha_quality" := PyInt (Z.min 100 (q + 5))]>
            (<["pass" := PyInt 10]> params))
  else if 70 <=? q then
    Return (<["alpha_quality" := quality]> (<["pass" := PyInt 6]> params))
  else
    Return (<["alpha_quality" := PyInt (Z.max 50 (q - 10))]>
            (<["pass" := PyInt 4]> params)).

Definition _apply_webp_transparency_optimization (params : Params)
    (basic : BasicImageInfo) (quality : PyVal) : Exc Params :=
  if has_transparency basic then
    let* alpha := number (get params "alpha_quality" quality) in
    Return (<["alpha_quality" := PyInt (Z.max alpha 80)]> params)
  else Return params.

Definition _apply_webp_size_optimization (params : Params)
    (basic : BasicImageInfo) : Params :=
  if Num.gtb (file_size_mb basic) 3
  then <["method" := PyInt 6]> (<["autofilter" := PyBool true]> params)
  else if Num.ltb (file_size_mb basic) (5 # 10)
  then <["method" := PyInt 6]> params
  else params.

Definition _optimize_webp_lossy_params (metadata : ImageMetadata)
    (params : Params) : Exc Params :=
  let basic := basic_info metadata in
  let* characteristics := analyze_image_from_metadata metadata in
  let quality := get params "quality" (PyInt 80) in
  let* params :=
    if is_photo_like characteristics
    then _apply_webp_photo_settings params quality
    else if is_simple_graphic characteristics
    then Return (_apply_webp_graphic_settings params)
    else _apply_webp_general_settings params quality in
  let* params := _apply_webp_transparency_optimization params basic quality in
  Return (_apply_webp_size_optimization params basic).

Definition _optimize_webp_params (config : CompressionConfig)
    (metadata : ImageMetadata) (params : Params) : Exc Params :=
  if py_truthy (get params "lossless" PyNone)
  then _optimize_webp_lossless_params metadata params
  else _optimize_webp_lossy_params metadata params.

(** *** AVIF and HEIF *)

Definition _optimize_avif_params (config : CompressionConfig)
    (metadata : ImageMetadata) (params : Params) : Exc Params :=
  let basic := basic_info metadata in
  let* characteristics := analyze_image_from_metadata metadata in
  let quality := get params "quality" (PyInt 80) in
  let params : Params :=
    if is_photo_like characteristics then
      if 4000000 <? pixels basic
      then <["speed" := PyInt 4]> params
      else <["speed" := PyInt 2]> params
    else if is_simple_graphic characteristics
    then <["speed" := PyInt 1]> params
    else <["speed" := PyInt 4]> params in
  let* high := truthy_and quality (fun q => 95 <=? q) in
  Return (if high then <["speed" := PyInt 1]> params else params).

Definition _optimize_heif_params (config : CompressionConfig)
    (metadata : ImageMetadata) (params : Params) : Exc Params :=
  let* characteristics := analyze_image_from_metadata metadata in
  let quality := get params "quality" (PyInt 80) in
  let* raise_it :=
    if is_photo_like characteristics
    then truthy_and quality (fun q => q <? 90)
    else Return false in
  if raise_it then
    let* q := number quality in
    Return (<["quality" := PyInt (Z.min 100 (q + 5))]> params)
  else
    let* lower_it :=
      if is_simple_graphic characteristics
      then truthy_and quality (fun q => 70 <? q)
      else Return false in
    if lower_it then
      let* q := number quality in
      Return (<["quality" := PyInt (Z.max 70 (q - 5))]> params)
    else Return params.

(** [CompressionOptimizer.optimize_parameters]: an exception of a format's
    optimizer is logged and the base parameters are returned. *)
Definition optimize_parameters (format_name : string)
    (config : CompressionConfig) (metadata : ImageMetadata)
    (base_params : Params) : Params :=
  let guarded (m : Exc Params) : Params :=
    match m with
    | Return params => params
    | Raise _ => base_params
    end in
  if String.eqb format_name "JPEG"
  then guarded (_optimize_jpeg_params config metadata base_params)
  else if String.eqb format_name "PNG"
  then guarded (_optimize_png_params config metadata base_params)
  else if String.eqb format_name "WEBP"
  then guarded (_optimize_webp_params config metadata base_params)
  else if String.eqb format_name "AVIF"
  then guarded (_optimize_avif_params config metadata base_params)
  else if String.eqb format_name "HEIF"
  then guarded (_optimize_heif_params config metadata base_params)
  else base_params.

End Optimizer.

(* ===================================================================== *)
(** ** exceptions.py: [ErrorHandler]                                      *)
(* ===================================================================== *)

Module ErrorHandler.

Definition _create_error_result (env : Env) (input : Path)
    (error_msg : string) (output : option Path) (original : option Z)
  : IO CompressionResult :=
  fun fs =>
    let original_size :=
      match original with
      | Some n => n
      | None =>
          match fs !! Os.file env input with Some f => st_size f | None => 0 end
      end in
    let out :=
      match output with
      | Some p => Some p
      | None => PathOps.with_suffix input ".compressed"
      end in
    match out with
    | None => (Raise (mkExn OtherError "has an empty name"), fs)
    | Some out =>
        (Return {| Result.input_path := input;
                   Result.output_path := out;
                   Result.original_size := original_size;
                   Result.compressed_size := 0;
                   Result.success := false;
                   Result.error := Some error_msg;
                   Result.format_used := "UNKNOWN";
                   Result.quality_used := None;
                   Result.was_resized := false;
                   Result.original_dimensions := None;
                   Result.final_dimensions := None |}, fs)
    end.

Definition handle_validation_error (env : Env) (e : Exn) (input : Path)
    (output : option Path) : IO CompressionResult :=
  _create_error_result env input ("参数验证失败: " ++ exn_msg e) output None.

Definition handle_with_context (env : Env) (e : Exn) (input : Path)
    (operation : string) (output : option Path) : IO CompressionResult :=
  _create_error_result env input (operation ++ ": " ++ exn_msg e) output None.

Definition handle_compression_error (env : Env) (e : Exn) (input : Path)
    (operation : string) : IO CompressionResult :=
  match exn_class e with
  | ValidationError => handle_validation_error env e input None
  | UnsupportedFormatError => handle_with_context env e input operation None
  | FileNotFoundError => handle_with_context env e input operation None
  | PermissionError =>
      handle_with_context env e input (operation ++ " - 权限错误") None
  | OSError =>
      handle_with_context env e input (operation ++ " - 系统错误") None
  | OtherError => handle_with_context env e input operation None
  end.

End ErrorHandler.

(* ===================================================================== *)
(** ** core/compression_engine.py                                         *)
(* ===================================================================== *)

(** [str(path)]. *)
Definition Path_str (p : Path) : string :=
  if Str.truthy (parent p) then parent p ++ "/" ++ name p else name p.

Definition _create_skip_result (env : Env) (config : CompressionConfig)
    (why : string) : IO CompressionResult :=
  let out := get_output_path env config (input_path config) None false in
  let! _ := Os.mkdir env (parent out) in
  let! _ := Os.copy2 env (input_path config) out in
  let! size_on_disk := Os.stat_size env (input_path config) in
  io_ret {| Result.input_path := input_path config;
            Result.output_path := out;
            Result.original_size := size_on_disk;
            Result.compressed_size := size_on_disk;
            Result.success := true;
            Result.format_used := "SKIPPED";
            Result.error := Some ("跳过压缩: " ++ why);
            Result.quality_used := None;
            Result.was_resized := false;
            Result.original_dimensions := None;
            Result.final_dimensions := None |}.

Definition _apply_strategy_decision (config : CompressionConfig)
    (decision : CompressionDecision) : CompressionConfig :=
  let new_target :=
    if opt_truthy (recommended_format decision)
    then recommended_format decision
    else target_format config in
  let '(new_quality, new_mode) :=
    match recommended_quality decision with
    | Some q => (Some q, QualityMode.CUSTOM)
    | None => (custom_quality config, quality_mode config)
    end in
  {| input_path := input_path config;
     output_path := output_path config;
     output_dir := output_dir config;
     quality_mode := new_mode;
     custom_quality := new_quality;
     target_format := new_target;
     preserve_format := preserve_format config;
     resize_config := resize_config config;
     optimize := optimize config;
     progressive := progressive config;
     strip_metadata := strip_metadata config;
     keep_orientation := keep_orientation config;
     fallback_to_original := fallback_to_original config |}.

(** [(original_size - compressed_size) / original_size]: the quotient of
    two integers, rounded. *)
Definition compression_ratio (original_size compressed_size : Z) : Q :=
  if 0 <? original_size
  then Float.div (inject_Z (original_size - compressed_size))
                 (inject_Z original_size)
  else 0%Q.

Definition should_use_original_name (config : CompressionConfig)
    (original_size compressed_size : Z) : bool :=
  QualityMode.eqb (quality_mode config) QualityMode.LOSSLESS
  && Num.ltb (compression_ratio original_size compressed_size)
             (Float.lit (5 # 100))
  && negb (is_some (output_path config)).

(** The threshold as the source writes it, [1.005] or [1.02]. *)
Definition fallback_threshold (config : CompressionConfig) : Q :=
  match custom_quality config with
  | None => 1005 # 1000
  | Some _ => 102 # 100
  end.

(** [original_size * fallback_threshold]: the integer becomes a float, the
    literal is one, and their product is rounded. *)
Definition threshold_size (config : CompressionConfig) (original_size : Z)
  : Q :=
  Float.mul (Float.of_Z original_size) (Float.lit (fallback_threshold config)).

(** [compressed_size > original_size * fallback_threshold]; Python
    compares an integer with a float exactly. *)
Definition exceeds_threshold (config : CompressionConfig)
    (original_size compressed_size : Z) : bool :=
  Num.gtb (inject_Z compressed_size) (threshold_size config original_size).

(** The renaming step of [_post_process_result]; an [OSError] of the
    renaming is logged and the name kept. *)
Definition rename_if_negligible (env : Env) (config : CompressionConfig)
    (out : Path) (original_size compressed_size : Z) (target : string)
  : IO Path :=
  if should_use_original_name config original_size compressed_size then
    let new_output_path :=
      get_output_path env config (input_path config) (Some target) true in
    if negb (bool_decide (new_output_path = out))
       && negb (bool_decide (new_output_path = input_path config))
    then
      io_try (let! _ := Os.rename env out new_output_path in
              io_ret new_output_path)
             (fun e => if is_OSError e then io_ret out else io_raise e)
    else io_ret out
  else io_ret out.

(** The fallback step of [_post_process_result]; the warning it logs first
    divides by [original_size]. *)
Definition fallback_if_larger (env : Env) (config : CompressionConfig)
    (out : Path) (original_size compressed_size : Z) : IO Z :=
  if exceeds_threshold config original_size compressed_size then
    if original_size =? 0
    then io_raise (mkExn OtherError "division by zero")
    else
      io_try (let! _ := Os.unlink env out in
              let! _ := Os.copy2 env (input_path config) out in
              io_ret original_size)
             (fun e => if is_OSError e then io_ret compressed_size
                       else io_raise e)
  else io_ret compressed_size.

Definition _post_process_result (env : Env) (config : CompressionConfig)
    (out : Path) (original_size compressed_size : Z) (target : string)
  : IO (Path * Z) :=
  let! out := rename_if_negligible env config out original_size
                compressed_size target in
  let! compressed_size := fallback_if_larger env config out original_size
                            compressed_size in
  io_ret (out, compressed_size).

(** [processed_img.save(output_path, **save_params)].  The call names no
    format, so Pillow reads the encoder off the extension of the path and
    raises [ValueError], before it opens the file, when no encoder is
    registered for it. *)
Definition image_save (env : Env) (config : CompressionConfig)
    (metadata : ImageMetadata) (target : string) (base_params : Params)
  : SaveOutcome :=
  let out := get_output_path env config (input_path config) None false in
  match Os.encoder env out with
  | Some _ => pil_save env config metadata target base_params
  | None =>
      SaveRaises
        (mkExn OtherError
               ("unknown file extension: "
                ++ Str.lower (PathOps.splitext (name out))))
        Untouched
  end.

(** The target format [_compress_image] settles on. *)
Definition determine_target_format (config : CompressionConfig)
    (metadata : ImageMetadata) : string :=
  let target := opt_or (target_format config) (format (basic_info metadata)) in
  if String.eqb target "UNKNOWN" then "JPEG" else target.

Definition _compress_image (env : Env) (config : CompressionConfig)
    (metadata : ImageMetadata) : IO CompressionResult :=
  let original_size := file_size (basic_info metadata) in
  let out := get_output_path env config (input_path config) None false in
  let! _ := Os.mkdir env (parent out) in
  let target := determine_target_format config metadata in
  let! processed_img :=
    (fun fs =>
       match fs !! Os.file env (input_path config) with
       | None => (Raise (mkExn FileNotFoundError "No such file or directory"), fs)
       | Some f => (pil_process env config f target, fs)
       end) in
  let '(base_params, actual_quality) := get_save_parameters target config in
  if param_truthy base_params "skip_processing"
  then _create_skip_result env config "JPEG无损模式跳过处理"
  else
    let! compressed_size :=
      (fun fs =>
         let o := image_save env config metadata target base_params in
         match o with
         | Saved f => (Return (st_size f), Os.after_save env out o fs)
         | SaveRaises e _ => (Raise e, Os.after_save env out o fs)
         end) in
    let! post := _post_process_result env config out original_size
                   compressed_size target in
    io_ret {| Result.input_path := input_path config;
              Result.output_path := fst post;
              Result.original_size := original_size;
              Result.compressed_size := snd post;
              Result.success := true;
              Result.format_used := target;
              Result.quality_used := actual_quality;
              Result.was_resized := p_was_resized processed_img;
              Result.original_dimensions :=
                Some (p_original_dimensions processed_img);
              Result.final_dimensions := Some (p_size processed_img);
              Result.error := None |}.

(** The body of the [try] of [process_image]. *)
Definition process_image_body (env : Env) (config : CompressionConfig)
  : IO CompressionResult :=
  fun fs =>
    if negb (Os.exists_ env (input_path config) fs)
    then
      ErrorHandler.handle_with_context env
        (mkExn FileNotFoundError
               ("输入文件不存在: " ++ Path_str (input_path config)))
        (input_path config) "文件验证" None fs
    else
      let strategy := CompressionStrategy_new env in
      (let! metadata := extract env (input_path config) in
       if negb (opt_truthy (target_format config))
          && QualityMode.eqb (quality_mode config) QualityMode.LOSSLESS
       then
         let! decision :=
           io_lift (select_optimal env strategy metadata (Some config)) in
         if skip_compression decision
         then _create_skip_result env config (reason decision)
         else _compress_image env (_apply_strategy_decision config decision)
                              metadata
       else _compress_image env config metadata) fs.

Definition process_image (env : Env) (config : CompressionConfig)
  : IO CompressionResult :=
  io_try (process_image_body env config)
         (fun e =>
            ErrorHandler.handle_compression_error env e (input_path config)
              "图像压缩引擎").

(* ===================================================================== *)
(** ** The specification's wording, for comparison with the code         *)
(* ===================================================================== *)

(** The guard in the words of the specification: under 5 KiB; or WEBP or
    JPEG under 50 KiB; or PNG under 100 KiB with fewer than 1.5 bytes per
    pixel. *)
Definition skip_guard_spec (metadata : ImageMetadata) : Prop :=
  let basic := basic_info metadata in
  file_size basic < 5 * 1024
  \/ ((format basic = "WEBP" \/ format basic = "JPEG")
      /\ file_size basic < 50 * 1024)
  \/ (format basic = "PNG" /\ file_size basic < 100 * 1024
      /\ (Num.div (file_size basic) (width basic * height basic) < 15 # 10)%Q).

(** The shape of every result [ErrorHandler] builds for [process_image]:
    a failure with a message, whose output path is the input path with its
    suffix replaced by [.compressed]. *)
Definition is_error_result (input : Path) (r : CompressionResult) : Prop :=
  Result.success r = false
  /\ is_some (Result.error r) = true
  /\ PathOps.with_suffix input ".compressed" = Some (Result.output_path r)
  /\ Result.input_path r = input
  /\ Result.compressed_size r = 0
  /\ Result.format_used r = "UNKNOWN".

(** Every decision of the strategy went through the validators. *)
Definition validated_decision (env : Env) (d : CompressionDecision) : Prop :=
  (forall n, recommended_quality d = Some n -> 1 <= n <= 100)
  /\ (forall f, recommended_format d = Some f ->
                Str.upper f = f /\ supported_format env f = true).

(** A computation over the file system that leaves the file [i] (or its
    absence) as it found it, whether it returns or raises. *)
Definition keeps_file {A} (i : FileId) (m : IO A) : Prop :=
  forall fs, snd (m fs) !! i = fs !! i.

(** The paths the executor writes under the configuration [c] are names
    of other files than the input: the path the encoder writes, and every
    rename target that passes the executor's own test, which compares
    spellings. *)
Definition writes_elsewhere (env : Env) (c : CompressionConfig) : Prop :=
  Os.file env (get_output_path env c (input_path c) None false)
  <> Os.file env (input_path c)
  /\ forall target,
       get_output_path env c (input_path c) (Some target) true
       <> input_path c ->
       Os.file env (get_output_path env c (input_path c) (Some target) true)
       <> Os.file env (input_path c).

(* ===================================================================== *)
(** ** Concrete worlds, used to run the engine                            *)
(* ===================================================================== *)

Module World.

(** A part of Pillow's table of registered extensions. *)
Definition pillow_extensions : list (string * string) :=
  [(".bmp", "BMP"); (".gif", "GIF"); (".jpg", "JPEG"); (".jpeg", "JPEG");
   (".png", "PNG"); (".tif", "TIFF"); (".tiff", "TIFF"); (".webp", "WEBP")].

(** An RGB image of 400 x 300 pixels whose copy after EXIF transposition
    carries no format, as Pillow's copies do; no histogram, no metrics. *)
Definition plain_image : DecodedImage :=
  {| img_format := None; img_mode := "RGB"; img_width := 400;
     img_height := 300; info_transparency := false; n_frames := None;
     img_histogram := None; img_complexity := None |}.

Definition untouched : ProcessedImage :=
  {| p_was_resized := false; p_original_dimensions := (400, 300);
     p_size := (400, 300) |}.

(** A world in which every system call succeeds, every image opens as
    [img] and the encoder answers [saves]; every directory is spelled in
    one way only and the volume is case-sensitive. *)
Definition calm (img : DecodedImage) (saves : SaveOutcome) : Env :=
  {| app_config := default_app_config;
     registered_extensions := pillow_extensions;
     pil_open := fun _ _ => Return img;
     pil_process := fun _ _ _ => Return untouched;
     pil_save := fun _ _ _ _ => saves;
     os_realdir := fun dir => dir;
     os_case_insensitive := false;
     os_mkdir_error := fun _ => None;
     os_copy_error := fun _ _ => None;
     os_unlink_error := fun _ => None;
     os_rename_error := fun _ _ => None |}.

(** The same world with a read-only output directory entry: [unlink]
    is refused. *)
Definition no_unlink (img : DecodedImage) (saves : SaveOutcome) : Env :=
  {| app_config := default_app_config;
     registered_extensions := pillow_extensions;
     pil_open := fun _ _ => Return img;
     pil_process := fun _ _ _ => Return untouched;
     pil_save := fun _ _ _ _ => saves;
     os_realdir := fun dir => dir;
     os_case_insensitive := false;
     os_mkdir_error := fun _ => None;
     os_copy_error := fun _ _ => None;
     os_unlink_error := fun _ => Some (mkExn PermissionError "Permission denied");
     os_rename_error := fun _ _ => None |}.

(** The configuration [CompressionConfig(input_path=p)] with every other
    field at its default: auto mode. *)
Definition auto (p : Path) : CompressionConfig :=
  {| input_path := p; output_path := None; output_dir := None;
     quality_mode := QualityMode.LOSSLESS; custom_quality := None;
     target_format := None; preserve_format := true; resize_config := None;
     optimize := true; progressive := true; strip_metadata := false;
     keep_orientation := true; fallback_to_original := false |}.

(** The calm world on a volume that ignores case, as the default volumes
    of macOS and Windows do. *)
Definition caseless (img : DecodedImage) (saves : SaveOutcome) : Env :=
  {| app_config := default_app_config;
     registered_extensions := pillow_extensions;
     pil_open := fun _ _ => Return img;
     pil_process := fun _ _ _ => Return untouched;
     pil_save := fun _ _ _ _ => saves;
     os_realdir := fun dir => dir;
     os_case_insensitive := true;
     os_mkdir_error := fun _ => None;
     os_copy_error := fun _ _ => None;
     os_unlink_error := fun _ => None;
     os_rename_error := fun _ _ => None |}.

Definition with_format (fmt : string) (c : CompressionConfig)
  : CompressionConfig :=
  {| input_path := input_path c; output_path := output_path c;
     output_dir := output_dir c; quality_mode := quality_mode c;
     custom_quality := custom_quality c; target_format := Some fmt;
     preserve_format := preserve_format c; resize_config := resize_config c;
     optimize := optimize c; progressive := progressive c;
     strip_metadata := strip_metadata c;
     keep_orientation := keep_orientation c;
     fallback_to_original := fallback_to_original c |}.

Definition with_quality (q : Z) (c : CompressionConfig)
  : CompressionConfig :=
  {| input_path := input_path c; output_path := output_path c;
     output_dir := output_dir c; quality_mode := QualityMode.CUSTOM;
     custom_quality := Some q; target_format := target_format c;
     preserve_format := preserve_format c; resize_config := resize_config c;
     optimize := optimize c; progressive := progressive c;
     strip_metadata := strip_metadata c;
     keep_orientation := keep_orientation c;
     fallback_to_original := fallback_to_original c |}.

Definition with_output (out : Path) (c : CompressionConfig)
  : CompressionConfig :=
  {| input_path := input_path c; output_path := Some out;
     output_dir := output_dir c; quality_mode := quality_mode c;
     custom_quality := custom_quality c; target_format := target_format c;
     preserve_format := preserve_format c; resize_config := resize_config c;
     optimize := optimize c; progressive := progressive c;
     strip_metadata := strip_metadata c;
     keep_orientation := keep_orientation c;
     fallback_to_original := fallback_to_original c |}.

(** Metadata of a file of [n] bytes holding a [w] x [h] image of format
    [fmt], with optional complexity metrics. *)
Definition meta (p : Path) (fmt : string) (n w h : Z)
    (cx : option ComplexityMetrics) : ImageMetadata :=
  {| basic_info :=
       {| file_path := p; file_size := n; format := fmt; mode := "RGB";
          width := w; height := h; has_transparency := false;
          frame_count := 1 |};
     histogram := None;
     complexity := cx |}.

End World.

(* ===================================================================== *)
(** * Properties                                                          *)
(* ===================================================================== *)

(** ** Reasoning about sequenced code *)

Lemma io_bind_return {A B} (m : IO A) (k : A -> IO B) fs b fs' :
  io_bind m k fs = (Return b, fs') ->
  exists a fs1, m fs = (Return a, fs1) /\ k a fs1 = (Return b, fs').
Proof.
  unfold io_bind. destruct (m fs) as [[a | e] fs1]; intros H.
  - exists a, fs1. split; [reflexivity | exact H].
  - discriminate H.
Qed.

Lemma io_bind_step {A B} (m : IO A) (k : A -> IO B) fs a fs1 :
  m fs = (Return a, fs1) -> io_bind m k fs = k a fs1.
Proof. unfold io_bind. intros ->. reflexivity. Qed.

Lemma io_bind_raise {A B} (m : IO A) (k : A -> IO B) fs e fs1 :
  m fs = (Raise e, fs1) -> io_bind m k fs = (Raise e, fs1).
Proof. unfold io_bind. intros ->. reflexivity. Qed.

Lemma exc_bind_return {A B} (m : Exc A) (k : A -> Exc B) b :
  exc_bind m k = Return b -> exists a, m = Return a /\ k a = Return b.
Proof.
  destruct m as [a | e]; simpl; intros H; [eauto | discriminate H].
Qed.

(** A run that returned, read off its first component. *)
Lemma returned_pair {A} (x : Exc A * FS) (a : A) :
  fst x = Return a -> x = (Return a, snd x).
Proof. destruct x as [y fs]. cbn. intros ->. reflexivity. Qed.

(** Splits a hypothesis saying that sequenced code returned. *)
Ltac io_inv H :=
  let a := fresh "a" in
  let fs1 := fresh "fs" in
  let H1 := fresh "Hstep" in
  apply io_bind_return in H; destruct H as (a & fs1 & H1 & H).

(** ** Quality of the JPEG parameters *)

Lemma clamp_quality_range (q : Z) : 1 <= clamp_quality q <= 100.
Proof. unfold clamp_quality. lia. Qed.

Lemma get_jpeg_params_quality (config : CompressionConfig) (q : Z) :
  snd (get_jpeg_params (Some q) config)
  = Some (if clamp_quality q =? 100 then 98 else clamp_quality q).
Proof. reflexivity. Qed.

Lemma get_jpeg_params_quality_key (config : CompressionConfig) (q : Z) :
  fst (get_jpeg_params (Some q) config) !! "quality"
  = Some (PyInt (if clamp_quality q =? 100 then 98 else clamp_quality q)).
Proof.
  unfold get_jpeg_params. cbn [is_some orb fst].
  repeat match goal with
         | |- context [if ?b then _ else _] => destruct b
         end;
    repeat (rewrite lookup_insert_ne by discriminate);
    apply lookup_insert_eq.
Qed.

(** C4 - JPEG quality-100 clamp: the JPEG parameters built for an explicit
    quality [q] carry, under the key [quality] and as the reported
    quality, 1 for a [q] below 1, [q] itself from 1 to 99, and 98 for 100
    and for everything above: [q] is clamped to [1, 100] first and the 100
    that results is then replaced by 98.  So an explicit 100 yields
    exactly 98 and the effective quality is never 100, for the builder
    [get_jpeg_params] and for [get_save_parameters "JPEG"] alike. *)
Theorem jpeg_quality_100_becomes_98 :
  forall (config : CompressionConfig) (q : Z),
    exists (effective : Z) (params : Params),
      get_jpeg_params (Some q) config = (params, Some effective)
      /\ params !! "quality" = Some (PyInt effective)
      /\ (q < 1 -> effective = 1)
      /\ (1 <= q <= 99 -> effective = q)
      /\ (100 <= q -> effective = 98)
      /\ effective <> 100
      /\ (effective_quality config = Some q ->
          get_save_parameters "JPEG" config = (params, Some effective)).
Proof.
  intros config q.
  exists (if clamp_quality q =? 100 then 98 else clamp_quality q),
         (fst (get_jpeg_params (Some q) config)).
  split.
  { rewrite <- (get_jpeg_params_quality config q).
    destruct (get_jpeg_params (Some q) config); reflexivity. }
  split; [apply get_jpeg_params_quality_key |].
  assert (Hsave : effective_quality config = Some q ->
            get_save_parameters "JPEG" config
            = (fst (get_jpeg_params (Some q) config),
               Some (if clamp_quality q =? 100 then 98 else clamp_quality q))).
  { intros Hq. unfold get_save_parameters. rewrite Hq.
    cbn [String.eqb Ascii.eqb Bool.eqb].
    rewrite <- (get_jpeg_params_quality config q).
    destruct (get_jpeg_params (Some q) config); reflexivity. }
  unfold clamp_quality in *.
  destruct (Z.eqb_spec (Z.max 1 (Z.min 100 q)) 100) as [E | E];
    repeat split; try lia; exact Hsave.
Qed.

Lemma jpeg_quality_100_becomes_98_witness :
  let at_quality (q : Z) :=
    World.with_quality q (World.auto (mkPath "pics" "photo.png")) in
  snd (get_save_parameters "JPEG" (at_quality 100)) = Some 98
  /\ snd (get_save_parameters "JPEG" (at_quality 85)) = Some 85
  /\ snd (get_save_parameters "JPEG" (at_quality 150)) = Some 98
  /\ snd (get_save_parameters "JPEG" (at_quality 0)) = Some 1.
Proof.
  intros at_quality.
  assert (H : forall q, exists effective,
            snd (get_save_parameters "JPEG" (at_quality q)) = Some effective
            /\ (q < 1 -> effective = 1)
            /\ (1 <= q <= 99 -> effective = q)
            /\ (100 <= q -> effective = 98)).
  { intros q.
    destruct (jpeg_quality_100_becomes_98 (at_quality q) q)
      as (effective & params & _ & _ & Hlow & Hmid & Hhigh & _ & Hsave).
    exists effective. rewrite (Hsave eq_refl).
    split; [reflexivity |]. split; [exact Hlow |].
    split; [exact Hmid | exact Hhigh]. }
  split; [| split; [| split]].
  - destruct (H 100) as (e & -> & _ & _ & Hhigh). f_equal. apply Hhigh. lia.
  - destruct (H 85) as (e & -> & _ & Hmid & _). f_equal. apply Hmid. lia.
  - destruct (H 150) as (e & -> & _ & _ & Hhigh). f_equal. apply Hhigh. lia.
  - destruct (H 0) as (e & -> & Hlow & _). f_equal. apply Hlow. lia.
Defined.

(** ** The metadata-based classifier *)

Lemma overall_complexity_values (cx : ComplexityMetrics) :
  In (overall_complexity cx) ["very_low"; "low"; "medium"; "high"; "very_high"].
Proof.
  unfold overall_complexity.
  repeat match goal with
         | |- context [if ?b then _ else _] => destruct b
         end; simpl; tauto.
Qed.

Lemma overall_complexity_never_simple (cx : ComplexityMetrics) :
  String.eqb (overall_complexity cx) "simple" = false
  /\ Str.mem (overall_complexity cx) ["moderate"; "complex"] = false.
Proof.
  pose proof (overall_complexity_values cx) as H. simpl in H.
  destruct H as [<- | [<- | [<- | [<- | [<- | []]]]]]; split; reflexivity.
Qed.

(** With complexity metrics at hand, the classifier calls an image a
    simple graphic exactly when its colour diversity is below 0.1. *)
Lemma analyze_simple_graphic_is_color_diversity
    (metadata : ImageMetadata) (cx : ComplexityMetrics)
    (ch : ImageCharacteristics) :
  complexity metadata = Some cx ->
  analyze_image_from_metadata metadata = Return ch ->
  is_simple_graphic ch = Num.ltb (color_diversity cx) (1 # 10).
Proof.
  intros Hcx. unfold analyze_image_from_metadata. rewrite Hcx.
  destruct (overall_complexity_never_simple cx) as [-> ->].
  unfold ImageCharacteristics_new.
  destruct (Num.ltb (color_diversity cx) (1 # 10));
    destruct (Num.gtb (color_diversity cx) (5 # 10));
    repeat match goal with
           | |- context [match ?o with Some _ => _ | None => _ end] =>
               destruct o
           | |- context [if ?b then _ else _] => destruct b
           end;
    intros H; inversion H; reflexivity.
Qed.

(** C5 - metadata-based simple-graphic classification: the claim is that a
    [very_low] overall complexity alone makes [is_simple_graphic] true.
    The classifier compares the category with ["simple"], a value
    [overall_complexity] never takes, so the category is ignored: here the
    metrics (0, 0.25, 0) average to 0.083, the category is [very_low], the
    colour diversity 0.25 is not below 0.1, and the image is not classified
    as a simple graphic (while [_estimate_color_count] does treat
    [very_low] as simple). *)
Theorem very_low_complexity_not_simple_graphic :
  let cx := mkComplexity 0 (1 # 4) 0 0 in
  let metadata :=
    World.meta (mkPath "pics" "chart.png") "PNG" 300000 400 300 (Some cx) in
  overall_complexity cx = "very_low"
  /\ _estimate_color_count metadata = 120
  /\ exists ch, analyze_image_from_metadata metadata = Return ch
                /\ is_simple_graphic ch = false.
Proof.
  split; [reflexivity |]. split; [reflexivity |].
  eexists. split; reflexivity.
Qed.

(** ** Skip results *)

Lemma create_skip_result_fields (env : Env) (config : CompressionConfig)
    (why : string) (fs fs' : FS) (r : CompressionResult) :
  _create_skip_result env config why fs = (Return r, fs') ->
  exists n,
    r = {| Result.input_path := input_path config;
           Result.output_path :=
             get_output_path env config (input_path config) None false;
           Result.original_size := n;
           Result.compressed_size := n;
           Result.success := true;
           Result.format_used := "SKIPPED";
           Result.error := Some ("跳过压缩: " ++ why);
           Result.quality_used := None;
           Result.was_resized := false;
           Result.original_dimensions := None;
           Result.final_dimensions := None |}.
Proof.
  unfold _create_skip_result. intros H.
  io_inv H. io_inv H. io_inv H.
  unfold io_ret in H. inversion H. eauto.
Qed.

(** The skip path on a file that is there, in a world that lets it be
    copied: the output holds the input's bytes. *)
Lemma create_skip_result_copies (env : Env) (config : CompressionConfig)
    (why : string) (fs : FS) (f : FileData) :
  let out := get_output_path env config (input_path config) None false in
  fs !! Os.file env (input_path config) = Some f ->
  Os.file env out <> Os.file env (input_path config) ->
  os_mkdir_error env (parent out) = None ->
  os_copy_error env (input_path config) out = None ->
  _create_skip_result env config why fs
  = (Return {| Result.input_path := input_path config;
               Result.output_path := out;
               Result.original_size := st_size f;
               Result.compressed_size := st_size f;
               Result.success := true;
               Result.format_used := "SKIPPED";
               Result.error := Some ("跳过压缩: " ++ why);
               Result.quality_used := None;
               Result.was_resized := false;
               Result.original_dimensions := None;
               Result.final_dimensions := None |},
     <[Os.file env out := f]> fs).
Proof.
  intros out Hin Hne Hmk Hcp. unfold _create_skip_result. fold out.
  unfold io_bind, Os.mkdir, Os.copy2, Os.stat_size, io_ret.
  rewrite Hmk, Hin, Hcp.
  rewrite bool_decide_eq_false_2 by congruence.
  rewrite lookup_insert_ne by exact Hne. rewrite Hin. reflexivity.
Qed.

(** C9 - skip results: whatever [_create_skip_result] returns (it is the
    only constructor of skip results, for the strategy's skip and for the
    JPEG-lossless skip) has [success = true], [format_used = "SKIPPED"],
    equal sizes and an error string that ends with the skip reason; hence
    [is_successful], which also wants [error] to be [None], is false for
    it. *)
Theorem skip_result_is_not_successful :
  forall (env : Env) (config : CompressionConfig) (why : string)
         (fs fs' : FS) (r : CompressionResult),
    _create_skip_result env config why fs = (Return r, fs') ->
    Result.success r = true
    /\ Result.format_used r = "SKIPPED"
    /\ Result.compressed_size r = Result.original_size r
    /\ Result.error r = Some ("跳过压缩: " ++ why)
    /\ Result.is_successful r = false.
Proof.
  intros env config why fs fs' r H.
  destruct (create_skip_result_fields _ _ _ _ _ _ H) as [n ->].
  repeat split; reflexivity.
Qed.

Lemma skip_result_is_not_successful_witness :
  let env := World.calm World.plain_image (Saved (mkFile 900 2)) in
  let config := World.auto (mkPath "pics" "icon.png") in
  let fs : FS := {[ mkFileId "pics" "icon.png" := mkFile 1200 1 ]} in
  exists r fs',
    _create_skip_result env config "tiny" fs = (Return r, fs')
    /\ Result.success r = true
    /\ Result.is_successful r = false.
Proof.
  intros env config fs.
  assert (Hrun : exists r,
            fst (_create_skip_result env config "tiny" fs) = Return r)
    by (eexists; vm_compute; reflexivity).
  destruct Hrun as [r Hrun]. apply returned_pair in Hrun.
  exists r, (snd (_create_skip_result env config "tiny" fs)).
  split; [exact Hrun |].
  pose proof (skip_result_is_not_successful env config "tiny" fs _ r Hrun) as H.
  split; [exact (proj1 H) | exact (proj2 (proj2 (proj2 (proj2 H))))].
Defined.

(** ** The strategy's quality in auto mode *)

Lemma extract_return (env : Env) (p : Path) (fs fs' : FS)
    (metadata : ImageMetadata) :
  extract env p fs = (Return metadata, fs') ->
  fs' = fs /\ Os.exists_ env p fs = true.
Proof.
  unfold extract, Os.exists_.
  destruct (fs !! Os.file env p) as [f |]; [| discriminate].
  destruct (pil_open env p f); [| discriminate].
  intros H. inversion H. split; reflexivity.
Qed.

(** [extract] on a file that is there and that Pillow opens. *)
Lemma extract_opened (env : Env) (p : Path) (fs : FS) (f : FileData)
    (img : DecodedImage) :
  fs !! Os.file env p = Some f ->
  pil_open env p f = Return img ->
  extract env p fs
  = (Return {| basic_info := _extract_basic_info env img p (st_size f);
               histogram := img_histogram img;
               complexity := img_complexity img |}, fs).
Proof. intros Hfs Hopen. unfold extract. rewrite Hfs, Hopen. reflexivity. Qed.

(** The branch [process_image] takes in auto mode when the strategy does
    not skip: the executor runs on the rewritten configuration. *)
Lemma process_image_body_auto (env : Env) (config : CompressionConfig)
    (fs : FS) (metadata : ImageMetadata) (decision : CompressionDecision) :
  opt_truthy (target_format config) = false ->
  quality_mode config = QualityMode.LOSSLESS ->
  extract env (input_path config) fs = (Return metadata, fs) ->
  select_optimal env (CompressionStrategy_new env) metadata (Some config)
  = Return decision ->
  skip_compression decision = false ->
  process_image_body env config fs
  = _compress_image env (_apply_strategy_decision config decision) metadata fs.
Proof.
  intros Hfmt Hmode Hex Hsel Hskip. unfold process_image_body.
  destruct (extract_return _ _ _ _ _ Hex) as [_ ->]. cbn [negb].
  rewrite (io_bind_step _ _ _ _ _ Hex).
  rewrite Hfmt, Hmode. cbn [negb QualityMode.eqb andb].
  unfold io_bind at 1, io_lift. rewrite Hsel, Hskip. reflexivity.
Qed.



(** ** The JPEG-lossless skip *)

Lemma jpeg_lossless_signals_skip (config : CompressionConfig) :
  jpeg_input config = true ->
  effective_quality config = None ->
  get_save_parameters "JPEG" config
  = (<["skip_processing" := PyBool true]> ∅, None).
Proof.
  intros Hin Hq. unfold get_save_parameters, get_jpeg_params.
  rewrite Hq, Hin. reflexivity.
Qed.

(** The skip path when the output path names the input file itself:
    [shutil.copy2] refuses and nothing is written. *)
Lemma create_skip_result_same_file (env : Env) (config : CompressionConfig)
    (why : string) (fs : FS) (f : FileData) :
  let out := get_output_path env config (input_path config) None false in
  fs !! Os.file env (input_path config) = Some f ->
  Os.file env out = Os.file env (input_path config) ->
  os_mkdir_error env (parent out) = None ->
  _create_skip_result env config why fs
  = (Raise (mkExn OSError "are the same file"), fs).
Proof.
  intros out Hin Hsame Hmk. unfold _create_skip_result. fold out.
  unfold io_bind, Os.mkdir, Os.copy2.
  rewrite Hmk, Hin. rewrite bool_decide_eq_true_2 by congruence.
  reflexivity.
Qed.

(** Counterexample to C3 as stated: a JPEG input in lossless mode with
    JPEG as the target, asked to be compressed in place ([output_path] is
    the input path).  The builder signals the skip, the executor asks
    [shutil.copy2] to copy the file onto itself, which raises
    [SameFileError], and the call returns a failure, not a skip result. *)
Lemma jpeg_lossless_in_place_fails :
  let env := World.calm World.plain_image (Saved (mkFile 90000 2)) in
  let config :=
    World.with_output (mkPath "pics" "a.jpg")
      (World.with_format "JPEG" (World.auto (mkPath "pics" "a.jpg"))) in
  let fs : FS := {[ mkFileId "pics" "a.jpg" := mkFile 100000 1 ]} in
  jpeg_input config = true
  /\ effective_quality config = None
  /\ param_truthy (fst (get_save_parameters "JPEG" config)) "skip_processing"
     = true
  /\ exists r fs',
       process_image env config fs = (Return r, fs')
       /\ Result.success r = false
       /\ Result.format_used r <> "SKIPPED"
       /\ exists message,
            Result.error r = Some ("图像压缩引擎 - 系统错误: " ++ message).
Proof.
  intros env config fs.
  split; [reflexivity |]. split; [reflexivity |].
  split; [vm_compute; reflexivity |].
  eexists _, _. split; [apply returned_pair; vm_compute; reflexivity |].
  split; [reflexivity |]. split; [discriminate |].
  eexists. reflexivity.
Qed.

(** C3, amended - JPEG-lossless skip-and-copy: for an input whose suffix
    is .jpg or .jpeg, with no quality (lossless) and JPEG as the target,
    the builder returns the skip-processing signal.  The executor, once
    the image has been opened and prepared, then copies the input to the
    output path and returns a successful result with [format_used =
    "SKIPPED"] and [compressed_size = original_size], the output holding
    the input's bytes - provided the output path does not name the input
    file itself and the copy is not refused.  When the output path names
    the input file, [shutil.copy2] raises and so does the executor,
    leaving the files as they were. *)
Theorem jpeg_lossless_skip_and_copy :
  forall (env : Env) (config : CompressionConfig) (metadata : ImageMetadata)
         (fs : FS) (f : FileData) (img : ProcessedImage),
    let out := get_output_path env config (input_path config) None false in
    jpeg_input config = true ->
    effective_quality config = None ->
    determine_target_format config metadata = "JPEG" ->
    fs !! Os.file env (input_path config) = Some f ->
    os_mkdir_error env (parent out) = None ->
    pil_process env config f "JPEG" = Return img ->
    param_truthy (fst (get_save_parameters "JPEG" config)) "skip_processing"
    = true
    /\ (Os.file env out <> Os.file env (input_path config) ->
        os_copy_error env (input_path config) out = None ->
        exists r fs',
          _compress_image env config metadata fs = (Return r, fs')
          /\ Result.success r = true
          /\ Result.format_used r = "SKIPPED"
          /\ Result.compressed_size r = Result.original_size r
          /\ Result.original_size r = st_size f
          /\ Result.output_path r = out
          /\ fs' !! Os.file env out = Some f
          /\ fs' !! Os.file env (input_path config) = Some f)
    /\ (Os.file env out = Os.file env (input_path config) ->
        exists e,
          _compress_image env config metadata fs = (Raise e, fs)
          /\ is_OSError e = true).
Proof.
  intros env config metadata fs f img out Hin Hq Htarget Hfs Hmk Himg.
  pose proof (jpeg_lossless_signals_skip config Hin Hq) as Hparams.
  split; [rewrite Hparams; reflexivity |].
  assert (Hrun : _compress_image env config metadata fs
                 = _create_skip_result env config "JPEG无损模式跳过处理" fs).
  { unfold _compress_image. fold out. rewrite Htarget.
    unfold io_bind at 1, Os.mkdir. rewrite Hmk.
    unfold io_bind at 1. rewrite Hfs, Himg, Hparams.
    change (param_truthy (<["skip_processing" := PyBool true]> ∅)
              "skip_processing") with true. reflexivity. }
  split.
  - intros Hne Hcp. eexists _, (<[Os.file env out := f]> fs). split.
    + rewrite Hrun. apply create_skip_result_copies; assumption.
    + cbn. repeat split; try reflexivity.
      * apply lookup_insert_eq.
      * rewrite lookup_insert_ne by exact Hne. exact Hfs.
  - intros Hsame. eexists. split.
    + rewrite Hrun. apply (create_skip_result_same_file env config _ fs f);
        assumption.
    + reflexivity.
Qed.

Lemma jpeg_lossless_skip_and_copy_witness :
  let env := World.calm World.plain_image (Saved (mkFile 90000 2)) in
  let config := World.with_format "JPEG" (World.auto (mkPath "pics" "a.JPG")) in
  let metadata := World.meta (mkPath "pics" "a.JPG") "JPEG" 100000 400 300 None in
  let fs : FS := {[ mkFileId "pics" "a.JPG" := mkFile 100000 1 ]} in
  exists r fs',
    _compress_image env config metadata fs = (Return r, fs')
    /\ Result.format_used r = "SKIPPED"
    /\ Result.compressed_size r = 100000
    /\ fs' !! mkFileId "pics" "a_compress.jpg" = Some (mkFile 100000 1).
Proof.
  destruct (jpeg_lossless_skip_and_copy
    (World.calm World.plain_image (Saved (mkFile 90000 2)))
    (World.with_format "JPEG" (World.auto (mkPath "pics" "a.JPG")))
    (World.meta (mkPath "pics" "a.JPG") "JPEG" 100000 400 300 None)
    {[ mkFileId "pics" "a.JPG" := mkFile 100000 1 ]}
    (mkFile 100000 1) World.untouched
    ltac:(reflexivity) ltac:(reflexivity) ltac:(reflexivity)
    ltac:(vm_compute; reflexivity) ltac:(reflexivity) ltac:(reflexivity))
    as (_ & Hcopy & _).
  destruct (Hcopy ltac:(vm_compute; discriminate) ltac:(reflexivity))
    as (r & fs' & Hrun & _ & Hfmt & Hsz & Horig & _ & Hout & _).
  exists r, fs'. split; [exact Hrun |]. split; [exact Hfmt |].
  split; [rewrite Hsz; exact Horig | exact Hout].
Defined.

(** ** The skip guard *)

Lemma Num_ltb_spec (x y : Q) : Num.ltb x y = true <-> (x < y)%Q.
Proof.
  unfold Num.ltb. rewrite negb_true_iff.
  split; intros H.
  - apply Qnot_le_lt. intros Hle. apply Qle_bool_iff in Hle. congruence.
  - destruct (Qle_bool y x) eqn:E; [| reflexivity].
    apply Qle_bool_iff in E. exfalso. exact (Qlt_not_le _ _ H E).
Qed.

(** On an image that has pixels, the guard of the code is the guard of the
    specification. *)
Lemma should_skip_compression_spec (metadata : ImageMetadata) :
  0 < width (basic_info metadata) * height (basic_info metadata) ->
  _should_skip_compression metadata = true <-> skip_guard_spec metadata.
Proof.
  intros Hpix. unfold _should_skip_compression, skip_guard_spec.
  set (basic := basic_info metadata) in *.
  destruct (Z.ltb_spec (file_size basic) (5 * 1024)) as [H5 | H5].
  { split; [intros _; left; exact H5 | reflexivity]. }
  unfold Str.mem, existsb.
  destruct (String.eqb_spec (format basic) "WEBP") as [Hw | Hw];
    destruct (String.eqb_spec (format basic) "JPEG") as [Hj | Hj];
    try (rewrite Hw in Hj; discriminate Hj);
    cbn [orb andb].
  1, 2: destruct (Z.ltb_spec (file_size basic) (50 * 1024)) as [H50 | H50];
    [ split; [intros _; right; left; split; [tauto | exact H50] | reflexivity]
    | assert (Hpng : String.eqb (format basic) "PNG" = false)
        by (first [rewrite Hw | rewrite Hj]; reflexivity);
      rewrite Hpng; cbn [andb];
      split; [discriminate |];
      intros [H | [[_ H] | [H _]]];
      [ lia | lia
      | first [rewrite Hw in H | rewrite Hj in H]; discriminate H ] ].
  destruct (String.eqb_spec (format basic) "PNG") as [Hp | Hp]; cbn [andb].
  - destruct (Z.ltb_spec (file_size basic) (100 * 1024)) as [H100 | H100].
    + destruct (Z.ltb_spec 0 (width basic * height basic)) as [_ | Hn]; [| lia].
      destruct (Num.ltb (Num.div (file_size basic) (width basic * height basic))
                        (15 # 10)) eqn:E.
      * split; [intros _ | reflexivity].
        right; right. repeat split; try assumption.
        apply Num_ltb_spec. exact E.
      * split; [discriminate |].
        intros [H | [[[H | H] _] | (_ & _ & H)]]; try lia; try contradiction.
        apply Num_ltb_spec in H. congruence.
    + split; [discriminate |].
      intros [H | [[[H | H] _] | (_ & H & _)]]; try lia; contradiction.
  - split; [discriminate |].
    intros [H | [[[H | H] _] | (H & _)]]; try lia; contradiction.
Qed.

Lemma CompressionDecision_new_skip (env : Env) st q fmt why skip d :
  CompressionDecision_new env st q fmt why skip = Return d ->
  skip_compression d = skip.
Proof.
  unfold CompressionDecision_new.
  destruct (_ && _); [| discriminate]. intros H. inversion H. reflexivity.
Qed.

Lemma handle_simple_graphic_no_skip (env : Env) metadata d :
  _handle_simple_graphic env metadata = Return d -> skip_compression d = false.
Proof.
  unfold _handle_simple_graphic.
  repeat match goal with
         | |- context [if ?b then _ else _] => destruct b
         end; apply CompressionDecision_new_skip.
Qed.

Lemma make_decision_skip (env : Env) self factors metadata d :
  _make_decision env self factors metadata = Return d ->
  skip_compression d = _should_skip_compression metadata.
Proof.
  unfold _make_decision.
  destruct (_should_skip_compression metadata).
  - apply CompressionDecision_new_skip.
  - destruct factors as [[] [] [] [] []]; cbn;
      first [ apply CompressionDecision_new_skip
            | apply handle_simple_graphic_no_skip ].
Qed.

Lemma try_original_format_no_skip (env : Env) metadata d :
  _try_original_format_optimization env metadata = Return (Some d) ->
  skip_compression d = false.
Proof.
  unfold _try_original_format_optimization.
  repeat match goal with
         | |- context [if ?b then _ else _] => destruct b
         end;
    try discriminate;
    intros H; apply exc_bind_return in H; destruct H as (x & Hx & H);
    inversion H; subst; exact (CompressionDecision_new_skip _ _ _ _ _ _ _ Hx).
Qed.

(** Whenever the strategy returns a decision in auto mode, the decision
    skips exactly when the guard holds. *)
Lemma analyze_and_decide_skip (env : Env) self metadata d :
  _analyze_and_decide env self metadata = Return d ->
  skip_compression d = _should_skip_compression metadata.
Proof.
  unfold _analyze_and_decide.
  destruct (_should_skip_compression metadata) eqn:Hskip.
  - apply CompressionDecision_new_skip.
  - intros H. apply exc_bind_return in H. destruct H as ([d' |] & Ho & H).
    + inversion H; subst. exact (try_original_format_no_skip _ _ _ Ho).
    + apply exc_bind_return in H. destruct H as (photo & _ & H).
      apply exc_bind_return in H. destruct H as (simple & _ & H).
      rewrite (make_decision_skip _ _ _ _ _ H). exact Hskip.
Qed.

(** C2 - skip guard: the claim is that in auto mode [select_optimal]
    returns a decision with [skip_compression = true] exactly when the
    guard holds, so for every input under 5 KiB.  The skip branch of
    [_analyze_and_decide] builds its decision with
    [recommended_format = basic.format], and the validator of
    [CompressionDecision] rejects a format Pillow has no extension for:
    for a file of 1200 bytes whose format is ["UNKNOWN"] the guard holds
    and [select_optimal] raises instead of returning the skip decision
    (the skip branch of [_make_decision] passes no format and would not
    raise). *)
Theorem tiny_unknown_format_raises :
  let env := World.calm World.plain_image (Saved (mkFile 900 2)) in
  let metadata := World.meta (mkPath "pics" "icon") "UNKNOWN" 1200 40 40 None in
  let config := World.auto (mkPath "pics" "icon") in
  file_size (basic_info metadata) < 5 * 1024
  /\ _should_skip_compression metadata = true
  /\ select_optimal env (CompressionStrategy_new env) metadata (Some config)
     = Raise (pydantic_error "CompressionDecision")
  /\ select_optimal env (CompressionStrategy_new env) metadata None
     = Raise (pydantic_error "CompressionDecision").
Proof. repeat split. Qed.

(** What does hold: when [select_optimal] returns in auto mode, on an image
    with pixels, the decision skips exactly under the guard of the
    specification; and it does return a skipping decision for a file
    under 5 KiB whose format Pillow knows. *)
Lemma select_optimal_skip_iff (env : Env) self metadata config d :
  match config with
  | Some c => quality_mode c = QualityMode.LOSSLESS
  | None => True
  end ->
  0 < width (basic_info metadata) * height (basic_info metadata) ->
  select_optimal env self metadata config = Return d ->
  skip_compression d = true <-> skip_guard_spec metadata.
Proof.
  intros Hmode Hpix Hsel.
  rewrite <- (should_skip_compression_spec metadata Hpix).
  assert (H : _analyze_and_decide env self metadata = Return d).
  { destruct config as [c |]; [| exact Hsel].
    unfold select_optimal in Hsel. rewrite Hmode in Hsel. exact Hsel. }
  rewrite (analyze_and_decide_skip _ _ _ _ H). reflexivity.
Qed.

Lemma select_optimal_tiny_supported (env : Env) self metadata :
  file_size (basic_info metadata) < 5 * 1024 ->
  supported_format env (Str.upper (format (basic_info metadata))) = true ->
  exists d, select_optimal env self metadata None = Return d
            /\ skip_compression d = true.
Proof.
  intros Hsize Hfmt. unfold select_optimal, _analyze_and_decide,
    _should_skip_compression.
  destruct (Z.ltb_spec (file_size (basic_info metadata)) (5 * 1024)); [| lia].
  unfold CompressionDecision_new. rewrite Hfmt. cbn [andb].
  eexists. split; reflexivity.
Qed.

(** ** The target format of an input of unknown format *)

Lemma truthy_upper (s : string) : Str.truthy (Str.upper s) = Str.truthy s.
Proof. destruct s; reflexivity. Qed.

Lemma CompressionDecision_new_format (env : Env) st q v why skip d :
  CompressionDecision_new env st q (Some v) why skip = Return d ->
  Str.truthy v = true ->
  opt_truthy (recommended_format d) = true.
Proof.
  unfold CompressionDecision_new.
  destruct (_ && _); [| discriminate]. intros H Hv. inversion H. cbn.
  rewrite Hv. rewrite truthy_upper. exact Hv.
Qed.

Lemma handle_simple_graphic_format (env : Env) metadata d :
  _handle_simple_graphic env metadata = Return d ->
  opt_truthy (recommended_format d) = true.
Proof.
  unfold _handle_simple_graphic.
  repeat match goal with
         | |- context [if ?b then _ else _] => destruct b
         end;
    intros H; exact (CompressionDecision_new_format _ _ _ _ _ _ _ H eq_refl).
Qed.

Lemma make_decision_format (env : Env) self factors metadata d :
  _make_decision env self factors metadata = Return d ->
  skip_compression d = false ->
  opt_truthy (recommended_format d) = true.
Proof.
  unfold _make_decision.
  destruct (_should_skip_compression metadata).
  - intros H Hs. rewrite (CompressionDecision_new_skip _ _ _ _ _ _ _ H) in Hs.
    discriminate Hs.
  - intros H _. revert H.
    destruct factors as [[] [] [] [] []]; cbn;
      first [ apply handle_simple_graphic_format
            | intros H;
              exact (CompressionDecision_new_format _ _ _ _ _ _ _ H eq_refl) ].
Qed.

Lemma try_original_format_format (env : Env) metadata d :
  _try_original_format_optimization env metadata = Return (Some d) ->
  opt_truthy (recommended_format d) = true.
Proof.
  unfold _try_original_format_optimization.
  repeat match goal with
         | |- context [if ?b then _ else _] => destruct b
         end;
    try discriminate;
    intros H; apply exc_bind_return in H; destruct H as (x & Hx & H);
    inversion H; subst;
    exact (CompressionDecision_new_format _ _ _ _ _ _ _ Hx eq_refl).
Qed.

(** In auto mode a decision that does not skip always names a format. *)
Lemma analyze_and_decide_format (env : Env) self metadata d :
  _analyze_and_decide env self metadata = Return d ->
  skip_compression d = false ->
  opt_truthy (recommended_format d) = true.
Proof.
  unfold _analyze_and_decide.
  destruct (_should_skip_compression metadata) eqn:Hskip.
  - intros H Hs. rewrite (CompressionDecision_new_skip _ _ _ _ _ _ _ H) in Hs.
    discriminate Hs.
  - intros H Hs. apply exc_bind_return in H. destruct H as ([d' |] & Ho & H).
    + inversion H; subst. exact (try_original_format_format _ _ _ Ho).
    + apply exc_bind_return in H. destruct H as (photo & _ & H).
      apply exc_bind_return in H. destruct H as (simple & _ & H).
      exact (make_decision_format _ _ _ _ _ H Hs).
Qed.

(** The branch [process_image] takes when the user gave a format or a
    quality: the executor runs on the configuration as it is. *)
Lemma process_image_body_override (env : Env) (config : CompressionConfig)
    (fs : FS) (metadata : ImageMetadata) :
  opt_truthy (target_format config) = true
  \/ quality_mode config = QualityMode.CUSTOM ->
  extract env (input_path config) fs = (Return metadata, fs) ->
  process_image_body env config fs = _compress_image env config metadata fs.
Proof.
  intros Hover Hex. unfold process_image_body.
  destruct (extract_return _ _ _ _ _ Hex) as [_ ->]. cbn [negb].
  rewrite (io_bind_step _ _ _ _ _ Hex).
  destruct Hover as [-> | ->]; [reflexivity |].
  cbn [QualityMode.eqb]. rewrite andb_false_r. reflexivity.
Qed.

(** Counterexample to C10 as stated: no target format is configured, the
    extractor finds no format (the decoded copy carries none and [.dat] is
    no registered extension), and the call, in auto mode, encodes to the
    WEBP the strategy recommends, not to JPEG. *)
Lemma auto_unknown_format_encodes_webp :
  let env := World.calm World.plain_image (Saved (mkFile 9000 2)) in
  let config := World.auto (mkPath "pics" "scan.dat") in
  let fs : FS := {[ mkFileId "pics" "scan.dat" := mkFile 10000 1 ]} in
  target_format config = None
  /\ (exists metadata,
        extract env (input_path config) fs = (Return metadata, fs)
        /\ format (basic_info metadata) = "UNKNOWN")
  /\ exists r fs',
       process_image env config fs = (Return r, fs')
       /\ Result.success r = true
       /\ Result.format_used r = "WEBP"
       /\ Result.format_used r <> "JPEG".
Proof.
  intros env config fs.
  split; [reflexivity |]. split.
  - eexists. split.
    + apply (extract_opened env (input_path config) fs (mkFile 10000 1)
               World.plain_image);
        [vm_compute; reflexivity | reflexivity].
    + vm_compute. reflexivity.
  - eexists _, _. split; [apply returned_pair; vm_compute; reflexivity |].
    split; [reflexivity |]. split; [reflexivity | discriminate].
Qed.

(** Whatever the executor returns reports the target format it settled
    on and the quality of that format's parameters, unless it is a skip
    result; and then the encoder was run for that target. *)
Lemma compress_image_reports_target (env : Env) (config : CompressionConfig)
    (metadata : ImageMetadata) (fs fs' : FS) (r : CompressionResult) :
  let target := determine_target_format config metadata in
  _compress_image env config metadata fs = (Return r, fs') ->
  Result.format_used r = "SKIPPED"
  \/ (Result.format_used r = target
      /\ Result.quality_used r = snd (get_save_parameters target config)
      /\ exists enc,
           image_save env config metadata target
             (fst (get_save_parameters target config)) = Saved enc).
Proof.
  intros target H. unfold _compress_image in H. fold target in H.
  io_inv H. io_inv H.
  destruct (get_save_parameters target config) as [params quality].
  cbn [fst snd].
  destruct (param_truthy params "skip_processing").
  - left. destruct (create_skip_result_fields _ _ _ _ _ _ H) as [n ->].
    reflexivity.
  - right. io_inv H.
    destruct (image_save env config metadata target params) as [enc | e l];
      [| discriminate Hstep1].
    io_inv H. unfold io_ret in H. inversion H; subst r fs'; clear H.
    cbn. split; [reflexivity |]. split; [reflexivity |].
    exists enc. reflexivity.
Qed.

(** C10, amended - when the configuration that reaches the encode step has
    no target format and the metadata format is ["UNKNOWN"], the executor
    takes JPEG as the target: it prepares the image for JPEG, builds the
    JPEG parameters, hands both to [Image.save], and a result that is not
    a skip result reports [format_used = "JPEG"] with the JPEG quality.
    That is the configuration of the call itself when the user gave a
    custom quality and no format; in auto mode the strategy has already
    put its recommended format, which a non-skipping decision always has,
    into it. *)
Theorem unknown_format_defaults_to_jpeg :
  forall (env : Env) (config : CompressionConfig) (metadata : ImageMetadata),
    let out := get_output_path env config (input_path config) None false in
    let jpeg_params := fst (get_save_parameters "JPEG" config) in
    let jpeg_quality := snd (get_save_parameters "JPEG" config) in
    opt_truthy (target_format config) = false ->
    format (basic_info metadata) = "UNKNOWN" ->
    (forall fs fs' r,
       _compress_image env config metadata fs = (Return r, fs') ->
       Result.format_used r = "SKIPPED"
       \/ (Result.format_used r = "JPEG"
           /\ Result.quality_used r = jpeg_quality
           /\ exists enc,
                image_save env config metadata "JPEG" jpeg_params
                = Saved enc))
    /\ (forall fs f img enc,
          fs !! Os.file env (input_path config) = Some f ->
          os_mkdir_error env (parent out) = None ->
          pil_process env config f "JPEG" = Return img ->
          param_truthy jpeg_params "skip_processing" = false ->
          image_save env config metadata "JPEG" jpeg_params = Saved enc ->
          _compress_image env config metadata fs
          = (let! post :=
               _post_process_result env config out
                 (file_size (basic_info metadata)) (st_size enc) "JPEG" in
             io_ret {| Result.input_path := input_path config;
                       Result.output_path := fst post;
                       Result.original_size := file_size (basic_info metadata);
                       Result.compressed_size := snd post;
                       Result.success := true;
                       Result.format_used := "JPEG";
                       Result.quality_used := jpeg_quality;
                       Result.was_resized := p_was_resized img;
                       Result.original_dimensions :=
                         Some (p_original_dimensions img);
                       Result.final_dimensions := Some (p_size img);
                       Result.error := None |})
              (Os.after_save env out (Saved enc) fs))
    /\ (quality_mode config = QualityMode.CUSTOM ->
        forall fs,
          extract env (input_path config) fs = (Return metadata, fs) ->
          process_image_body env config fs
          = _compress_image env config metadata fs)
    /\ (quality_mode config = QualityMode.LOSSLESS ->
        forall fs decision,
          extract env (input_path config) fs = (Return metadata, fs) ->
          select_optimal env (CompressionStrategy_new env) metadata (Some config)
          = Return decision ->
          skip_compression decision = false ->
          let working := _apply_strategy_decision config decision in
          process_image_body env config fs
          = _compress_image env working metadata fs
          /\ target_format working = recommended_format decision
          /\ opt_truthy (target_format working) = true).
Proof.
  intros env config metadata out jpeg_params jpeg_quality Hfmt Hunknown.
  assert (Htarget : determine_target_format config metadata = "JPEG").
  { unfold determine_target_format, opt_or.
    unfold opt_truthy in Hfmt.
    destruct (target_format config) as [s |];
      [rewrite Hfmt |]; rewrite Hunknown; reflexivity. }
  split; [| split; [| split]].
  - intros fs fs' r H.
    pose proof (compress_image_reports_target env config metadata fs fs' r H)
      as Hrep.
    rewrite Htarget in Hrep. exact Hrep.
  - intros fs f img enc Hfs Hmk Himg Hskip Hsave.
    unfold _compress_image. fold out. rewrite Htarget.
    unfold io_bind at 1, Os.mkdir. rewrite Hmk.
    unfold io_bind at 1. rewrite Hfs, Himg.
    subst jpeg_params jpeg_quality.
    destruct (get_save_parameters "JPEG" config) as [params quality].
    cbn [fst snd] in *. rewrite Hskip.
    unfold io_bind at 1. rewrite Hsave. reflexivity.
  - intros Hmode fs Hex. apply process_image_body_override; auto.
  - intros Hmode fs decision Hex Hsel Hskip working.
    assert (Hrec : opt_truthy (recommended_format decision) = true).
    { unfold select_optimal in Hsel. rewrite Hmode in Hsel.
      exact (analyze_and_decide_format _ _ _ _ Hsel Hskip). }
    assert (Hwork : target_format working = recommended_format decision).
    { unfold working, _apply_strategy_decision. rewrite Hrec.
      destruct (recommended_quality decision); reflexivity. }
    split; [apply process_image_body_auto; assumption |].
    split; [exact Hwork | rewrite Hwork; exact Hrec].
Qed.

(** A call with quality 80 and no format on a file Pillow opens but whose
    format it cannot name: written to a configured [out/scan.jpg] the
    result reports JPEG at quality 80; left to the generated name, which
    keeps the extension [.dat], the same call fails in [Image.save]. *)
Lemma unknown_format_defaults_to_jpeg_witness :
  let env := World.calm World.plain_image (Saved (mkFile 9000 2)) in
  let generated :=
    World.with_quality 80 (World.auto (mkPath "pics" "scan.dat")) in
  let config := World.with_output (mkPath "out" "scan.jpg") generated in
  let fs : FS := {[ mkFileId "pics" "scan.dat" := mkFile 10000 1 ]} in
  (exists metadata,
     extract env (input_path config) fs = (Return metadata, fs)
     /\ format (basic_info metadata) = "UNKNOWN"
     /\ exists r fs',
          process_image env config fs = (Return r, fs')
          /\ Result.format_used r = "JPEG"
          /\ Result.quality_used r = Some 80)
  /\ exists r fs',
       process_image env generated fs = (Return r, fs')
       /\ Result.success r = false
       /\ Result.error r
          = Some "图像压缩引擎: unknown file extension: .dat".
Proof.
  intros env generated config fs. split.
  - pose proof (extract_opened env (input_path config) fs (mkFile 10000 1)
                  World.plain_image ltac:(vm_compute; reflexivity) eq_refl)
      as Hex.
    set (metadata :=
           {| basic_info :=
                _extract_basic_info env World.plain_image (input_path config)
                  (st_size (mkFile 10000 1));
              histogram := img_histogram World.plain_image;
              complexity := img_complexity World.plain_image |}) in Hex.
    assert (Hfmt : format (basic_info metadata) = "UNKNOWN")
      by (vm_compute; reflexivity).
    destruct (unknown_format_defaults_to_jpeg env config metadata
                eq_refl Hfmt) as (Hreports & _ & Hcustom & _).
    exists metadata. split; [exact Hex |]. split; [exact Hfmt |].
    assert (Hbody : exists r,
              fst (process_image_body env config fs) = Return r
              /\ Result.format_used r <> "SKIPPED")
      by (eexists; split; [vm_compute; reflexivity | discriminate]).
    destruct Hbody as (r & Hbody & Hnoskip). apply returned_pair in Hbody.
    exists r, (snd (process_image_body env config fs)).
    split; [unfold process_image, io_try; rewrite Hbody; reflexivity |].
    rewrite (Hcustom eq_refl fs Hex) in Hbody.
    destruct (Hreports _ _ _ Hbody) as [Hskip | (Hjpeg & Hq & _)];
      [contradiction |].
    split; [exact Hjpeg |]. rewrite Hq. reflexivity.
  - eexists _, _. split; [apply returned_pair; vm_compute; reflexivity |].
    split; reflexivity.
Defined.

(** ** Failed calls *)

Lemma create_error_result_return (env : Env) (input : Path) (msg : string)
    (original : option Z) (fs : FS) :
  Str.truthy (name input) = true ->
  exists r, ErrorHandler._create_error_result env input msg None original fs
            = (Return r, fs)
            /\ is_error_result input r.
Proof.
  intros Hname. unfold ErrorHandler._create_error_result, PathOps.with_suffix.
  rewrite Hname. eexists. split; [reflexivity |].
  unfold is_error_result, PathOps.with_suffix. rewrite Hname. cbn.
  repeat split; reflexivity.
Qed.

Lemma handle_compression_error_return (env : Env) (e : Exn) (input : Path)
    (operation : string) (fs : FS) :
  Str.truthy (name input) = true ->
  exists r, ErrorHandler.handle_compression_error env e input operation fs
            = (Return r, fs)
            /\ is_error_result input r.
Proof.
  intros Hname. unfold ErrorHandler.handle_compression_error,
    ErrorHandler.handle_validation_error, ErrorHandler.handle_with_context.
  destruct (exn_class e); apply create_error_result_return; exact Hname.
Qed.

(** Whatever [_compress_image] returns is a success. *)
Lemma compress_image_success (env : Env) (config : CompressionConfig)
    (metadata : ImageMetadata) (fs fs' : FS) (r : CompressionResult) :
  _compress_image env config metadata fs = (Return r, fs') ->
  Result.success r = true.
Proof.
  unfold _compress_image. intros H.
  io_inv H. io_inv H.
  destruct (get_save_parameters _ config) as [base_params actual_quality].
  destruct (param_truthy base_params "skip_processing").
  - destruct (create_skip_result_fields _ _ _ _ _ _ H) as [n ->]. reflexivity.
  - io_inv H. io_inv H. unfold io_ret in H. inversion H. reflexivity.
Qed.

(** Whatever the body of [process_image] returns is a success or the
    error result of the missing input. *)
Lemma process_image_body_return (env : Env) (config : CompressionConfig)
    (fs fs' : FS) (r : CompressionResult) :
  process_image_body env config fs = (Return r, fs') ->
  Result.success r = true \/ is_error_result (input_path config) r.
Proof.
  unfold process_image_body.
  destruct (Os.exists_ env (input_path config) fs); cbn [negb].
  - intros H. io_inv H. left.
    destruct (negb (opt_truthy (target_format config))
              && QualityMode.eqb (quality_mode config) QualityMode.LOSSLESS).
    + io_inv H. destruct (skip_compression _).
      * destruct (create_skip_result_fields _ _ _ _ _ _ H) as [n ->].
        reflexivity.
      * exact (compress_image_success _ _ _ _ _ _ H).
    + exact (compress_image_success _ _ _ _ _ _ H).
  - intros H. right.
    unfold ErrorHandler.handle_with_context,
      ErrorHandler._create_error_result in H.
    unfold is_error_result.
    destruct (PathOps.with_suffix (input_path config) ".compressed");
      inversion H. cbn. repeat split; reflexivity.
Qed.

(** Counterexample to C7 as stated: the input does not exist, the call was
    given the output path [out/result.png], and the failed result names
    [pics/missing.compressed], not the destination of the call. *)
Lemma failed_result_names_placeholder :
  let env := World.calm World.plain_image (Saved (mkFile 9000 2)) in
  let config :=
    World.with_output (mkPath "out" "result.png")
      (World.auto (mkPath "pics" "missing.png")) in
  let fs : FS := ∅ in
  get_output_path env config (input_path config) None false
  = mkPath "out" "result.png"
  /\ exists r fs',
       process_image env config fs = (Return r, fs')
       /\ Result.success r = false
       /\ is_some (Result.error r) = true
       /\ Result.output_path r = mkPath "pics" "missing.compressed"
       /\ Result.output_path r
          <> get_output_path env config (input_path config) None false.
Proof.
  intros env config fs. split; [reflexivity |].
  eexists _, _. split; [apply returned_pair; vm_compute; reflexivity |].
  split; [reflexivity |]. split; [reflexivity |].
  split; [reflexivity | discriminate].
Qed.

(** C7, amended - a single-file call on an input path with a non-empty
    file name always returns a result, and every failed result has
    [success = false], an error message, and as [output_path] the input
    path with its suffix replaced by [.compressed], whatever output path
    or directory the call was configured with. *)
Theorem failed_result_output_path :
  forall (env : Env) (config : CompressionConfig) (fs : FS),
    Str.truthy (name (input_path config)) = true ->
    exists r fs',
      process_image env config fs = (Return r, fs')
      /\ (Result.success r = false ->
          is_some (Result.error r) = true
          /\ PathOps.with_suffix (input_path config) ".compressed"
             = Some (Result.output_path r)
          /\ Result.output_path r
             = mkPath (parent (input_path config))
                      (PathOps.stem (input_path config) ++ ".compressed")).
Proof.
  intros env config fs Hname.
  assert (Hshape : forall r, is_error_result (input_path config) r ->
            is_some (Result.error r) = true
            /\ PathOps.with_suffix (input_path config) ".compressed"
               = Some (Result.output_path r)
            /\ Result.output_path r
               = mkPath (parent (input_path config))
                        (PathOps.stem (input_path config) ++ ".compressed")).
  { intros r (_ & He & Hp & _). split; [exact He |]. split; [exact Hp |].
    unfold PathOps.with_suffix in Hp. rewrite Hname in Hp.
    inversion Hp. reflexivity. }
  unfold process_image, io_try.
  destruct (process_image_body env config fs) as [[r | e] fs1] eqn:Hbody.
  - exists r, fs1. split; [reflexivity |]. intros Hfail.
    destruct (process_image_body_return _ _ _ _ _ Hbody) as [Hs | Herr].
    + congruence.
    + exact (Hshape r Herr).
  - destruct (handle_compression_error_return env e (input_path config)
                "图像压缩引擎" fs1 Hname) as (r & Hr & Herr).
    exists r, fs1. split; [exact Hr |]. intros _. exact (Hshape r Herr).
Qed.

Lemma failed_result_output_path_witness :
  let env := World.calm World.plain_image (Saved (mkFile 9000 2)) in
  let config :=
    World.with_output (mkPath "out" "result.png")
      (World.auto (mkPath "pics" "missing.png")) in
  exists r fs',
    process_image env config ∅ = (Return r, fs')
    /\ Result.success r = false
    /\ Result.output_path r = mkPath "pics" "missing.compressed".
Proof.
  intros env config.
  destruct (failed_result_output_path env config ∅ eq_refl)
    as (r & fs' & Hrun & Hshape).
  exists r, fs'. split; [exact Hrun |].
  assert (Hfst : fst (process_image env config ∅) = Return r)
    by (rewrite Hrun; reflexivity).
  vm_compute in Hfst. injection Hfst as <-.
  split; [reflexivity |].
  exact (proj2 (proj2 (Hshape eq_refl))).
Defined.

(** ** A failing encoder *)

Lemma after_save_other (env : Env) (out : Path) (i : FileId)
    (o : SaveOutcome) (fs : FS) :
  i <> Os.file env out -> Os.after_save env out o fs !! i = fs !! i.
Proof.
  intros Hne. unfold Os.after_save.
  destruct o as [f | e [| f |]];
    first [ reflexivity
          | apply lookup_insert_ne; congruence
          | apply lookup_delete_ne; congruence ].
Qed.

(** Lower-casing a name does not move its extension. *)
Lemma lower_ascii_dot (c : ascii) :
  Ascii.eqb (Str.lower_ascii c) "."%char = Ascii.eqb c "."%char.
Proof. destruct c as [[] [] [] [] [] [] [] []]; reflexivity. Qed.

Lemma lower_last_dot_suffix (nm : string) :
  PathOps.last_dot_suffix (Str.lower nm)
  = option_map Str.lower (PathOps.last_dot_suffix nm).
Proof.
  induction nm as [| c rest IH]; [reflexivity |].
  cbn [Str.lower PathOps.last_dot_suffix]. rewrite IH.
  destruct (PathOps.last_dot_suffix rest); [reflexivity |].
  cbn [option_map]. rewrite lower_ascii_dot.
  destruct (Ascii.eqb c "."%char); reflexivity.
Qed.

Lemma lower_splitext (nm : string) :
  PathOps.splitext (Str.lower nm) = Str.lower (PathOps.splitext nm).
Proof.
  induction nm as [| c rest IH]; [reflexivity |].
  cbn [Str.lower PathOps.splitext]. rewrite lower_ascii_dot.
  destruct (Ascii.eqb c "."%char); [exact IH |].
  rewrite lower_last_dot_suffix.
  destruct (PathOps.last_dot_suffix rest); reflexivity.
Qed.

Lemma lower_idempotent (s : string) : Str.lower (Str.lower s) = Str.lower s.
Proof.
  induction s as [| c s IH]; [reflexivity |].
  cbn [Str.lower]. rewrite IH. f_equal.
  destruct c as [[] [] [] [] [] [] [] []]; reflexivity.
Qed.

(** Two spellings of one file have the same extension up to case, so
    [Image.save] chooses the same encoder for both. *)
Lemma same_file_same_encoder (env : Env) (p q : Path) :
  Os.file env p = Os.file env q -> Os.encoder env p = Os.encoder env q.
Proof.
  unfold Os.file, Os.encoder. intros H. injection H as _ Hname.
  destruct (os_case_insensitive env); [| rewrite Hname; reflexivity].
  rewrite <- (lower_idempotent (PathOps.splitext (name p))).
  rewrite <- (lower_idempotent (PathOps.splitext (name q))).
  rewrite <- !lower_splitext. rewrite Hname. reflexivity.
Qed.

(** The executor when the encode step raises: the exception leaves
    [_compress_image] with the file system as [Image.save] left it. *)
Lemma compress_image_save_raises (env : Env) (config : CompressionConfig)
    (metadata : ImageMetadata) (fs : FS) (f : FileData)
    (img : ProcessedImage) (e : Exn) (l : Leftover) :
  let out := get_output_path env config (input_path config) None false in
  let target := determine_target_format config metadata in
  let base_params := fst (get_save_parameters target config) in
  fs !! Os.file env (input_path config) = Some f ->
  os_mkdir_error env (parent out) = None ->
  pil_process env config f target = Return img ->
  param_truthy base_params "skip_processing" = false ->
  image_save env config metadata target base_params = SaveRaises e l ->
  _compress_image env config metadata fs
  = (Raise e, Os.after_save env out (SaveRaises e l) fs).
Proof.
  intros out target base_params Hfs Hmk Himg Hskip Hsave.
  unfold _compress_image. fold out target.
  unfold io_bind at 1, Os.mkdir. rewrite Hmk.
  unfold io_bind at 1. rewrite Hfs, Himg.
  subst base_params.
  destruct (get_save_parameters target config) as [params quality].
  cbn [fst] in Hskip, Hsave. rewrite Hskip.
  unfold io_bind at 1. rewrite Hsave. reflexivity.
Qed.

(** [process_image] when the executor it reached raises in the encode
    step: a failed result, and the files as [Image.save] left them. *)
Lemma process_image_save_raises (env : Env) (config working : CompressionConfig)
    (metadata : ImageMetadata) (fs : FS) (f : FileData)
    (img : ProcessedImage) (e : Exn) (l : Leftover) :
  let out := get_output_path env working (input_path working) None false in
  let target := determine_target_format working metadata in
  let base_params := fst (get_save_parameters target working) in
  Str.truthy (name (input_path config)) = true ->
  process_image_body env config fs = _compress_image env working metadata fs ->
  fs !! Os.file env (input_path working) = Some f ->
  os_mkdir_error env (parent out) = None ->
  pil_process env working f target = Return img ->
  param_truthy base_params "skip_processing" = false ->
  image_save env working metadata target base_params = SaveRaises e l ->
  exists r,
    process_image env config fs
    = (Return r, Os.after_save env out (SaveRaises e l) fs)
    /\ is_error_result (input_path config) r.
Proof.
  intros out target base_params Hname Hreach Hfs Hmk Himg Hskip Hsave.
  pose proof (compress_image_save_raises env working metadata fs f img e l
                Hfs Hmk Himg Hskip Hsave) as Hraise.
  fold out in Hraise.
  destruct (handle_compression_error_return env e (input_path config)
              "图像压缩引擎" (Os.after_save env out (SaveRaises e l) fs) Hname)
    as (r & Hr & Herr).
  exists r. split; [| exact Herr].
  unfold process_image, io_try. rewrite Hreach, Hraise. exact Hr.
Qed.



(** ** No growth beyond the fallback threshold *)

Lemma exceeds_threshold_false (config : CompressionConfig)
    (original compressed : Z) :
  exceeds_threshold config original compressed = false ->
  (inject_Z compressed <= threshold_size config original)%Q.
Proof.
  unfold exceeds_threshold, Num.gtb, Num.ltb. rewrite negb_false_iff.
  apply Qle_bool_iff.
Qed.

(** The renaming step, when neither the path the encoder wrote nor the
    path the step returns is a name of the input file: the returned path
    holds the encoded file and the input is as it was. *)
Lemma rename_if_negligible_return (env : Env) (config : CompressionConfig)
    (out out' : Path) (original compressed : Z) (target : string)
    (fs fs' : FS) (enc f : FileData) :
  rename_if_negligible env config out original compressed target fs
  = (Return out', fs') ->
  fs !! Os.file env out = Some enc ->
  fs !! Os.file env (input_path config) = Some f ->
  Os.file env out <> Os.file env (input_path config) ->
  Os.file env out' <> Os.file env (input_path config) ->
  fs' !! Os.file env out' = Some enc
  /\ fs' !! Os.file env (input_path config) = Some f.
Proof.
  unfold rename_if_negligible. intros H Hout Hin Hne Hne'.
  destruct (should_use_original_name config original compressed);
    [| inversion H; subst; auto].
  set (new := get_output_path env config (input_path config) (Some target) true)
    in *.
  destruct (bool_decide (new = out)) eqn:E1; cbn [negb andb] in H;
    [inversion H; subst; auto |].
  destruct (bool_decide (new = input_path config)) eqn:E2; cbn [negb] in H;
    [inversion H; subst; auto |].
  unfold io_try, io_bind, Os.rename, io_ret, io_raise in H. rewrite Hout in H.
  destruct (os_rename_error env out new) as [e |].
  - destruct (is_OSError e); inversion H; subst; auto.
  - inversion H; subst. split; [apply lookup_insert_eq |].
    rewrite lookup_insert_ne by exact Hne'.
    rewrite lookup_delete_ne by exact Hne. exact Hin.
Qed.

(** The fallback step on an output that is not the input file: what it
    returns and leaves, by what [unlink] and the copy answer. *)
Lemma fallback_if_larger_return (env : Env) (config : CompressionConfig)
    (out : Path) (original compressed compressed' : Z)
    (fs fs' : FS) (enc f : FileData) :
  fallback_if_larger env config out original compressed fs
  = (Return compressed', fs') ->
  fs !! Os.file env out = Some enc ->
  fs !! Os.file env (input_path config) = Some f ->
  Os.file env out <> Os.file env (input_path config) ->
  fs' !! Os.file env (input_path config) = Some f
  /\ if exceeds_threshold config original compressed
     then match os_unlink_error env out,
                os_copy_error env (input_path config) out with
          | None, None =>
              compressed' = original /\ fs' !! Os.file env out = Some f
          | Some e, _ =>
              is_OSError e = true
              /\ compressed' = compressed
              /\ fs' !! Os.file env out = Some enc
          | None, Some e =>
              is_OSError e = true
              /\ compressed' = compressed
              /\ fs' !! Os.file env out = None
          end
     else compressed' = compressed /\ fs' !! Os.file env out = Some enc.
Proof.
  intros H Hout Hin Hne. unfold fallback_if_larger in H.
  destruct (exceeds_threshold config original compressed);
    [| inversion H; subst; auto].
  destruct (original =? 0); [discriminate H |].
  unfold io_try, io_bind, Os.unlink, Os.copy2, io_ret, io_raise in H.
  rewrite Hout in H.
  destruct (os_unlink_error env out) as [e |].
  - destruct (is_OSError e) eqn:He; inversion H; subst; auto.
  - rewrite lookup_delete_ne in H by exact Hne. rewrite Hin in H.
    rewrite bool_decide_eq_false_2 in H by congruence.
    destruct (os_copy_error env (input_path config) out) as [e |].
    + destruct (is_OSError e) eqn:He; inversion H; subst.
      split; [rewrite lookup_delete_ne by exact Hne; exact Hin |].
      split; [reflexivity |]. split; [reflexivity | apply lookup_delete_eq].
    + inversion H; subst. split.
      * rewrite lookup_insert_ne by exact Hne.
        rewrite lookup_delete_ne by exact Hne. exact Hin.
      * split; [reflexivity | apply lookup_insert_eq].
Qed.

(** Counterexample to C1 as stated, in two runs.  First, a call in auto
    mode (no format, lossless, no quality given) on a WEBP of 300000
    bytes: the strategy recommends quality 85, the encoder returns 303000
    bytes, which is above 1.005 times the original and is kept, the
    threshold in force being 1.02.  Second, a lossless call on a PNG of
    10000 bytes in a world that refuses [unlink]: the encoder returns
    12000 bytes, the fallback fails, and the successful result records
    12000 bytes. *)
Lemma growth_beyond_threshold :
  (let env := World.calm World.plain_image (Saved (mkFile 303000 8)) in
   let config := World.auto (mkPath "pics" "photo.webp") in
   let fs : FS := {[ mkFileId "pics" "photo.webp" := mkFile 300000 7 ]} in
   quality_mode config = QualityMode.LOSSLESS
   /\ custom_quality config = None
   /\ exists r fs',
        process_image env config fs = (Return r, fs')
        /\ Result.success r = true
        /\ Result.format_used r = "WEBP"
        /\ Result.original_size r = 300000
        /\ Result.compressed_size r = 303000
        /\ (inject_Z (Result.original_size r) * (1005 # 1000)
            < inject_Z (Result.compressed_size r))%Q)
  /\
  (let env := World.no_unlink World.plain_image (Saved (mkFile 12000 8)) in
   let config := World.with_format "PNG" (World.auto (mkPath "pics" "a.png")) in
   let fs : FS := {[ mkFileId "pics" "a.png" := mkFile 10000 7 ]} in
   quality_mode config = QualityMode.LOSSLESS
   /\ custom_quality config = None
   /\ exists r fs',
        process_image env config fs = (Return r, fs')
        /\ Result.success r = true
        /\ Result.format_used r = "PNG"
        /\ Result.original_size r = 10000
        /\ Result.compressed_size r = 12000
        /\ (inject_Z (Result.original_size r) * (102 # 100)
            < inject_Z (Result.compressed_size r))%Q).
Proof.
  split; intros env config fs;
    (split; [reflexivity |]); (split; [reflexivity |]);
    eexists _, _;
    (split; [apply returned_pair; vm_compute; reflexivity |]);
    repeat (split; [reflexivity |]); vm_compute; reflexivity.
Qed.

(** C1, amended - for every successful non-skip result of the executor,
    run on the working configuration (the call's own, or in auto mode the
    one rewritten from the strategy's decision), when neither the path
    the encoder writes nor the path the result names is a name of the
    input file:  the threshold is 1.005 when the working [custom_quality]
    is unset and 1.02 when it is set (by the user or by the strategy), and
    [original_size * threshold] is Python's rounded product.  If the
    encoded size exceeds it, the fallback runs: when [unlink] and the copy
    succeed the output holds the original's bytes and [compressed_size =
    original_size]; when one of them raises an [OSError] the error is
    swallowed and the successful result keeps the encoded size, the
    encoded file staying where it was if [unlink] failed and nothing being
    left if the copy did.  Otherwise [compressed_size] is the encoded
    size, at most the product, and the output holds the encoded file.
    The input file is as it was in every case. *)
Theorem no_growth_or_fallback_copy :
  forall (env : Env) (working : CompressionConfig) (metadata : ImageMetadata)
         (fs fs' : FS) (r : CompressionResult),
    let input := input_path working in
    let out := get_output_path env working input None false in
    let target := determine_target_format working metadata in
    let base_params := fst (get_save_parameters target working) in
    Os.file env out <> Os.file env input ->
    Os.file env (Result.output_path r) <> Os.file env input ->
    _compress_image env working metadata fs = (Return r, fs') ->
    Result.format_used r <> "SKIPPED" ->
    Result.success r = true
    /\ Result.original_size r = file_size (basic_info metadata)
    /\ fallback_threshold working
       = match custom_quality working with
         | None => (1005 # 1000)%Q
         | Some _ => (102 # 100)%Q
         end
    /\ fs' !! Os.file env input = fs !! Os.file env input
    /\ exists enc,
         image_save env working metadata target base_params = Saved enc
         /\ if exceeds_threshold working (Result.original_size r) (st_size enc)
            then
              match os_unlink_error env (Result.output_path r),
                    os_copy_error env input (Result.output_path r) with
              | None, None =>
                  Result.compressed_size r = Result.original_size r
                  /\ fs' !! Os.file env (Result.output_path r)
                     = fs !! Os.file env input
              | Some e, _ =>
                  is_OSError e = true
                  /\ Result.compressed_size r = st_size enc
                  /\ fs' !! Os.file env (Result.output_path r) = Some enc
              | None, Some e =>
                  is_OSError e = true
                  /\ Result.compressed_size r = st_size enc
                  /\ fs' !! Os.file env (Result.output_path r) = None
              end
            else Result.compressed_size r = st_size enc
                 /\ fs' !! Os.file env (Result.output_path r) = Some enc
                 /\ (inject_Z (Result.compressed_size r)
                     <= threshold_size working (Result.original_size r))%Q.
Proof.
  intros env working metadata fs fs' r input out target base_params
         Hne Hne' H Hfmt.
  unfold _compress_image in H. fold input out target in H.
  io_inv H. unfold Os.mkdir in Hstep.
  destruct (os_mkdir_error env (parent out)); [discriminate Hstep |].
  inversion Hstep; subst a fs0; clear Hstep.
  io_inv H.
  destruct (fs !! Os.file env input) as [f |] eqn:Hin; [| discriminate Hstep].
  assert (fs0 = fs) by (destruct (pil_process env working f target);
                        inversion Hstep; reflexivity).
  subst fs0. clear Hstep.
  subst base_params.
  destruct (get_save_parameters target working) as [params quality].
  cbn [fst].
  destruct (param_truthy params "skip_processing").
  { destruct (create_skip_result_fields _ _ _ _ _ _ H) as [n ->].
    exfalso. apply Hfmt. reflexivity. }
  io_inv H.
  destruct (image_save env working metadata target params) as [enc | e l]
    eqn:Hsave; [| discriminate Hstep].
  inversion Hstep; subst a0 fs0; clear Hstep. cbn [Os.after_save] in H.
  io_inv H. unfold io_ret in H. inversion H; subst r fs'; clear H.
  cbn [Result.success Result.original_size Result.compressed_size
       Result.output_path Result.format_used] in *.
  split; [reflexivity |]. split; [reflexivity |].
  split; [reflexivity |].
  unfold _post_process_result in Hstep.
  io_inv Hstep. io_inv Hstep. unfold io_ret in Hstep.
  inversion Hstep; subst a0 fs0; clear Hstep. cbn [fst snd] in *.
  destruct (rename_if_negligible_return _ _ _ _ _ _ _ _ _ enc f Hstep0)
    as (Hout' & Hin').
  { apply lookup_insert_eq. }
  { rewrite lookup_insert_ne by exact Hne. exact Hin. }
  { exact Hne. }
  { exact Hne'. }
  destruct (fallback_if_larger_return _ _ _ _ _ _ _ _ enc f
              Hstep1 Hout' Hin' Hne') as [Hkept Hfall].
  split; [exact Hkept |].
  exists enc. split; [reflexivity |].
  fold input in Hfall.
  destruct (exceeds_threshold working (file_size (basic_info metadata))
              (st_size enc)) eqn:Hex.
  - destruct (os_unlink_error env a1) as [e1 |];
      [exact Hfall |].
    destruct (os_copy_error env input a1) as [e2 |]; exact Hfall.
  - destruct Hfall as [-> Hfile]. split; [reflexivity |].
    split; [exact Hfile |]. apply exceeds_threshold_false. exact Hex.
Qed.

(** A lossless PNG of 1000 bytes whose encoding has 1005: in exact
    arithmetic 1005 is not above 1000 * 1.005, but Python's product is
    just below 1005, so the fallback runs and the output is a copy of the
    original. *)
Lemma no_growth_or_fallback_copy_witness :
  let env := World.calm World.plain_image (Saved (mkFile 1005 8)) in
  let working := World.with_format "PNG" (World.auto (mkPath "pics" "a.png")) in
  let metadata := World.meta (mkPath "pics" "a.png") "PNG" 1000 400 300 None in
  let fs : FS := {[ mkFileId "pics" "a.png" := mkFile 1000 7 ]} in
  (inject_Z 1005 <= inject_Z 1000 * fallback_threshold working)%Q
  /\ (threshold_size working 1000 < inject_Z 1005)%Q
  /\ exists r fs',
       _compress_image env working metadata fs = (Return r, fs')
       /\ Result.compressed_size r = Result.original_size r
       /\ fs' !! Os.file env (Result.output_path r) = Some (mkFile 1000 7).
Proof.
  intros env working metadata fs.
  split; [vm_compute; discriminate |]. split; [vm_compute; reflexivity |].
  assert (Hrun : exists r,
            fst (_compress_image env working metadata fs) = Return r
            /\ Result.format_used r = "PNG"
            /\ Result.original_size r = 1000
            /\ Result.output_path r = mkPath "pics" "a_compress.png")
    by (eexists; split; [vm_compute; reflexivity | repeat split]).
  destruct Hrun as (r & Hrun & Hfmt & Horig & Hpath).
  apply returned_pair in Hrun.
  destruct (no_growth_or_fallback_copy env working metadata fs _ r
              ltac:(vm_compute; discriminate)
              ltac:(rewrite Hpath; vm_compute; discriminate)
              Hrun ltac:(rewrite Hfmt; discriminate))
    as (_ & _ & _ & _ & enc & Hsave & Hcase).
  change (image_save env working metadata
            (determine_target_format working metadata)
            (fst (get_save_parameters
                    (determine_target_format working metadata) working)))
    with (Saved (mkFile 1005 8)) in Hsave.
  injection Hsave as <-. rewrite Horig in Hcase.
  change (exceeds_threshold working 1000 (st_size (mkFile 1005 8)))
    with true in Hcase.
  change (os_unlink_error env (Result.output_path r)) with (@None Exn)
    in Hcase.
  change (os_copy_error env (input_path working) (Result.output_path r))
    with (@None Exn) in Hcase.
  destruct Hcase as [Hsize Hfile].
  eexists r, _. split; [exact Hrun |].
  split; [rewrite Horig; exact Hsize |].
  rewrite Hfile. vm_compute. reflexivity.
Defined.

(* ===================================================================== *)
(** * Further properties of the engine                                    *)
(* ===================================================================== *)

(** ** Decisions of the strategy *)

Lemma upper_ascii_idempotent (c : ascii) :
  Str.upper_ascii (Str.upper_ascii c) = Str.upper_ascii c.
Proof.
  destruct c as [[] [] [] [] [] [] [] []]; vm_compute; reflexivity.
Qed.

Lemma upper_idempotent (s : string) : Str.upper (Str.upper s) = Str.upper s.
Proof.
  induction s as [| c s IH]; cbn; [reflexivity |].
  rewrite upper_ascii_idempotent, IH. reflexivity.
Qed.

(** What the validators of [CompressionDecision] leave through. *)
Lemma CompressionDecision_new_fields (env : Env) st q fmt why skip d :
  CompressionDecision_new env st q fmt why skip = Return d ->
  strategy_type d = st
  /\ recommended_quality d = q
  /\ skip_compression d = skip
  /\ reason d = why
  /\ (forall n, q = Some n -> 1 <= n <= 100)
  /\ match fmt with
     | Some v => recommended_format d = Some (Str.upper v)
                 /\ supported_format env (Str.upper v) = true
     | None => recommended_format d = None
     end.
Proof.
  unfold CompressionDecision_new. intros H.
  assert (Hq : forall n, q = Some n -> 1 <= n <= 100).
  { intros n ->. destruct ((1 <=? n) && (n <=? 100)) eqn:E;
      [| discriminate H].
    apply andb_true_iff in E. destruct E as [H1 H2].
    apply Z.leb_le in H1. apply Z.leb_le in H2. lia. }
  assert (Hf : match fmt with
               | Some v => supported_format env (Str.upper v) = true
               | None => True
               end).
  { destruct fmt as [v |]; [| exact I].
    destruct (supported_format env (Str.upper v)); [reflexivity |].
    rewrite andb_false_r in H. discriminate H. }
  destruct (_ && _); [| discriminate H].
  inversion H; subst d; clear H. cbn.
  repeat split; try reflexivity; try (apply Hq; assumption).
  destruct fmt as [v |]; [| reflexivity]. split; [| exact Hf].
  destruct v; [| reflexivity].
  cbn in Hf. unfold supported_format in Hf.
  apply existsb_exists in Hf. destruct Hf as ([ext f] & _ & Hf).
  cbn in Hf. apply andb_true_iff in Hf. destruct Hf as [Ht He].
  apply String.eqb_eq in He. destruct f; [discriminate Ht | discriminate He].
Qed.

Lemma CompressionDecision_new_validated (env : Env) st q fmt why skip d :
  CompressionDecision_new env st q fmt why skip = Return d ->
  validated_decision env d.
Proof.
  intros H.
  destruct (CompressionDecision_new_fields _ _ _ _ _ _ _ H)
    as (_ & Hq & _ & _ & Hrange & Hfmt).
  split.
  - intros n Hn. apply Hrange. congruence.
  - intros f Hf. destruct fmt as [v |].
    + destruct Hfmt as [Hrec Hsup]. rewrite Hrec in Hf.
      injection Hf as <-. split; [apply upper_idempotent | exact Hsup].
    + congruence.
Qed.

Lemma handle_simple_graphic_validated (env : Env) metadata d :
  _handle_simple_graphic env metadata = Return d -> validated_decision env d.
Proof.
  unfold _handle_simple_graphic.
  repeat match goal with
         | |- context [if ?b then _ else _] => destruct b
         end; apply CompressionDecision_new_validated.
Qed.

Lemma make_decision_validated (env : Env) self factors metadata d :
  _make_decision env self factors metadata = Return d ->
  validated_decision env d.
Proof.
  unfold _make_decision.
  destruct (_should_skip_compression metadata).
  - apply CompressionDecision_new_validated.
  - destruct factors as [[] [] [] [] []]; cbn;
      first [ apply CompressionDecision_new_validated
            | apply handle_simple_graphic_validated ].
Qed.

Lemma try_original_format_validated (env : Env) metadata d :
  _try_original_format_optimization env metadata = Return (Some d) ->
  validated_decision env d.
Proof.
  unfold _try_original_format_optimization.
  repeat match goal with
         | |- context [if ?b then _ else _] => destruct b
         end;
    try discriminate;
    intros H; apply exc_bind_return in H; destruct H as (x & Hx & H);
    inversion H; subst;
    exact (CompressionDecision_new_validated _ _ _ _ _ _ _ Hx).
Qed.

Lemma analyze_and_decide_validated (env : Env) self metadata d :
  _analyze_and_decide env self metadata = Return d -> validated_decision env d.
Proof.
  unfold _analyze_and_decide.
  destruct (_should_skip_compression metadata).
  - apply CompressionDecision_new_validated.
  - intros H. apply exc_bind_return in H. destruct H as ([d' |] & Ho & H).
    + inversion H; subst. exact (try_original_format_validated _ _ _ Ho).
    + apply exc_bind_return in H. destruct H as (photo & _ & H).
      apply exc_bind_return in H. destruct H as (simple & _ & H).
      exact (make_decision_validated _ _ _ _ _ H).
Qed.

(** X1 - whatever decision [select_optimal] returns, in auto mode or for a
    user's quality, carries a quality between 1 and 100 when it carries
    one, and a format that is upper case and known to Pillow when it
    carries one. *)
Theorem select_optimal_decision_validated :
  forall (env : Env) (self : CompressionStrategy) (metadata : ImageMetadata)
         (config : option CompressionConfig) (d : CompressionDecision),
    select_optimal env self metadata config = Return d ->
    (forall n, recommended_quality d = Some n -> 1 <= n <= 100)
    /\ (forall f, recommended_format d = Some f ->
                  Str.upper f = f /\ supported_format env f = true).
Proof.
  intros env self metadata config d H.
  change (validated_decision env d).
  unfold select_optimal in H.
  destruct config as [c |];
    [destruct (quality_mode c) |];
    try exact (analyze_and_decide_validated _ _ _ _ H).
  unfold _apply_user_config in H.
  apply exc_bind_return in H. destruct H as (hint & _ & H).
  exact (CompressionDecision_new_validated _ _ _ _ _ _ _ H).
Qed.

Lemma select_optimal_decision_validated_witness :
  let env := World.calm World.plain_image (Saved (mkFile 9000 2)) in
  let metadata :=
    World.meta (mkPath "pics" "big.webp") "WEBP" 300000 400 300 None in
  exists d,
    select_optimal env (CompressionStrategy_new env) metadata None = Return d
    /\ recommended_quality d = Some 85
    /\ recommended_format d = Some "WEBP"
    /\ supported_format env "WEBP" = true.
Proof.
  intros env metadata.
  assert (H : exists d,
            select_optimal env (CompressionStrategy_new env) metadata None
            = Return d
            /\ recommended_quality d = Some 85
            /\ recommended_format d = Some "WEBP")
    by (eexists; split; [vm_compute; reflexivity | split; reflexivity]).
  destruct H as (d & Hsel & Hq & Hf).
  exists d. split; [exact Hsel |]. split; [exact Hq |]. split; [exact Hf |].
  exact (proj2 (proj2 (select_optimal_decision_validated
                         env _ metadata None d Hsel) "WEBP" Hf)).
Defined.

(** X2 - a call with a user's quality (custom mode) is never skipped by
    the strategy: the decision it returns is lossy, carries the user's
    quality, and recommends the user's format, upper-cased, when one was
    given. *)
Theorem user_quality_is_never_skipped :
  forall (env : Env) (self : CompressionStrategy) (metadata : ImageMetadata)
         (config : CompressionConfig) (d : CompressionDecision) (q : Z),
    quality_mode config = QualityMode.CUSTOM ->
    custom_quality config = Some q ->
    select_optimal env self metadata (Some config) = Return d ->
    skip_compression d = false
    /\ strategy_type d = StrategyType.LOSSY
    /\ recommended_quality d = Some q
    /\ 1 <= q <= 100
    /\ (forall f, target_format config = Some f -> Str.truthy f = true ->
                  recommended_format d = Some (Str.upper f)).
Proof.
  intros env self metadata config d q Hmode Hq H.
  unfold select_optimal in H. rewrite Hmode in H.
  unfold _apply_user_config, effective_quality in H.
  rewrite Hmode, Hq in H.
  apply exc_bind_return in H. destruct H as (hint & Hhint & H).
  destruct (CompressionDecision_new_fields _ _ _ _ _ _ _ H)
    as (Hst & Hrq & Hskip & _ & Hrange & Hrec & _).
  split; [exact Hskip |]. split; [exact Hst |]. split; [exact Hrq |].
  split; [apply Hrange; reflexivity |].
  intros f Hf Htruthy. unfold _suggest_format in Hhint.
  rewrite Hf in Hhint. cbn [opt_truthy opt_or] in Hhint.
  rewrite Htruthy in Hhint. inversion Hhint; subst hint.
  rewrite Hrec. rewrite upper_idempotent. reflexivity.
Qed.

Lemma user_quality_is_never_skipped_witness :
  let env := World.calm World.plain_image (Saved (mkFile 9000 2)) in
  let metadata := World.meta (mkPath "pics" "icon.png") "PNG" 1200 40 40 None in
  let config :=
    World.with_format "webp"
      (World.with_quality 80 (World.auto (mkPath "pics" "icon.png"))) in
  _should_skip_compression metadata = true
  /\ exists d,
       select_optimal env (CompressionStrategy_new env) metadata (Some config)
       = Return d
       /\ skip_compression d = false
       /\ recommended_format d = Some "WEBP".
Proof.
  intros env metadata config. split; [reflexivity |].
  assert (H : exists d,
            select_optimal env (CompressionStrategy_new env) metadata
              (Some config) = Return d)
    by (eexists; vm_compute; reflexivity).
  destruct H as (d & Hsel). exists d. split; [exact Hsel |].
  destruct (user_quality_is_never_skipped env _ metadata config d 80
              eq_refl eq_refl Hsel) as (Hskip & _ & _ & _ & Hfmt).
  split; [exact Hskip |]. exact (Hfmt "webp" eq_refl eq_refl).
Defined.

(** In auto mode the strategy keeps the format of a JPEG, PNG or WEBP
    input, and asks for a lossy encoding of none but a WEBP of 0.2 MiB or
    more. *)
Lemma try_original_format_keeps_format (env : Env) metadata d :
  _try_original_format_optimization env metadata = Return (Some d) ->
  In (format (basic_info metadata)) ["JPEG"; "PNG"; "WEBP"]
  /\ recommended_format d = Some (format (basic_info metadata))
  /\ (recommended_quality d = None
      \/ (format (basic_info metadata) = "WEBP"
          /\ recommended_quality d = Some 85
          /\ Num.ltb (file_size_mb (basic_info metadata)) (2 # 10) = false)).
Proof.
  unfold _try_original_format_optimization.
  destruct (String.eqb_spec (format (basic_info metadata)) "JPEG") as [E | _];
    [| destruct (String.eqb_spec (format (basic_info metadata)) "PNG")
         as [E | _];
       [| destruct (String.eqb_spec (format (basic_info metadata)) "WEBP")
            as [E | _]; [| discriminate]]];
    rewrite E;
    try destruct (Num.ltb (file_size_mb (basic_info metadata)) (2 # 10)) eqn:Hsz;
    intros H; apply exc_bind_return in H; destruct H as (x & Hx & H);
    inversion H; subst x; clear H;
    destruct (CompressionDecision_new_fields _ _ _ _ _ _ _ Hx)
      as (_ & Hq & _ & _ & _ & Hf & _);
    (split; [simpl; tauto |]); (split; [exact Hf |]);
    first [ left; exact Hq | right; repeat split; assumption ].
Qed.

(** The quality of a decision that keeps the format: 85 for a WEBP of
    0.2 MiB or more, none for every other file. *)
Lemma try_original_format_quality (env : Env) metadata d :
  _try_original_format_optimization env metadata = Return (Some d) ->
  recommended_quality d
  = if String.eqb (format (basic_info metadata)) "WEBP"
       && negb (Num.ltb (file_size_mb (basic_info metadata)) (2 # 10))
    then Some 85 else None.
Proof.
  unfold _try_original_format_optimization.
  destruct (String.eqb_spec (format (basic_info metadata)) "JPEG") as [E | _];
    [| destruct (String.eqb_spec (format (basic_info metadata)) "PNG")
         as [E | _];
       [| destruct (String.eqb_spec (format (basic_info metadata)) "WEBP")
            as [E | _]; [| discriminate]]];
    rewrite ?E;
    try destruct (Num.ltb (file_size_mb (basic_info metadata)) (2 # 10)) eqn:Hsz;
    intros H; apply exc_bind_return in H; destruct H as (x & Hx & H);
    inversion H; subst x; clear H;
    destruct (CompressionDecision_new_fields _ _ _ _ _ _ _ Hx)
      as (_ & Hq & _);
    rewrite Hq; reflexivity.
Qed.

(** The decision of auto mode for a format the strategy optimises in
    place. *)
Lemma known_format_decision (env : Env) (self : CompressionStrategy)
    (metadata : ImageMetadata) (d : CompressionDecision) :
  In (format (basic_info metadata)) ["JPEG"; "PNG"; "WEBP"] ->
  select_optimal env self metadata None = Return d ->
  skip_compression d = false ->
  recommended_format d = Some (format (basic_info metadata))
  /\ (recommended_quality d = None
      \/ (format (basic_info metadata) = "WEBP"
          /\ recommended_quality d = Some 85
          /\ Num.ltb (file_size_mb (basic_info metadata)) (2 # 10) = false))
  /\ recommended_quality d
     = if String.eqb (format (basic_info metadata)) "WEBP"
          && negb (Num.ltb (file_size_mb (basic_info metadata)) (2 # 10))
       then Some 85 else None.
Proof.
  intros Hfmt H Hskip.
  unfold select_optimal, _analyze_and_decide in H.
  destruct (_should_skip_compression metadata).
  { rewrite (CompressionDecision_new_skip _ _ _ _ _ _ _ H) in Hskip.
    discriminate Hskip. }
  apply exc_bind_return in H. destruct H as ([d' |] & Ho & H).
  - inversion H; subst d'.
    destruct (try_original_format_keeps_format _ _ _ Ho) as (_ & Hf & Hq).
    split; [exact Hf |]. split; [exact Hq |].
    exact (try_original_format_quality _ _ _ Ho).
  - exfalso. unfold _try_original_format_optimization in Ho.
    simpl in Hfmt. destruct Hfmt as [E | [E | [E | []]]]; rewrite <- E in Ho;
      cbn in Ho;
      repeat match type of Ho with
             | context [if ?b then _ else _] => destruct b
             end;
      apply exc_bind_return in Ho; destruct Ho as (x & _ & Ho);
      discriminate Ho.
Qed.

(** X3 - in auto mode a JPEG, PNG or WEBP input is never converted: a
    decision that does not skip recommends the input's own format; a WEBP
    of 0.2 MiB or more gets quality 85, and every other such file gets no
    quality at all (lossless). *)
Theorem auto_mode_keeps_known_format :
  forall (env : Env) (self : CompressionStrategy) (metadata : ImageMetadata)
         (d : CompressionDecision),
    let basic := basic_info metadata in
    In (format basic) ["JPEG"; "PNG"; "WEBP"] ->
    select_optimal env self metadata None = Return d ->
    skip_compression d = false ->
    recommended_format d = Some (format basic)
    /\ (format basic = "WEBP" ->
        Num.ltb (file_size_mb basic) (2 # 10) = false ->
        recommended_quality d = Some 85)
    /\ (format basic = "WEBP" ->
        Num.ltb (file_size_mb basic) (2 # 10) = true ->
        recommended_quality d = None)
    /\ (format basic <> "WEBP" -> recommended_quality d = None).
Proof.
  intros env self metadata d basic Hfmt H Hskip.
  destruct (known_format_decision env self metadata d Hfmt H Hskip)
    as (Hformat & _ & Hquality).
  fold basic in Hquality.
  split; [exact Hformat |]. split; [| split].
  - intros E Hsize. rewrite Hquality, E, Hsize. reflexivity.
  - intros E Hsize. rewrite Hquality, E, Hsize. reflexivity.
  - intros E. rewrite Hquality.
    destruct (String.eqb_spec (format basic) "WEBP"); [contradiction |].
    reflexivity.
Qed.

Lemma auto_mode_keeps_known_format_witness :
  let env := World.calm World.plain_image (Saved (mkFile 9000 2)) in
  let large :=
    World.meta (mkPath "pics" "shot.webp") "WEBP" 300000 2000 1600 None in
  let small :=
    World.meta (mkPath "pics" "shot.webp") "WEBP" 200000 2000 1600 None in
  (exists d,
     select_optimal env (CompressionStrategy_new env) large None = Return d
     /\ recommended_format d = Some "WEBP"
     /\ recommended_quality d = Some 85)
  /\ (exists d,
        select_optimal env (CompressionStrategy_new env) small None = Return d
        /\ recommended_format d = Some "WEBP"
        /\ recommended_quality d = None).
Proof.
  intros env large small.
  assert (H : forall metadata,
            (exists d,
               select_optimal env (CompressionStrategy_new env) metadata None
               = Return d /\ skip_compression d = false) ->
            format (basic_info metadata) = "WEBP" ->
            exists d,
              select_optimal env (CompressionStrategy_new env) metadata None
              = Return d
              /\ recommended_format d = Some "WEBP"
              /\ (Num.ltb (file_size_mb (basic_info metadata)) (2 # 10)
                  = false -> recommended_quality d = Some 85)
              /\ (Num.ltb (file_size_mb (basic_info metadata)) (2 # 10)
                  = true -> recommended_quality d = None)).
  { intros metadata (d & Hsel & Hskip) Hwebp.
    destruct (auto_mode_keeps_known_format env _ metadata d
                ltac:(rewrite Hwebp; simpl; tauto) Hsel Hskip)
      as (Hf & Hlarge & Hsmall & _).
    exists d. split; [exact Hsel |]. rewrite Hwebp in Hf.
    split; [exact Hf |]. split; [exact (Hlarge Hwebp) | exact (Hsmall Hwebp)]. }
  split.
  - destruct (H large) as (d & Hsel & Hf & Hq & _);
      [eexists; split; [vm_compute; reflexivity | reflexivity] | reflexivity |].
    exists d. split; [exact Hsel |]. split; [exact Hf |].
    apply Hq. vm_compute. reflexivity.
  - destruct (H small) as (d & Hsel & Hf & _ & Hq);
      [eexists; split; [vm_compute; reflexivity | reflexivity] | reflexivity |].
    exists d. split; [exact Hsel |]. split; [exact Hf |].
    apply Hq. vm_compute. reflexivity.
Defined.

(** X4 - in auto mode an image with transparency whose format is not
    JPEG is never sent to JPEG: a decision that does not skip recommends
    the input's own PNG or WEBP, or, for other formats, PNG (lossless) or
    WEBP at quality 90 (files above the size threshold). *)
Theorem transparent_image_never_becomes_jpeg :
  forall (env : Env) (self : CompressionStrategy) (metadata : ImageMetadata)
         (d : CompressionDecision),
    has_transparency (basic_info metadata) = true ->
    format (basic_info metadata) <> "JPEG" ->
    select_optimal env self metadata None = Return d ->
    skip_compression d = false ->
    (recommended_format d = Some "PNG" /\ recommended_quality d = None)
    \/ (recommended_format d = Some "WEBP"
        /\ (recommended_quality d = None
            \/ recommended_quality d = Some 85
            \/ recommended_quality d = Some 90)).
Proof.
  intros env self metadata d Htr Hnj H Hskip.
  pose proof H as Hsel.
  unfold select_optimal, _analyze_and_decide in H.
  destruct (_should_skip_compression metadata) eqn:Hguard.
  { rewrite (CompressionDecision_new_skip _ _ _ _ _ _ _ H) in Hskip.
    discriminate Hskip. }
  apply exc_bind_return in H. destruct H as ([d' |] & Ho & H).
  - inversion H; subst d'.
    destruct (try_original_format_keeps_format _ _ _ Ho)
      as (Hin & Hf & Hq).
    simpl in Hin. destruct Hin as [E | [E | [E | []]]].
    + congruence.
    + left. rewrite <- E in Hf. split; [exact Hf |].
      destruct Hq as [Hq | (E' & _)]; [exact Hq | congruence].
    + right. rewrite <- E in Hf. split; [exact Hf |].
      destruct Hq as [Hq | (_ & Hq & _)]; [left | right; left]; exact Hq.
  - apply exc_bind_return in H. destruct H as (photo & _ & H).
    apply exc_bind_return in H. destruct H as (simple & _ & H).
    unfold _make_decision in H. rewrite Hguard, Htr in H. cbn in H.
    destruct (Num.gtb (file_size_mb (basic_info metadata))
                (size_threshold_mb self));
      destruct (CompressionDecision_new_fields _ _ _ _ _ _ _ H)
        as (_ & Hq & _ & _ & _ & Hf & _).
    + right. split; [exact Hf | right; right; exact Hq].
    + left. split; [exact Hf | exact Hq].
Qed.

Lemma transparent_image_never_becomes_jpeg_witness :
  let env := World.calm World.plain_image (Saved (mkFile 9000 2)) in
  let metadata :=
    {| basic_info :=
         {| file_path := mkPath "pics" "logo.gif"; file_size := 60000;
            format := "GIF"; mode := "P"; width := 300; height := 200;
            has_transparency := true; frame_count := 1 |};
       histogram := None; complexity := None |} in
  exists d,
    select_optimal env (CompressionStrategy_new env) metadata None = Return d
    /\ recommended_format d = Some "PNG".
Proof.
  intros env metadata.
  assert (H : exists d,
            select_optimal env (CompressionStrategy_new env) metadata None
            = Return d
            /\ skip_compression d = false
            /\ recommended_format d <> Some "WEBP")
    by (eexists; split;
        [vm_compute; reflexivity | split; [reflexivity | discriminate]]).
  destruct H as (d & Hsel & Hskip & Hnw).
  exists d. split; [exact Hsel |].
  destruct (transparent_image_never_becomes_jpeg env _ metadata d
              eq_refl ltac:(discriminate) Hsel Hskip) as [[Hf _] | [Hf _]];
    [exact Hf | contradiction].
Defined.

(** ** JPEG inputs in auto mode *)

Lemma handle_compression_error_fails (env : Env) (e : Exn) (input : Path)
    (operation : string) (fs fs' : FS) (r : CompressionResult) :
  ErrorHandler.handle_compression_error env e input operation fs = (Return r, fs') ->
  Result.success r = false /\ fs' = fs.
Proof.
  unfold ErrorHandler.handle_compression_error,
    ErrorHandler.handle_validation_error, ErrorHandler.handle_with_context,
    ErrorHandler._create_error_result.
  destruct (exn_class e);
    destruct (PathOps.with_suffix input ".compressed");
    intros H; inversion H; split; reflexivity.
Qed.

(** The executor on a JPEG input without quality, targeting JPEG: whatever
    it returns is a skip result. *)
Lemma compress_image_jpeg_lossless (env : Env) (config : CompressionConfig)
    (metadata : ImageMetadata) (fs fs' : FS) (r : CompressionResult) :
  jpeg_input config = true ->
  effective_quality config = None ->
  determine_target_format config metadata = "JPEG" ->
  _compress_image env config metadata fs = (Return r, fs') ->
  Result.format_used r = "SKIPPED".
Proof.
  intros Hin Hq Htarget H. unfold _compress_image in H.
  rewrite Htarget in H. io_inv H. io_inv H.
  rewrite (jpeg_lossless_signals_skip config Hin Hq) in H.
  change (param_truthy (<["skip_processing" := PyBool true]> ∅)
            "skip_processing") with true in H. cbv iota in H.
  destruct (create_skip_result_fields _ _ _ _ _ _ H) as [n ->]. reflexivity.
Qed.

(** X5 - in auto mode a JPEG file (suffix .jpg or .jpeg, detected format
    JPEG) is never re-encoded: every successful result of the call is a
    skip result, made by copying, whether the strategy skipped the file
    (under 50 KiB) or the JPEG-lossless rule of the builder did. *)
Theorem auto_mode_never_reencodes_jpeg :
  forall (env : Env) (config : CompressionConfig) (metadata : ImageMetadata)
         (fs fs' : FS) (r : CompressionResult),
    opt_truthy (target_format config) = false ->
    quality_mode config = QualityMode.LOSSLESS ->
    jpeg_input config = true ->
    extract env (input_path config) fs = (Return metadata, fs) ->
    format (basic_info metadata) = "JPEG" ->
    process_image env config fs = (Return r, fs') ->
    Result.success r = true ->
    Result.format_used r = "SKIPPED"
    /\ Result.compressed_size r = Result.original_size r.
Proof.
  intros env config metadata fs fs' r Hfmt Hmode Hjpeg Hex Hformat Hrun Hok.
  unfold process_image, io_try in Hrun.
  destruct (process_image_body env config fs) as [[r1 | e] fs1] eqn:Hbody.
  2: { destruct (handle_compression_error_fails _ _ _ _ _ _ _ Hrun) as [Hf _].
       congruence. }
  inversion Hrun; subst r1 fs1; clear Hrun.
  unfold process_image_body in Hbody.
  destruct (extract_return _ _ _ _ _ Hex) as [_ Hexists].
  rewrite Hexists in Hbody. cbn [negb] in Hbody.
  rewrite (io_bind_step _ _ _ _ _ Hex) in Hbody.
  rewrite Hfmt, Hmode in Hbody. cbn [negb QualityMode.eqb andb] in Hbody.
  io_inv Hbody. unfold io_lift in Hstep. inversion Hstep; subst fs0.
  rename H0 into Hsel. clear Hstep.
  destruct (skip_compression a) eqn:Hskip.
  - destruct (create_skip_result_fields _ _ _ _ _ _ Hbody) as [n ->].
    split; reflexivity.
  - rewrite Hmode in Hsel.
    assert (Hin : In (format (basic_info metadata)) ["JPEG"; "PNG"; "WEBP"])
      by (rewrite Hformat; simpl; tauto).
    destruct (known_format_decision env (CompressionStrategy_new env)
                metadata a Hin Hsel Hskip) as (Hrec & Hq & _).
    destruct Hq as [Hq | (E & _)]; [| congruence].
    assert (Hworking : _apply_strategy_decision config a
              = {| input_path := input_path config;
                   output_path := output_path config;
                   output_dir := output_dir config;
                   quality_mode := QualityMode.LOSSLESS;
                   custom_quality := custom_quality config;
                   target_format := Some "JPEG";
                   preserve_format := preserve_format config;
                   resize_config := resize_config config;
                   optimize := optimize config;
                   progressive := progressive config;
                   strip_metadata := strip_metadata config;
                   keep_orientation := keep_orientation config;
                   fallback_to_original := fallback_to_original config |}).
    { unfold _apply_strategy_decision. rewrite Hrec, Hq, Hformat, Hmode.
      reflexivity. }
    rewrite Hworking in Hbody.
    pose proof (fun H1 H2 H3 =>
                  compress_image_jpeg_lossless _ _ _ _ _ _ H1 H2 H3 Hbody)
      as Hskipped.
    specialize (Hskipped Hjpeg eq_refl eq_refl).
    split; [exact Hskipped |].
    unfold _compress_image in Hbody. io_inv Hbody. io_inv Hbody.
    destruct (get_save_parameters _ _) as [params quality].
    destruct (param_truthy params "skip_processing").
    + destruct (create_skip_result_fields _ _ _ _ _ _ Hbody) as [n ->].
      reflexivity.
    + io_inv Hbody. io_inv Hbody. unfold io_ret in Hbody.
      inversion Hbody; subst r. discriminate Hskipped.
Qed.

Lemma auto_mode_never_reencodes_jpeg_witness :
  let env :=
    World.calm
      {| img_format := Some "JPEG"; img_mode := "RGB"; img_width := 400;
         img_height := 300; info_transparency := false; n_frames := None;
         img_histogram := None; img_complexity := None |}
      (Saved (mkFile 90000 2)) in
  let config := World.auto (mkPath "pics" "a.jpeg") in
  let fs : FS := {[ mkFileId "pics" "a.jpeg" := mkFile 100000 1 ]} in
  exists r fs',
    process_image env config fs = (Return r, fs')
    /\ Result.format_used r = "SKIPPED"
    /\ Result.compressed_size r = 100000.
Proof.
  intros env config fs.
  assert (Hrun : exists r,
            fst (process_image env config fs) = Return r
            /\ Result.success r = true
            /\ Result.original_size r = 100000)
    by (eexists; split; [vm_compute; reflexivity | split; reflexivity]).
  destruct Hrun as (r & Hrun & Hok & Hsize). apply returned_pair in Hrun.
  pose proof (extract_opened env (input_path config) fs (mkFile 100000 1) _
                ltac:(vm_compute; reflexivity) eq_refl) as Hex.
  destruct (auto_mode_never_reencodes_jpeg env config _ fs _ r
              eq_refl eq_refl eq_refl Hex eq_refl Hrun Hok) as [Hfmt Heq].
  eexists r, _. split; [exact Hrun |]. split; [exact Hfmt |].
  rewrite Heq. exact Hsize.
Defined.

(** ** The classifier on metadata *)

Lemma Num_gtb_spec (x y : Q) : Num.gtb x y = true <-> (y < x)%Q.
Proof. unfold Num.gtb. apply Num_ltb_spec. Qed.

Lemma Num_ltb_false (x y : Q) : Num.ltb x y = false <-> (y <= x)%Q.
Proof.
  unfold Num.ltb. rewrite negb_false_iff. apply Qle_bool_iff.
Qed.

(** X6 - the classifier fails on metrics out of range: without complexity
    metrics it always returns (not simple, score 0); with them it returns
    exactly when [texture_complexity] lies in [0, 1], and then reports it
    as the complexity score; otherwise the constructor of
    [ImageCharacteristics] raises. *)
Theorem classifier_returns_iff_texture_in_range :
  forall (metadata : ImageMetadata),
    match complexity metadata with
    | None =>
        exists ch, analyze_image_from_metadata metadata = Return ch
                   /\ is_simple_graphic ch = false
                   /\ complexity_score ch = 0%Q
                   /\ color_count ch = 0
    | Some cx =>
        ((0 <= texture_complexity cx)%Q /\ (texture_complexity cx <= 1)%Q ->
         exists ch, analyze_image_from_metadata metadata = Return ch
                    /\ complexity_score ch = texture_complexity cx
                    /\ ch_has_transparency ch
                       = has_transparency (basic_info metadata))
        /\ (~ ((0 <= texture_complexity cx)%Q /\ (texture_complexity cx <= 1)%Q) ->
            analyze_image_from_metadata metadata
            = Raise (pydantic_error "ImageCharacteristics"))
    end.
Proof.
  intros metadata. unfold analyze_image_from_metadata.
  destruct (complexity metadata) as [cx |].
  - destruct (overall_complexity_never_simple cx) as [-> ->].
    set (sp := if Num.ltb (color_diversity cx) (1 # 10) then (true, false)
               else if Num.gtb (color_diversity cx) (5 # 10)
                    then (false, true) else (false, false)).
    destruct sp as [simple photo].
    unfold ImageCharacteristics_new. cbn [Z.ltb Z.compare orb].
    split.
    + intros [H0 H1].
      assert (E0 : Num.ltb (texture_complexity cx) 0 = false)
        by (apply Num_ltb_false; exact H0).
      assert (E1 : Num.gtb (texture_complexity cx) 1 = false)
        by (unfold Num.gtb; apply Num_ltb_false; exact H1).
      rewrite E0, E1. eexists. repeat split; reflexivity.
    + intros Hout.
      destruct (Num.ltb (texture_complexity cx) 0) eqn:E0; [reflexivity |].
      destruct (Num.gtb (texture_complexity cx) 1) eqn:E1; [reflexivity |].
      exfalso. apply Hout. split.
      * apply Num_ltb_false. exact E0.
      * unfold Num.gtb in E1. apply Num_ltb_false. exact E1.
  - unfold ImageCharacteristics_new. cbn.
    eexists. repeat split; reflexivity.
Qed.

Lemma classifier_returns_iff_texture_in_range_witness :
  analyze_image_from_metadata
    (World.meta (mkPath "pics" "noisy.bmp") "BMP" 300000 400 300
       (Some (mkComplexity (1 # 2) (1 # 2) (3 # 2) (1 # 2))))
  = Raise (pydantic_error "ImageCharacteristics").
Proof.
  apply (proj2 (classifier_returns_iff_texture_in_range
    (World.meta (mkPath "pics" "noisy.bmp") "BMP" 300000 400 300
       (Some (mkComplexity (1 # 2) (1 # 2) (3 # 2) (1 # 2)))))).
  intros [_ H]. vm_compute in H. apply H. reflexivity.
Defined.

Lemma brightness_stats_mid_ratio (h : HistogramData) :
  0 < Num.sum (luminance_histogram h) ->
  exists stats,
    brightness_stats h = Some stats
    /\ mid_ratio stats
       = Num.div (Num.sum (Num.slice 85 170 (luminance_histogram h)))
                 (Num.sum (luminance_histogram h)).
Proof.
  intros Hpos. unfold brightness_stats.
  destruct (luminance_histogram h) as [| x l] eqn:E.
  - cbn in Hpos. lia.
  - destruct (Z.eqb_spec (Num.sum (x :: l)) 0) as [E0 | _]; [lia |].
    eexists. split; reflexivity.
Qed.

Lemma Num_div_gt (a b : Z) (n d : positive) :
  0 < b ->
  (Z.pos n * b < Z.pos d * a) ->
  (Z.pos n # d < Num.div a b)%Q.
Proof.
  intros Hb H. unfold Num.div.
  apply Qlt_shift_div_l.
  - unfold Qlt. cbn. lia.
  - unfold Qlt, Qmult, inject_Z. cbn. lia.
Qed.

(** X7 - mid-tones make a photo: when more than 30 % of the pixels of the
    luminance histogram fall in buckets 85 to 169, the classifier, if it
    returns, says [is_photo_like], whatever the complexity metrics say. *)
Theorem midtones_force_photo_like :
  forall (metadata : ImageMetadata) (h : HistogramData)
         (ch : ImageCharacteristics),
    histogram metadata = Some h ->
    0 < Num.sum (luminance_histogram h) ->
    3 * Num.sum (luminance_histogram h)
    < 10 * Num.sum (Num.slice 85 170 (luminance_histogram h)) ->
    analyze_image_from_metadata metadata = Return ch ->
    is_photo_like ch = true.
Proof.
  intros metadata h ch Hh Hpos Hmid H.
  destruct (brightness_stats_mid_ratio h Hpos) as (stats & Hstats & Hratio).
  assert (Hgt : Num.gtb (mid_ratio stats) (3 # 10) = true).
  { apply Num_gtb_spec. rewrite Hratio. apply Num_div_gt; assumption. }
  unfold analyze_image_from_metadata in H.
  rewrite Hh, Hstats, Hgt in H.
  destruct (match complexity metadata with Some _ => _ | None => _ end)
    as [[simple photo] score].
  unfold ImageCharacteristics_new in H.
  destruct (_ || _); inversion H. reflexivity.
Qed.

Lemma midtones_force_photo_like_witness :
  let h := mkHist [] [] [] (repeat 0 85 ++ [40] ++ repeat 0 84 ++ [60]) in
  let metadata :=
    {| basic_info := basic_info
                       (World.meta (mkPath "pics" "grey.bmp") "BMP" 300000
                          10 10 None);
       histogram := Some h;
       complexity := Some (mkComplexity 0 0 0 0) |} in
  exists ch,
    analyze_image_from_metadata metadata = Return ch
    /\ is_simple_graphic ch = true
    /\ is_photo_like ch = true.
Proof.
  intros h metadata.
  assert (H : exists ch, analyze_image_from_metadata metadata = Return ch
                         /\ is_simple_graphic ch = true)
    by (eexists; split; [vm_compute; reflexivity | reflexivity]).
  destruct H as (ch & Hrun & Hsimple).
  exists ch. split; [exact Hrun |]. split; [exact Hsimple |].
  apply (midtones_force_photo_like metadata h ch eq_refl);
    [vm_compute; reflexivity | vm_compute; reflexivity | exact Hrun].
Defined.

(** ** Save parameters *)

(** Looks a key up in a dictionary built by insertions. *)
Ltac lookup_params :=
  repeat (rewrite lookup_insert_ne by discriminate);
  first [apply lookup_insert_eq | apply lookup_empty].

(** X8 - the WEBP, AVIF and HEIF builders clamp an explicit quality to
    [1, 100] (a quality in that range is kept as it is), and the WEBP
    builder gives the alpha channel at least the image quality, and 100
    from quality 85 on. *)
Theorem lossy_builders_clamp_quality :
  forall (config : CompressionConfig) (q : Z),
    let v := clamp_quality q in
    get_webp_params (Some q) config !! "quality" = Some (PyInt v)
    /\ get_avif_params (Some q) config !! "quality" = Some (PyInt v)
    /\ get_heif_params (Some q) config !! "quality" = Some (PyInt v)
    /\ 1 <= v <= 100
    /\ (1 <= q <= 100 -> v = q)
    /\ exists a,
         get_webp_params (Some q) config !! "alpha_quality" = Some (PyInt a)
         /\ v <= a <= 100
         /\ (85 <= v -> a = 100).
Proof.
  intros config q v. subst v.
  pose proof (clamp_quality_range q) as Hr.
  split; [| split; [| split; [| split; [| split]]]].
  - unfold get_webp_params.
    repeat match goal with
           | |- context [if ?b then _ else _] => destruct b
           end; lookup_params.
  - unfold get_avif_params.
    repeat match goal with
           | |- context [if ?b then _ else _] => destruct b
           end; lookup_params.
  - unfold get_heif_params. lookup_params.
  - exact Hr.
  - unfold clamp_quality. lia.
  - unfold get_webp_params.
    destruct (Z.leb_spec 85 (clamp_quality q)) as [H85 | H85].
    + exists 100. split; [lookup_params |]. lia.
    + destruct (Z.leb_spec 70 (clamp_quality q)) as [H70 | H70].
      * exists (Z.min 100 (clamp_quality q + 10)).
        split; [lookup_params |]. lia.
      * exists (clamp_quality q). split; [lookup_params |]. lia.
Qed.

Lemma lossy_builders_clamp_quality_witness :
  get_webp_params (Some 72) (World.auto (mkPath "pics" "a.png")) !! "quality"
  = Some (PyInt 72)
  /\ clamp_quality 72 = 72.
Proof.
  pose proof (lossy_builders_clamp_quality
                (World.auto (mkPath "pics" "a.png")) 72) as H.
  cbv zeta in H. destruct H as (Hw & _ & _ & _ & Hkeep & _).
  assert (E : clamp_quality 72 = 72) by (apply Hkeep; lia).
  split; [rewrite <- E at 2; exact Hw | exact E].
Defined.

(** X9 - a lossless conversion to JPEG of an input that is not itself a
    JPEG file is encoded lossily: the builder returns quality 75 for a
    .webp, .avif or .heif input and 85 for any other, with progressive
    encoding off and no skip signal. *)
Theorem jpeg_lossless_conversion_quality :
  forall (config : CompressionConfig),
    jpeg_input config = false ->
    let modern :=
      Str.mem (Str.lower (PathOps.suffix (input_path config)))
              [".webp"; ".avif"; ".heif"] in
    let q := if modern then 75 else 85 in
    snd (get_jpeg_params None config) = Some q
    /\ fst (get_jpeg_params None config) !! "quality" = Some (PyInt q)
    /\ fst (get_jpeg_params None config) !! "progressive" = Some (PyBool false)
    /\ fst (get_jpeg_params None config) !! "optimize"
       = Some (PyBool (optimize config))
    /\ fst (get_jpeg_params None config) !! "subsampling"
       = Some (PyInt (if modern then 2 else 1))
    /\ fst (get_jpeg_params None config) !! "skip_processing" = None.
Proof.
  intros config Hin modern q. subst q modern.
  unfold get_jpeg_params. rewrite Hin. cbn [is_some orb negb].
  destruct (Str.mem _ [".webp"; ".avif"; ".heif"]); cbn [fst snd Z.leb Z.compare];
    destruct (strip_metadata config);
    repeat split; lookup_params.
Qed.

Lemma jpeg_lossless_conversion_quality_witness :
  snd (get_jpeg_params None (World.auto (mkPath "pics" "a.webp"))) = Some 75
  /\ snd (get_jpeg_params None (World.auto (mkPath "pics" "a.png"))) = Some 85.
Proof.
  split.
  - exact (proj1 (jpeg_lossless_conversion_quality
                    (World.auto (mkPath "pics" "a.webp")) eq_refl)).
  - exact (proj1 (jpeg_lossless_conversion_quality
                    (World.auto (mkPath "pics" "a.png")) eq_refl)).
Defined.

(** X10 - only the JPEG-lossless case asks to skip processing:
    [get_save_parameters] sets a true [skip_processing] exactly when the
    target format is JPEG, the configuration carries no quality and the
    input is a .jpg or .jpeg file. *)
Theorem skip_signal_iff_jpeg_lossless :
  forall (format_name : string) (config : CompressionConfig),
    param_truthy (fst (get_save_parameters format_name config))
                 "skip_processing" = true
    <-> format_name = "JPEG"
        /\ effective_quality config = None
        /\ jpeg_input config = true.
Proof.
  intros format_name config. split.
  - unfold get_save_parameters, param_truthy.
    destruct (String.eqb_spec format_name "JPEG") as [-> | _].
    + unfold get_jpeg_params.
      destruct (effective_quality config) as [q |];
        [| destruct (jpeg_input config) eqn:Hin];
        [ | intros _; repeat split | ];
        cbv beta zeta; cbn [is_some orb negb fst];
        repeat match goal with
               | |- context [if ?b then _ else _] => destruct b
               end;
        cbn [fst];
        repeat (rewrite lookup_insert_ne by discriminate);
        rewrite lookup_empty; discriminate.
    + unfold get_png_params, get_webp_params, get_avif_params,
        get_heif_params.
      destruct (effective_quality config) as [q |];
        repeat match goal with
               | |- context [if ?b then _ else _] => destruct b
               end;
        cbn [fst];
        repeat (rewrite lookup_insert_ne by discriminate);
        rewrite lookup_empty; discriminate.
  - intros (-> & Hq & Hin).
    rewrite (jpeg_lossless_signals_skip config Hin Hq). reflexivity.
Qed.

Lemma skip_signal_iff_jpeg_lossless_witness :
  param_truthy
    (fst (get_save_parameters "JPEG" (World.auto (mkPath "pics" "a.jpg"))))
    "skip_processing" = true.
Proof.
  apply (proj2 (skip_signal_iff_jpeg_lossless "JPEG"
                  (World.auto (mkPath "pics" "a.jpg")))).
  repeat split.
Defined.

(** ** Output paths *)

Lemma append_cancel_l (a x y : string) : a ++ x = a ++ y -> x = y.
Proof.
  induction a as [| c a IH]; cbn; intros H; [exact H |].
  inversion H. auto.
Qed.

Lemma append_assoc (a b c : string) : (a ++ b) ++ c = a ++ (b ++ c).
Proof.
  induction a as [| x a IH]; [reflexivity |].
  change (String x ((a ++ b) ++ c) = String x (a ++ (b ++ c))).
  f_equal. exact IH.
Qed.

Lemma substring_prefix (a s : string) :
  substring 0 (String.length a) (a ++ s) = a.
Proof.
  induction a as [| c a IH]; simpl.
  - destruct s; reflexivity.
  - f_equal. exact IH.
Qed.
Lemma substring_all (s : string) : substring 0 (String.length s) s = s.
Proof. induction s as [| c s IH]; simpl; [| f_equal; exact IH]; reflexivity. Qed.

Lemma substring_rest (a s : string) :
  substring (String.length a) (String.length s) (a ++ s) = s.
Proof.
  induction a as [| c a IH]; simpl; [apply substring_all | exact IH].
Qed.

Lemma length_append (a s : string) :
  String.length (a ++ s) = (String.length a + String.length s)%nat.
Proof. induction a as [| c a IH]; simpl; [| f_equal; exact IH]; reflexivity. Qed.

(** The last dot of a string cuts it in two. *)
Lemma rfind_dot_split (s : string) (i : nat) :
  Str.rfind_dot s = Some i ->
  exists a b, s = a ++ String "."%char b /\ String.length a = i.
Proof.
  revert i. induction s as [| c s IH]; simpl; intros i H; [discriminate H |].
  destruct (Str.rfind_dot s) as [j |].
  - inversion H; subst i. destruct (IH j eq_refl) as (a & b & -> & Hlen).
    exists (String c a), b. simpl. split; [reflexivity | rewrite Hlen; reflexivity].
  - destruct (Ascii.eqb_spec c "."%char) as [-> | _]; [| discriminate H].
    inversion H; subst i. exists "", s. split; reflexivity.
Qed.

(** A name is its stem followed by its suffix, and the suffix is empty or
    starts with a dot. *)
Lemma split_at_suffix_spec (nm : string) :
  fst (PathOps.split_at_suffix nm) ++ snd (PathOps.split_at_suffix nm) = nm
  /\ (snd (PathOps.split_at_suffix nm) = ""
      \/ exists b, snd (PathOps.split_at_suffix nm) = String "."%char b).
Proof.
  unfold PathOps.split_at_suffix.
  assert (Hno : (nm ++ "" = nm)).
  { induction nm as [| c s IH]; [reflexivity |].
    change (String c (s ++ "") = String c s). f_equal. exact IH. }
  destruct (Str.rfind_dot nm) as [i |] eqn:E;
    [| cbn; split; [exact Hno | left; reflexivity]].
  destruct ((0 <? i)%nat && (i <? String.length nm - 1)%nat);
    [| cbn; split; [exact Hno | left; reflexivity]].
  destruct (rfind_dot_split nm i E) as (a & b & -> & <-).
  cbn [fst snd]. rewrite substring_prefix.
  rewrite length_append.
  replace (String.length a + String.length (String "."%char b)
           - String.length a)%nat
    with (String.length (String "."%char b)) by lia.
  rewrite substring_rest. split; [reflexivity | right; eauto].
Qed.

Lemma quality_suffix_starts_with_underscore (c : CompressionConfig) :
  exists t, _get_quality_suffix c = String "_"%char t.
Proof.
  unfold _get_quality_suffix.
  destruct (quality_mode c); [eexists; reflexivity |].
  destruct (effective_quality c) as [q |]; [| eexists; reflexivity].
  destruct (q =? 0); eexists; reflexivity.
Qed.

(** The file name of a generated path has the quality suffix, which
    starts with an underscore, where the original name has its extension
    or its end. *)
Lemma generated_path_is_new (env : Env) (config : CompressionConfig)
    (original : Path) (format_override : option string) :
  _generate_auto_path env config original format_override false <> original.
Proof.
  unfold _generate_auto_path, PathOps.join, PathOps.stem. intros Heq.
  apply (f_equal name) in Heq. cbn [name] in Heq.
  destruct (split_at_suffix_spec (name original)) as [Hsplit Hsfx].
  rewrite <- Hsplit in Heq at 2.
  rewrite append_assoc in Heq. apply append_cancel_l in Heq.
  destruct (quality_suffix_starts_with_underscore config) as [t Ht].
  rewrite Ht in Heq. cbn in Heq.
  destruct Hsfx as [E | [b E]]; rewrite E in Heq; discriminate Heq.
Qed.

Lemma output_path_is_new (env : Env) (config : CompressionConfig)
    (original : Path) (format_override : option string) :
  output_path config <> Some original ->
  get_output_path env config original format_override false <> original.
Proof.
  intros Hne. unfold get_output_path.
  destruct (output_path config) as [p |];
    [congruence | apply generated_path_is_new].
Qed.

(** X11 - the automatically generated output path (with the quality
    suffix, i.e. not the rename target) is never the original path, so an
    automatically named output never overwrites the input; hence
    [get_output_path] is the original path only if the configuration names
    it as [output_path]. *)
Theorem auto_output_path_differs_from_input :
  forall (env : Env) (config : CompressionConfig) (original : Path)
         (format_override : option string),
    _generate_auto_path env config original format_override false <> original
    /\ (output_path config <> Some original ->
        get_output_path env config original format_override false
        <> original).
Proof.
  intros env config original format_override.
  split; [apply generated_path_is_new | apply output_path_is_new].
Qed.

Lemma auto_output_path_differs_from_input_witness :
  let env := World.calm World.plain_image (Saved (mkFile 9000 2)) in
  let config := World.with_quality 80 (World.auto (mkPath "pics" "a.tar.png")) in
  get_output_path env config (input_path config) None false
  = mkPath "pics" "a.tar_compress_80.png"
  /\ get_output_path env config (input_path config) None false
     <> input_path config.
Proof.
  intros env config. split; [vm_compute; reflexivity |].
  apply (proj2 (auto_output_path_differs_from_input env config
                  (input_path config) None)).
  discriminate.
Defined.

(** ** The input file is left alone *)

Lemma keeps_ret {A} (i : FileId) (a : A) : keeps_file i (io_ret a).
Proof. intros fs. reflexivity. Qed.

Lemma keeps_raise {A} (i : FileId) (e : Exn) : keeps_file i (@io_raise A e).
Proof. intros fs. reflexivity. Qed.

Lemma keeps_lift {A} (i : FileId) (m : Exc A) : keeps_file i (io_lift m).
Proof. intros fs. reflexivity. Qed.

Lemma keeps_bind {A B} (i : FileId) (m : IO A) (k : A -> IO B) :
  keeps_file i m -> (forall a, keeps_file i (k a)) ->
  keeps_file i (io_bind m k).
Proof.
  intros Hm Hk fs. unfold io_bind. specialize (Hm fs).
  destruct (m fs) as [[a | e] fs1]; cbn in *.
  - rewrite Hk. exact Hm.
  - exact Hm.
Qed.

Lemma keeps_try {A} (i : FileId) (m : IO A) (h : Exn -> IO A) :
  keeps_file i m -> (forall e, keeps_file i (h e)) ->
  keeps_file i (io_try m h).
Proof.
  intros Hm Hh fs. unfold io_try. specialize (Hm fs).
  destruct (m fs) as [[a | e] fs1]; cbn in *.
  - exact Hm.
  - rewrite Hh. exact Hm.
Qed.

Lemma keeps_mkdir (env : Env) (i : FileId) (dir : string) :
  keeps_file i (Os.mkdir env dir).
Proof. intros fs. unfold Os.mkdir. destruct (os_mkdir_error env dir); reflexivity. Qed.

Lemma keeps_stat_size (env : Env) (i : FileId) (q : Path) :
  keeps_file i (Os.stat_size env q).
Proof.
  intros fs. unfold Os.stat_size. destruct (fs !! Os.file env q); reflexivity.
Qed.

(** A copy never changes its source: onto itself it is refused. *)
Lemma keeps_copy2_source (env : Env) (src dst : Path) :
  keeps_file (Os.file env src) (Os.copy2 env src dst).
Proof.
  intros fs. unfold Os.copy2.
  destruct (fs !! Os.file env src) eqn:Hsrc; cbn [snd]; [| exact Hsrc].
  destruct (bool_decide (Os.file env src = Os.file env dst)) eqn:E;
    cbn [snd]; [exact Hsrc |].
  apply bool_decide_eq_false in E.
  destruct (os_copy_error env src dst); cbn [snd]; [exact Hsrc |].
  rewrite lookup_insert_ne by congruence. exact Hsrc.
Qed.

Lemma keeps_unlink (env : Env) (i : FileId) (q : Path) :
  Os.file env q <> i -> keeps_file i (Os.unlink env q).
Proof.
  intros Hne fs. unfold Os.unlink.
  destruct (fs !! Os.file env q); [| reflexivity].
  destruct (os_unlink_error env q); [reflexivity |].
  apply lookup_delete_ne. exact Hne.
Qed.

Lemma keeps_extract (env : Env) (i : FileId) (q : Path) :
  keeps_file i (extract env q).
Proof.
  intros fs. unfold extract.
  destruct (fs !! Os.file env q) as [f |]; [| reflexivity].
  destruct (pil_open env q f); reflexivity.
Qed.

Lemma keeps_create_error_result (env : Env) (i : FileId) (input : Path)
    msg out original :
  keeps_file i (ErrorHandler._create_error_result env input msg out original).
Proof.
  intros fs. unfold ErrorHandler._create_error_result.
  destruct (match out with Some q => Some q | None => _ end); reflexivity.
Qed.

Lemma keeps_handle_compression_error (env : Env) (i : FileId) e input
    operation :
  keeps_file i (ErrorHandler.handle_compression_error env e input operation).
Proof.
  unfold ErrorHandler.handle_compression_error,
    ErrorHandler.handle_validation_error, ErrorHandler.handle_with_context.
  destruct (exn_class e); apply keeps_create_error_result.
Qed.

Lemma keeps_create_skip_result (env : Env) (config : CompressionConfig) why :
  keeps_file (Os.file env (input_path config))
    (_create_skip_result env config why).
Proof.
  unfold _create_skip_result.
  apply keeps_bind; [apply keeps_mkdir | intros _].
  apply keeps_bind; [apply keeps_copy2_source | intros _].
  apply keeps_bind; [apply keeps_stat_size | intros n]. apply keeps_ret.
Qed.

Lemma keeps_fallback_if_larger (env : Env) (config : CompressionConfig)
    (out : Path) original compressed :
  Os.file env out <> Os.file env (input_path config) ->
  keeps_file (Os.file env (input_path config))
    (fallback_if_larger env config out original compressed).
Proof.
  intros Hne. unfold fallback_if_larger.
  destruct (exceeds_threshold config original compressed); [| apply keeps_ret].
  destruct (original =? 0); [apply keeps_raise |].
  apply keeps_try.
  - apply keeps_bind; [apply keeps_unlink; exact Hne | intros _].
    apply keeps_bind; [apply keeps_copy2_source | intros _].
    apply keeps_ret.
  - intros e. destruct (is_OSError e); [apply keeps_ret | apply keeps_raise].
Qed.

(** The renaming step leaves the input alone, and the path it returns is
    no name of the input file. *)
Lemma rename_if_negligible_keeps (env : Env) (config : CompressionConfig)
    (out : Path) original compressed target (fs : FS) :
  writes_elsewhere env config ->
  Os.file env out <> Os.file env (input_path config) ->
  snd (rename_if_negligible env config out original compressed target fs)
    !! Os.file env (input_path config) = fs !! Os.file env (input_path config)
  /\ forall out',
       fst (rename_if_negligible env config out original compressed target fs)
       = Return out' -> Os.file env out' <> Os.file env (input_path config).
Proof.
  intros [_ Hplain] Hne. unfold rename_if_negligible.
  destruct (should_use_original_name config original compressed);
    [| split; [reflexivity | intros out' H; inversion H; subst; exact Hne]].
  specialize (Hplain target).
  set (new := get_output_path env config (input_path config) (Some target) true)
    in *.
  destruct (bool_decide (new = out)); cbn [negb andb];
    [split; [reflexivity | intros out' H; inversion H; subst; exact Hne] |].
  destruct (bool_decide (new = input_path config)) eqn:E; cbn [negb];
    [split; [reflexivity | intros out' H; inversion H; subst; exact Hne] |].
  apply bool_decide_eq_false in E. specialize (Hplain E).
  unfold io_try, io_bind, Os.rename, io_ret, io_raise.
  destruct (fs !! Os.file env out) as [f |].
  - destruct (os_rename_error env out new) as [e |].
    + destruct (is_OSError e); cbn;
        (split; [reflexivity | intros out' H; inversion H; subst; exact Hne]).
    + cbn. split.
      * rewrite lookup_insert_ne by exact Hplain.
        apply lookup_delete_ne. exact Hne.
      * intros out' H. inversion H; subst. exact Hplain.
  - cbn. split; [reflexivity | intros out' H; inversion H; subst; exact Hne].
Qed.

Lemma keeps_post_process_result (env : Env) (config : CompressionConfig)
    (out : Path) original compressed target :
  writes_elsewhere env config ->
  Os.file env out <> Os.file env (input_path config) ->
  keeps_file (Os.file env (input_path config))
    (_post_process_result env config out original compressed target).
Proof.
  intros Hw Hne fs. unfold _post_process_result. unfold io_bind at 1.
  destruct (rename_if_negligible_keeps env config out original compressed
              target fs Hw Hne) as [Hkeep Havoid].
  destruct (rename_if_negligible env config out original compressed target fs)
    as [[out' | e] fs1]; cbn in *; [| exact Hkeep].
  rewrite <- Hkeep.
  apply (keeps_bind (Os.file env (input_path config))
           (fallback_if_larger env config out' original compressed)).
  - apply keeps_fallback_if_larger. apply Havoid. reflexivity.
  - intros c. apply keeps_ret.
Qed.

Lemma keeps_compress_image (env : Env) (config : CompressionConfig)
    (metadata : ImageMetadata) :
  writes_elsewhere env config ->
  keeps_file (Os.file env (input_path config))
    (_compress_image env config metadata).
Proof.
  intros Hw. pose proof (proj1 Hw) as Hne. unfold _compress_image.
  apply keeps_bind; [apply keeps_mkdir | intros _].
  apply keeps_bind.
  { intros fs. unfold keeps_file. cbv beta.
    destruct (fs !! Os.file env (input_path config)) eqn:E; cbn [snd]; exact E. }
  intros img.
  destruct (get_save_parameters _ config) as [params quality].
  destruct (param_truthy params "skip_processing").
  { apply keeps_create_skip_result. }
  apply keeps_bind.
  { intros fs.
    destruct (image_save env config metadata _ params) eqn:E; cbn [snd];
      apply after_save_other; congruence. }
  intros c.
  apply keeps_bind;
    [apply keeps_post_process_result; assumption | intros post].
  apply keeps_ret.
Qed.

Lemma apply_strategy_decision_paths (config : CompressionConfig)
    (d : CompressionDecision) :
  input_path (_apply_strategy_decision config d) = input_path config
  /\ output_path (_apply_strategy_decision config d) = output_path config
  /\ output_dir (_apply_strategy_decision config d) = output_dir config.
Proof.
  unfold _apply_strategy_decision.
  destruct (recommended_quality d); repeat split.
Qed.

(** Every working configuration of a call writes elsewhere when the call's
    configured output path, or for a generated name every name made of the
    input's stem in the output directory, is a name of another file. *)
Lemma working_config_writes_elsewhere (env : Env)
    (config c : CompressionConfig) :
  let input := input_path config in
  let dir :=
    match output_dir config with Some d => d | None => parent input end in
  input_path c = input ->
  output_path c = output_path config ->
  output_dir c = output_dir config ->
  (forall p, output_path config = Some p ->
             Os.file env p <> Os.file env input) ->
  (output_path config = None ->
   forall rest,
     mkPath dir (PathOps.stem input ++ rest) <> input ->
     Os.file env (mkPath dir (PathOps.stem input ++ rest))
     <> Os.file env input) ->
  writes_elsewhere env c.
Proof.
  intros input dir Hi Ho Hd Hgiven Hgenerated. unfold writes_elsewhere.
  pose proof (generated_path_is_new env c (input_path c) None) as Hnew.
  unfold get_output_path. rewrite Ho, Hi.
  destruct (output_path config) as [p |] eqn:Hp.
  - split; [apply Hgiven; reflexivity |].
    intros target _. apply Hgiven. reflexivity.
  - specialize (Hgenerated eq_refl).
    unfold _generate_auto_path, PathOps.join in *.
    rewrite Hd in *. rewrite Hi in Hnew. fold input dir in Hnew |- *.
    split.
    + rewrite append_assoc in Hnew |- *. apply Hgenerated. exact Hnew.
    + intros target Hne. apply Hgenerated. exact Hne.
Qed.

(** X12 - [process_image] leaves the input file as it was, whether the
    call succeeds, fails or skips, whenever the paths it can write are
    names of other files: the configured [output_path] when there is one;
    otherwise every name in the output directory that is made of the
    input's stem and is spelled differently from the input path (the
    generated output name and the rename targets are such names).  The
    saving clause is about files, not spellings: the executor itself only
    compares spellings. *)
Theorem process_image_keeps_input :
  forall (env : Env) (config : CompressionConfig) (fs : FS),
    let input := input_path config in
    let dir :=
      match output_dir config with Some d => d | None => parent input end in
    (forall p, output_path config = Some p ->
               Os.file env p <> Os.file env input) ->
    (output_path config = None ->
     forall rest,
       mkPath dir (PathOps.stem input ++ rest) <> input ->
       Os.file env (mkPath dir (PathOps.stem input ++ rest))
       <> Os.file env input) ->
    snd (process_image env config fs) !! Os.file env input
    = fs !! Os.file env input.
Proof.
  intros env config fs input dir Hgiven Hgenerated.
  assert (Hw : forall c : CompressionConfig,
            input_path c = input_path config ->
            output_path c = output_path config ->
            output_dir c = output_dir config ->
            writes_elsewhere env c).
  { intros c Hi Ho Hd.
    apply (working_config_writes_elsewhere env config c); assumption. }
  revert fs.
  change (keeps_file (Os.file env (input_path config))
            (process_image env config)).
  unfold process_image. apply keeps_try;
    [| intros e; apply keeps_handle_compression_error].
  intros fs. unfold process_image_body.
  destruct (negb (Os.exists_ env (input_path config) fs)).
  { apply keeps_create_error_result. }
  revert fs.
  apply keeps_bind; [apply keeps_extract | intros metadata].
  destruct (negb (opt_truthy (target_format config))
            && QualityMode.eqb (quality_mode config) QualityMode.LOSSLESS).
  - apply keeps_bind; [apply keeps_lift | intros d].
    destruct (skip_compression d).
    + apply keeps_create_skip_result.
    + destruct (apply_strategy_decision_paths config d) as (Hi & Ho & Hd).
      pose proof (keeps_compress_image env (_apply_strategy_decision config d)
                    metadata (Hw _ Hi Ho Hd)) as Hkeep.
      rewrite Hi in Hkeep. exact Hkeep.
  - apply keeps_compress_image. apply Hw; reflexivity.
Qed.

(** Where every directory has one spelling and names are compared with
    their case, two paths name one file only if they are one path. *)
Lemma plain_volume_files (env : Env) (p q : Path) :
  (forall d, os_realdir env d = d) ->
  os_case_insensitive env = false ->
  Os.file env p = Os.file env q -> p = q.
Proof.
  intros Hdir Hcase. unfold Os.file. rewrite Hcase, !Hdir.
  destruct p, q. cbn. intros H. injection H as -> ->. reflexivity.
Qed.

Lemma process_image_keeps_input_witness :
  let env := World.no_unlink World.plain_image (Saved (mkFile 12000 8)) in
  let config := World.with_format "PNG" (World.auto (mkPath "pics" "a.png")) in
  let fs : FS := {[ mkFileId "pics" "a.png" := mkFile 10000 7 ]} in
  snd (process_image env config fs) !! mkFileId "pics" "a.png"
  = Some (mkFile 10000 7).
Proof.
  intros env config fs.
  pose proof (process_image_keeps_input env config fs
                ltac:(discriminate)
                ltac:(intros _ rest Hne Hsame; apply Hne;
                      exact (plain_volume_files env _ _ (fun d => eq_refl)
                               eq_refl Hsame)))
    as H.
  change (Os.file env (input_path config)) with (mkFileId "pics" "a.png") in H.
  rewrite H. vm_compute. reflexivity.
Defined.

(** ** Writing onto the input *)

(** X13 - compressing in place loses the file when the encoding grows:
    with [output_path] set to the input path, an encoded file above the
    fallback threshold is deleted by the fallback, the copy of the
    original then finds no source (the encoder has overwritten it), the
    error is swallowed, and the call returns a successful result whose
    [output_path] names a file that no longer exists. *)
Theorem in_place_fallback_loses_file :
  forall (env : Env) (config : CompressionConfig) (metadata : ImageMetadata)
         (fs : FS) (f enc : FileData) (img : ProcessedImage),
    let target := determine_target_format config metadata in
    let base_params := fst (get_save_parameters target config) in
    output_path config = Some (input_path config) ->
    fs !! Os.file env (input_path config) = Some f ->
    os_mkdir_error env (parent (input_path config)) = None ->
    pil_process env config f target = Return img ->
    param_truthy base_params "skip_processing" = false ->
    image_save env config metadata target base_params = Saved enc ->
    exceeds_threshold config (file_size (basic_info metadata)) (st_size enc)
    = true ->
    file_size (basic_info metadata) <> 0 ->
    os_unlink_error env (input_path config) = None ->
    exists r fs',
      _compress_image env config metadata fs = (Return r, fs')
      /\ Result.success r = true
      /\ Result.error r = None
      /\ Result.output_path r = input_path config
      /\ Result.compressed_size r = st_size enc
      /\ fs' !! Os.file env (input_path config) = None.
Proof.
  intros env config metadata fs f enc img target base_params
         Hout Hfs Hmk Himg Hskip Hsave Hex Hnz Hunlink.
  assert (Hpath : get_output_path env config (input_path config) None false
                  = input_path config)
    by (unfold get_output_path; rewrite Hout; reflexivity).
  assert (Hrename : forall c, should_use_original_name config
                                (file_size (basic_info metadata)) c = false).
  { intros c. unfold should_use_original_name. rewrite Hout. cbn.
    apply andb_false_r. }
  subst base_params.
  destruct (get_save_parameters target config) as [params quality] eqn:Hparams.
  cbn [fst] in Hskip, Hsave.
  eexists _, _. split.
  - unfold _compress_image. rewrite Hpath. fold target.
    unfold io_bind at 1, Os.mkdir. rewrite Hmk.
    unfold io_bind at 1. rewrite Hfs, Himg.
    rewrite Hparams, Hskip.
    unfold io_bind at 1. rewrite Hsave. cbn [Os.after_save].
    unfold _post_process_result, rename_if_negligible.
    rewrite Hrename.
    unfold io_bind at 1. unfold io_ret at 1.
    unfold io_bind at 1. unfold io_bind at 1.
    unfold fallback_if_larger. rewrite Hex.
    destruct (Z.eqb_spec (file_size (basic_info metadata)) 0) as [E | _];
      [contradiction |].
    unfold io_try, io_bind, Os.unlink, Os.copy2, io_ret.
    rewrite lookup_insert_eq, Hunlink, lookup_delete_eq. cbn.
    reflexivity.
  - cbn. repeat split. apply lookup_delete_eq.
Qed.

Lemma in_place_fallback_loses_file_witness :
  let env := World.calm World.plain_image (Saved (mkFile 12000 8)) in
  let config :=
    World.with_output (mkPath "pics" "a.png")
      (World.with_format "PNG" (World.auto (mkPath "pics" "a.png"))) in
  let metadata := World.meta (mkPath "pics" "a.png") "PNG" 10000 400 300 None in
  let fs : FS := {[ mkFileId "pics" "a.png" := mkFile 10000 7 ]} in
  exists r fs',
    _compress_image env config metadata fs = (Return r, fs')
    /\ Result.success r = true
    /\ fs' !! mkFileId "pics" "a.png" = None.
Proof.
  intros env config metadata fs.
  destruct (in_place_fallback_loses_file env config metadata fs
              (mkFile 10000 7) (mkFile 12000 8) World.untouched
              eq_refl ltac:(vm_compute; reflexivity) eq_refl eq_refl
              ltac:(vm_compute; reflexivity) eq_refl
              ltac:(vm_compute; reflexivity) ltac:(discriminate) eq_refl)
    as (r & fs' & Hrun & Hok & _ & _ & _ & Hgone).
  exists r, fs'. split; [exact Hrun |]. split; [exact Hok | exact Hgone].
Defined.

(** ** Files the strategy skips, and negligible gains *)

(** X14 - a file the skip guard catches is copied as it is: in auto mode,
    for an input that is there and opens, whose detected format Pillow
    knows and for which the guard holds (for instance any file under
    5 KiB), with an output path that is no name of the input file and in
    a world that lets the copy happen, [process_image] returns a skip
    result with both sizes the size of the file, and the output path holds
    the input's bytes. *)
Theorem skipped_file_is_copied :
  forall (env : Env) (config : CompressionConfig) (fs : FS) (f : FileData)
         (img : DecodedImage),
    let metadata :=
      {| basic_info := _extract_basic_info env img (input_path config)
                         (st_size f);
         histogram := img_histogram img;
         complexity := img_complexity img |} in
    let out := get_output_path env config (input_path config) None false in
    opt_truthy (target_format config) = false ->
    quality_mode config = QualityMode.LOSSLESS ->
    Os.file env out <> Os.file env (input_path config) ->
    fs !! Os.file env (input_path config) = Some f ->
    pil_open env (input_path config) f = Return img ->
    _should_skip_compression metadata = true ->
    supported_format env (Str.upper (format (basic_info metadata))) = true ->
    os_mkdir_error env (parent out) = None ->
    os_copy_error env (input_path config) out = None ->
    exists r,
      process_image env config fs = (Return r, <[Os.file env out := f]> fs)
      /\ Result.success r = true
      /\ Result.format_used r = "SKIPPED"
      /\ Result.original_size r = st_size f
      /\ Result.compressed_size r = st_size f
      /\ Result.output_path r = out
      /\ <[Os.file env out := f]> fs !! Os.file env out = Some f.
Proof.
  intros env config fs f img metadata out Hfmt Hmode Hdiff Hfs Hopen Hguard
         Hsup Hmk Hcp.
  pose proof (extract_opened env (input_path config) fs f img Hfs Hopen)
    as Hex. fold metadata in Hex.
  eexists. split.
  - unfold process_image, io_try, process_image_body.
    destruct (extract_return _ _ _ _ _ Hex) as [_ ->]. cbn [negb].
    rewrite (io_bind_step _ _ _ _ _ Hex).
    rewrite Hfmt, Hmode. cbn [negb QualityMode.eqb andb].
    unfold io_bind at 1, io_lift.
    unfold select_optimal. rewrite Hmode.
    unfold _analyze_and_decide. rewrite Hguard.
    unfold CompressionDecision_new. rewrite Hsup. cbn [andb skip_compression].
    rewrite (create_skip_result_copies env config _ fs f Hfs Hdiff Hmk Hcp).
    reflexivity.
  - cbn. repeat split. apply lookup_insert_eq.
Qed.

Lemma skipped_file_is_copied_witness :
  let env := World.calm World.plain_image (Saved (mkFile 900 2)) in
  let config := World.auto (mkPath "pics" "icon.png") in
  let fs : FS := {[ mkFileId "pics" "icon.png" := mkFile 1200 1 ]} in
  exists r,
    process_image env config fs
    = (Return r, <[mkFileId "pics" "icon_compress.png" := mkFile 1200 1]> fs)
    /\ Result.format_used r = "SKIPPED"
    /\ Result.compressed_size r = 1200.
Proof.
  intros env config fs.
  destruct (skipped_file_is_copied env config fs (mkFile 1200 1)
              World.plain_image eq_refl eq_refl ltac:(vm_compute; discriminate)
              ltac:(vm_compute; reflexivity) eq_refl
              ltac:(vm_compute; reflexivity) ltac:(vm_compute; reflexivity)
              eq_refl eq_refl)
    as (r & Hrun & _ & Hfmt & _ & Hsize & _).
  exists r. split; [exact Hrun |]. split; [exact Hfmt | exact Hsize].
Defined.

(** The run of the executor that ends in the renaming: lossless mode, no
    configured output path, a gain under 5 % that does not call for the
    fallback, and a rename target that passes the executor's test. *)
Lemma negligible_gain_run (env : Env) (config : CompressionConfig)
    (metadata : ImageMetadata) (fs : FS) (f enc : FileData)
    (img : ProcessedImage) :
  let target := determine_target_format config metadata in
  let base_params := fst (get_save_parameters target config) in
  let out := get_output_path env config (input_path config) None false in
  let plain :=
    get_output_path env config (input_path config) (Some target) true in
  let original := file_size (basic_info metadata) in
  quality_mode config = QualityMode.LOSSLESS ->
  output_path config = None ->
  fs !! Os.file env (input_path config) = Some f ->
  os_mkdir_error env (parent out) = None ->
  pil_process env config f target = Return img ->
  param_truthy base_params "skip_processing" = false ->
  image_save env config metadata target base_params = Saved enc ->
  Num.ltb (compression_ratio original (st_size enc)) (Float.lit (5 # 100))
  = true ->
  exceeds_threshold config original (st_size enc) = false ->
  plain <> out ->
  plain <> input_path config ->
  os_rename_error env out plain = None ->
  exists r,
    _compress_image env config metadata fs
    = (Return r,
       <[Os.file env plain := enc]>
         (delete (Os.file env out) (<[Os.file env out := enc]> fs)))
    /\ Result.success r = true
    /\ Result.error r = None
    /\ Result.output_path r = plain
    /\ Result.compressed_size r = st_size enc.
Proof.
  intros target base_params out plain original Hmode Hnone Hfs Hmk Himg
         Hskip Hsave Hratio Hex Hpo Hpi Hrn.
  subst base_params.
  destruct (get_save_parameters target config) as [params quality] eqn:Hparams.
  cbn [fst] in Hskip, Hsave.
  eexists. split.
  - unfold _compress_image. fold target out.
    unfold io_bind at 1, Os.mkdir. rewrite Hmk.
    unfold io_bind at 1. rewrite Hfs, Himg.
    rewrite Hparams, Hskip.
    unfold io_bind at 1. rewrite Hsave. cbn [Os.after_save].
    unfold _post_process_result, rename_if_negligible.
    fold original plain.
    unfold should_use_original_name. rewrite Hmode, Hnone.
    fold original. rewrite Hratio. cbn [QualityMode.eqb andb negb is_some].
    rewrite (bool_decide_eq_false_2 _ Hpo), (bool_decide_eq_false_2 _ Hpi).
    cbn [negb andb].
    unfold io_try, io_bind, Os.rename, io_ret. cbv beta.
    rewrite lookup_insert_eq, Hrn. cbv beta iota.
    unfold fallback_if_larger. rewrite Hex. reflexivity.
  - cbn. repeat split.
Qed.

(** X15 - a negligible gain drops the quality suffix: in lossless mode
    without a configured output path, when the encoded file saves less
    than 5 % (the ratio being Python's rounded quotient) and does not
    exceed the fallback threshold, and the path without the suffix is
    spelled differently from the input path and names another file than
    the suffixed path, the output is renamed: the result names the
    unsuffixed path, which holds the encoded file, and nothing is left at
    the suffixed path. *)
Theorem negligible_gain_renames_output :
  forall (env : Env) (config : CompressionConfig) (metadata : ImageMetadata)
         (fs : FS) (f enc : FileData) (img : ProcessedImage),
    let target := determine_target_format config metadata in
    let base_params := fst (get_save_parameters target config) in
    let out := get_output_path env config (input_path config) None false in
    let plain :=
      get_output_path env config (input_path config) (Some target) true in
    let original := file_size (basic_info metadata) in
    quality_mode config = QualityMode.LOSSLESS ->
    output_path config = None ->
    fs !! Os.file env (input_path config) = Some f ->
    os_mkdir_error env (parent out) = None ->
    pil_process env config f target = Return img ->
    param_truthy base_params "skip_processing" = false ->
    image_save env config metadata target base_params = Saved enc ->
    Num.ltb (compression_ratio original (st_size enc)) (Float.lit (5 # 100))
    = true ->
    exceeds_threshold config original (st_size enc) = false ->
    Os.file env plain <> Os.file env out ->
    plain <> input_path config ->
    os_rename_error env out plain = None ->
    exists r fs',
      _compress_image env config metadata fs = (Return r, fs')
      /\ Result.success r = true
      /\ Result.output_path r = plain
      /\ Result.compressed_size r = st_size enc
      /\ fs' !! Os.file env plain = Some enc
      /\ fs' !! Os.file env out = None.
Proof.
  intros env config metadata fs f enc img target base_params out plain
         original Hmode Hnone Hfs Hmk Himg Hskip Hsave Hratio Hex
         Hfiles Hpi Hrn.
  assert (Hpo : plain <> out) by (intros E; apply Hfiles; rewrite E; reflexivity).
  destruct (negligible_gain_run env config metadata fs f enc img
              Hmode Hnone Hfs Hmk Himg Hskip Hsave Hratio Hex Hpo Hpi Hrn)
    as (r & Hrun & Hok & _ & Hpath & Hsize).
  eexists r, _. split; [exact Hrun |]. split; [exact Hok |].
  split; [exact Hpath |]. split; [exact Hsize |]. split.
  - apply lookup_insert_eq.
  - rewrite lookup_insert_ne by exact Hfiles. apply lookup_delete_eq.
Qed.

Lemma negligible_gain_renames_output_witness :
  let env := World.calm World.plain_image (Saved (mkFile 9800 8)) in
  let config := World.with_format "WEBP" (World.auto (mkPath "pics" "a.png")) in
  let metadata := World.meta (mkPath "pics" "a.png") "PNG" 10000 400 300 None in
  let fs : FS := {[ mkFileId "pics" "a.png" := mkFile 10000 7 ]} in
  exists r fs',
    _compress_image env config metadata fs = (Return r, fs')
    /\ Result.output_path r = mkPath "pics" "a.webp"
    /\ fs' !! mkFileId "pics" "a.webp" = Some (mkFile 9800 8)
    /\ fs' !! mkFileId "pics" "a_compress.webp" = None.
Proof.
  intros env config metadata fs.
  destruct (negligible_gain_renames_output env config metadata fs
              (mkFile 10000 7) (mkFile 9800 8) World.untouched
              eq_refl eq_refl ltac:(vm_compute; reflexivity) eq_refl eq_refl
              ltac:(vm_compute; reflexivity) eq_refl
              ltac:(vm_compute; reflexivity) ltac:(vm_compute; reflexivity)
              ltac:(vm_compute; discriminate) ltac:(vm_compute; discriminate)
              eq_refl)
    as (r & fs' & Hrun & _ & Hpath & _ & Hnew & Hold).
  exists r, fs'. split; [exact Hrun |].
  split; [exact Hpath |]. split; [exact Hnew | exact Hold].
Defined.

(** ** Two spellings of the input *)

(** X27 - the renaming can replace the input.  The executor renames only
    when the unsuffixed path is spelled differently from the input path;
    when that path is nevertheless a name of the input file - another
    case of the extension on a volume that ignores case, another spelling
    of the directory - the renaming, under the conditions of a negligible
    gain, puts the encoded file in the place of the original: the call
    succeeds, and the input file now holds the encoded bytes. *)
Theorem aliased_rename_replaces_input :
  forall (env : Env) (config : CompressionConfig) (metadata : ImageMetadata)
         (fs : FS) (f enc : FileData) (img : ProcessedImage),
    let target := determine_target_format config metadata in
    let base_params := fst (get_save_parameters target config) in
    let out := get_output_path env config (input_path config) None false in
    let plain :=
      get_output_path env config (input_path config) (Some target) true in
    let original := file_size (basic_info metadata) in
    quality_mode config = QualityMode.LOSSLESS ->
    output_path config = None ->
    fs !! Os.file env (input_path config) = Some f ->
    os_mkdir_error env (parent out) = None ->
    pil_process env config f target = Return img ->
    param_truthy base_params "skip_processing" = false ->
    image_save env config metadata target base_params = Saved enc ->
    Num.ltb (compression_ratio original (st_size enc)) (Float.lit (5 # 100))
    = true ->
    exceeds_threshold config original (st_size enc) = false ->
    plain <> out ->
    plain <> input_path config ->
    Os.file env plain = Os.file env (input_path config) ->
    os_rename_error env out plain = None ->
    exists r fs',
      _compress_image env config metadata fs = (Return r, fs')
      /\ Result.success r = true
      /\ Result.error r = None
      /\ Result.output_path r = plain
      /\ fs !! Os.file env (input_path config) = Some f
      /\ fs' !! Os.file env (input_path config) = Some enc.
Proof.
  intros env config metadata fs f enc img target base_params out plain
         original Hmode Hnone Hfs Hmk Himg Hskip Hsave Hratio Hex
         Hpo Hpi Halias Hrn.
  destruct (negligible_gain_run env config metadata fs f enc img
              Hmode Hnone Hfs Hmk Himg Hskip Hsave Hratio Hex Hpo Hpi Hrn)
    as (r & Hrun & Hok & Herr & Hpath & Hsize).
  eexists r, _. split; [exact Hrun |]. split; [exact Hok |].
  split; [exact Herr |]. split; [exact Hpath |]. split; [exact Hfs |].
  fold plain. rewrite <- Halias. apply lookup_insert_eq.
Qed.

(** On a volume that ignores case, [pics/a.PNG] is compressed without
    loss to PNG with a gain of 2 %: the file is renamed to [pics/a.png],
    which is the input file, and the original bytes are gone. *)
Lemma aliased_rename_replaces_input_witness :
  let env := World.caseless World.plain_image (Saved (mkFile 9800 8)) in
  let config := World.with_format "PNG" (World.auto (mkPath "pics" "a.PNG")) in
  let metadata := World.meta (mkPath "pics" "a.PNG") "PNG" 10000 400 300 None in
  let fs : FS := {[ Os.file env (mkPath "pics" "a.PNG") := mkFile 10000 7 ]} in
  exists r fs',
    _compress_image env config metadata fs = (Return r, fs')
    /\ Result.success r = true
    /\ Result.output_path r = mkPath "pics" "a.png"
    /\ fs !! Os.file env (mkPath "pics" "a.PNG") = Some (mkFile 10000 7)
    /\ fs' !! Os.file env (mkPath "pics" "a.PNG") = Some (mkFile 9800 8).
Proof.
  intros env config metadata fs.
  destruct (aliased_rename_replaces_input env config metadata fs
              (mkFile 10000 7) (mkFile 9800 8) World.untouched
              eq_refl eq_refl ltac:(vm_compute; reflexivity) eq_refl eq_refl
              ltac:(vm_compute; reflexivity) eq_refl
              ltac:(vm_compute; reflexivity) ltac:(vm_compute; reflexivity)
              ltac:(vm_compute; discriminate) ltac:(vm_compute; discriminate)
              ltac:(vm_compute; reflexivity) eq_refl)
    as (r & fs' & Hrun & Hok & _ & Hpath & Hbefore & Hafter).
  exists r, fs'. split; [exact Hrun |]. split; [exact Hok |].
  split; [exact Hpath |]. split; [exact Hbefore | exact Hafter].
Defined.

(** ** What a failed encode leaves behind *)

(** X28 - a failed encode is not cleaned up.  When the call reaches the
    executor and [Image.save] raises, [process_image] returns a failed
    result and the file system is as [Image.save] left it: the
    destination holds what the encoder left there (the truncated file, if
    it left one, in the place of whatever was there before), and every
    other file is as before.  The failed result does not name that
    destination: where Pillow has no encoder for the [.compressed] name
    the result carries, any file the encoder touched is another one. *)
Theorem failed_encode_is_not_cleaned_up :
  forall (env : Env) (config working : CompressionConfig)
         (metadata : ImageMetadata) (fs : FS) (f : FileData)
         (img : ProcessedImage) (e : Exn) (l : Leftover),
    let out := get_output_path env working (input_path working) None false in
    let target := determine_target_format working metadata in
    let base_params := fst (get_save_parameters target working) in
    Str.truthy (name (input_path config)) = true ->
    process_image_body env config fs = _compress_image env working metadata fs ->
    fs !! Os.file env (input_path working) = Some f ->
    os_mkdir_error env (parent out) = None ->
    pil_process env working f target = Return img ->
    param_truthy base_params "skip_processing" = false ->
    image_save env working metadata target base_params = SaveRaises e l ->
    exists r fs',
      process_image env config fs = (Return r, fs')
      /\ Result.success r = false
      /\ is_some (Result.error r) = true
      /\ fs' !! Os.file env out
         = match l with
           | Untouched => fs !! Os.file env out
           | Partial g => Some g
           | Removed => None
           end
      /\ (forall i, i <> Os.file env out -> fs' !! i = fs !! i)
      /\ (Os.encoder env (Result.output_path r) = None ->
          l <> Untouched ->
          Os.file env (Result.output_path r) <> Os.file env out).
Proof.
  intros env config working metadata fs f img e l out target base_params
         Hname Hreach Hfs Hmk Himg Hskip Hsave.
  destruct (process_image_save_raises env config working metadata fs f img
              e l Hname Hreach Hfs Hmk Himg Hskip Hsave)
    as (r & Hrun & Hfail & Herr & _).
  fold out in Hrun.
  exists r, (Os.after_save env out (SaveRaises e l) fs).
  split; [exact Hrun |]. split; [exact Hfail |]. split; [exact Herr |].
  split; [| split].
  - destruct l as [| g |]; cbn [Os.after_save];
      [reflexivity | apply lookup_insert_eq | apply lookup_delete_eq].
  - intros i Hi. apply after_save_other. exact Hi.
  - intros Hnone Hleft Hsame.
    unfold image_save in Hsave. fold out in Hsave.
    apply same_file_same_encoder in Hsame. rewrite Hnone in Hsame.
    rewrite <- Hsame in Hsave. inversion Hsave. congruence.
Qed.

(** A PNG is written over an older [pics/a_compress.png] of 5000 bytes
    and the encoder fails after truncating it: the call reports a failure
    under the name [pics/a.compressed], and the older output is gone. *)
Lemma failed_encode_is_not_cleaned_up_witness :
  let env :=
    World.calm World.plain_image
      (SaveRaises (mkExn OSError "encoder error") (Partial (mkFile 0 0))) in
  let config := World.with_format "PNG" (World.auto (mkPath "pics" "a.png")) in
  let fs : FS :=
    <[mkFileId "pics" "a_compress.png" := mkFile 5000 3]>
      {[ mkFileId "pics" "a.png" := mkFile 10000 1 ]} in
  exists r fs',
    process_image env config fs = (Return r, fs')
    /\ Result.success r = false
    /\ Result.output_path r = mkPath "pics" "a.compressed"
    /\ fs !! mkFileId "pics" "a_compress.png" = Some (mkFile 5000 3)
    /\ fs' !! mkFileId "pics" "a_compress.png" = Some (mkFile 0 0)
    /\ fs' !! mkFileId "pics" "a.png" = fs !! mkFileId "pics" "a.png".
Proof.
  intros env config fs.
  assert (Hfs : fs !! Os.file env (input_path config) = Some (mkFile 10000 1))
    by (vm_compute; reflexivity).
  pose proof (extract_opened env (input_path config) fs (mkFile 10000 1)
                World.plain_image Hfs eq_refl) as Hex.
  pose proof (process_image_body_override env config fs _
                (or_introl eq_refl) Hex) as Hreach.
  destruct (failed_encode_is_not_cleaned_up env config config _ fs
              (mkFile 10000 1) World.untouched
              (mkExn OSError "encoder error") (Partial (mkFile 0 0))
              eq_refl Hreach Hfs eq_refl
              ltac:(vm_compute; reflexivity) ltac:(vm_compute; reflexivity)
              ltac:(vm_compute; reflexivity))
    as (r & fs' & Hrun & Hfail & _ & Hdest & Hother & _).
  exists r, fs'. split; [exact Hrun |]. split; [exact Hfail |].
  assert (Hfst : fst (process_image env config fs) = Return r)
    by (rewrite Hrun; reflexivity).
  vm_compute in Hfst. injection Hfst as <-.
  split; [reflexivity |]. split; [vm_compute; reflexivity |].
  split; [exact Hdest |].
  apply Hother. vm_compute. discriminate.
Defined.

(** ** Statistics of results *)

(** A part of a whole, as a percentage. *)
Lemma percent_bounds (a b : Z) :
  0 <= a <= b -> 0 < b ->
  (0 <= Num.div a b * inject_Z 100)%Q /\ (Num.div a b * inject_Z 100 <= 100)%Q.
Proof.
  intros [Ha Hab] Hb. unfold Num.div.
  assert (Hb' : (0 < inject_Z b)%Q) by (unfold Qlt; cbn; lia).
  assert (H0 : (0 <= inject_Z a / inject_Z b)%Q).
  { apply Qle_shift_div_l; [exact Hb' |].
    rewrite Qmult_0_l. unfold Qle; cbn; lia. }
  assert (H1 : (inject_Z a / inject_Z b <= 1)%Q).
  { apply Qle_shift_div_r; [exact Hb' |].
    rewrite Qmult_1_l. unfold Qle; cbn; lia. }
  split.
  - apply Qmult_le_0_compat; [exact H0 | discriminate].
  - apply Qle_trans with (1 * inject_Z 100)%Q.
    + apply Qmult_le_compat_r; [exact H1 | discriminate].
    + vm_compute. discriminate.
Qed.

(** X16 - the size saved is never negative, and for a result with sizes
    that are not negative the compression ratio is a percentage between 0
    and 100: it is 0, not negative, for a file that grew, and 0 without a
    division when the original size is 0. *)
Theorem compression_ratio_is_a_percentage :
  forall (r : CompressionResult),
    0 <= get_size_saved r
    /\ (Result.original_size r <= Result.compressed_size r ->
        get_size_saved r = 0)
    /\ (Result.original_size r = 0 -> get_compression_ratio r = 0%Q)
    /\ (0 <= Result.original_size r -> 0 <= Result.compressed_size r ->
        (0 <= get_compression_ratio r)%Q
        /\ (get_compression_ratio r <= 100)%Q).
Proof.
  intros r. unfold get_compression_ratio, get_size_saved.
  split; [lia |]. split; [lia |]. split.
  - intros ->. reflexivity.
  - intros Ho Hc.
    destruct (Z.eqb_spec (Result.original_size r) 0) as [_ | Hnz].
    + split; discriminate.
    + apply percent_bounds; lia.
Qed.

Lemma compression_ratio_is_a_percentage_witness :
  let r :=
    {| Result.input_path := mkPath "pics" "a.png";
       Result.output_path := mkPath "pics" "a_compress.png";
       Result.original_size := 10000; Result.compressed_size := 12000;
       Result.success := true; Result.format_used := "PNG";
       Result.quality_used := None; Result.was_resized := false;
       Result.original_dimensions := None; Result.final_dimensions := None;
       Result.error := None |} in
  get_size_saved r = 0 /\ (0 <= get_compression_ratio r)%Q.
Proof.
  intros r.
  destruct (compression_ratio_is_a_percentage r) as (_ & Hgrew & _ & Hpct).
  split.
  - apply Hgrew. cbn. lia.
  - apply Hpct; cbn; lia.
Defined.

Lemma filter_partition_length {A} (f : A -> bool) (l : list A) :
  (List.length (List.filter f l)
   + List.length (List.filter (fun x => negb (f x)) l))%nat
  = List.length l.
Proof.
  induction l as [| x l IH]; [reflexivity |]. cbn [List.filter].
  destruct (f x); cbn [negb List.length]; lia.
Qed.

Lemma filter_length_le {A} (f : A -> bool) (l : list A) :
  (List.length (List.filter f l) <= List.length l)%nat.
Proof.
  induction l as [| x l IH]; [reflexivity |]. cbn [List.filter].
  destruct (f x); cbn [List.length]; lia.
Qed.

(** X17 - every result of a collection is counted once, as a success or
    as a failure; the success rate is a percentage, and it is 0 for an
    empty collection. *)
Theorem success_and_failure_counts_add_up :
  forall (results : list CompressionResult),
    get_success_count results + get_failure_count results
    = get_total_count results
    /\ (0 <= get_success_rate results)%Q
    /\ (get_success_rate results <= 100)%Q
    /\ (results = [] -> get_success_rate results = 0%Q).
Proof.
  intros results.
  unfold get_success_count, get_failure_count, get_total_count,
    get_successful_items, get_failed_items, get_success_rate,
    get_success_count, get_total_count, get_successful_items.
  pose proof (filter_partition_length Result.success results) as Hpart.
  pose proof (filter_length_le Result.success results) as Hle.
  split; [lia |].
  destruct (Z.eqb_spec (Z.of_nat (List.length results)) 0) as [E | Hnz].
  - split; [discriminate |]. split; [discriminate |]. reflexivity.
  - destruct (percent_bounds
                (Z.of_nat (List.length (List.filter Result.success results)))
                (Z.of_nat (List.length results))) as [H0 H1]; [lia | lia |].
    split; [exact H0 |]. split; [exact H1 |].
    intros ->. cbn in Hnz. lia.
Qed.

Lemma success_and_failure_counts_add_up_witness :
  get_success_rate [] = 0%Q
  /\ get_success_count [] + get_failure_count [] = get_total_count [].
Proof.
  destruct (success_and_failure_counts_add_up []) as (Hsum & _ & _ & Hempty).
  split; [exact (Hempty eq_refl) | exact Hsum].
Defined.

Lemma max_by_spec {A} (key : A -> Z) (best : A) (items : list A) :
  In (max_by key best items) (best :: items)
  /\ forall x, In x (best :: items) -> key x <= key (max_by key best items).
Proof.
  revert best. induction items as [| y rest IH]; intros best.
  - cbn. split; [left; reflexivity |]. intros x [<- | []]. lia.
  - cbn [max_by].
    destruct (IH (if key best <? key y then y else best)) as [Hin Hmax].
    split.
    + destruct Hin as [E | Hin].
      * rewrite <- E. destruct (key best <? key y);
          [right; left; reflexivity | left; reflexivity].
      * right; right. exact Hin.
    + intros x Hx.
      assert (Hb : key best <= key (if key best <? key y then y else best)
                   /\ key y <= key (if key best <? key y then y else best)).
      { destruct (Z.ltb_spec (key best) (key y)); lia. }
      destruct Hx as [<- | [<- | Hx]].
      * etransitivity; [exact (proj1 Hb) |]. apply Hmax. left. reflexivity.
      * etransitivity; [exact (proj2 Hb) |]. apply Hmax. left. reflexivity.
      * apply Hmax. right. exact Hx.
Qed.

(** X18 - the best result of a multi-format compression is [None] exactly
    when no format succeeded; otherwise it is one of the results, it
    succeeded, and no successful result saves more bytes. *)
Theorem best_result_is_a_maximal_success :
  forall (results : list CompressionResult),
    (get_best_result results = None
     <-> forall r, In r results -> Result.success r = false)
    /\ forall best,
         get_best_result results = Some best ->
         In best results
         /\ Result.success best = true
         /\ forall r, In r results -> Result.success r = true ->
                      get_size_saved r <= get_size_saved best.
Proof.
  intros results. unfold get_best_result, get_successful_items.
  destruct (List.filter Result.success results) as [| first rest] eqn:E.
  - split.
    + split; [| reflexivity]. intros _ r Hr.
      destruct (Result.success r) eqn:Hs; [| reflexivity].
      assert (Hin : In r (List.filter Result.success results))
        by (apply filter_In; split; assumption).
      rewrite E in Hin. destruct Hin.
    + intros best H. discriminate H.
  - split.
    + split; [discriminate |]. intros Hall. exfalso.
      assert (Hin : In first (List.filter Result.success results))
        by (rewrite E; left; reflexivity).
      apply filter_In in Hin. destruct Hin as [Hin Hs].
      rewrite (Hall first Hin) in Hs. discriminate Hs.
    + intros best H. inversion H; subst best; clear H.
      destruct (max_by_spec get_size_saved first rest) as [Hin Hmax].
      rewrite <- E in Hin.
      apply filter_In in Hin. destruct Hin as [Hin Hs].
      split; [exact Hin |]. split; [exact Hs |].
      intros r Hr Hrs. apply Hmax. rewrite <- E.
      apply filter_In. split; assumption.
Qed.

Lemma best_result_is_a_maximal_success_witness :
  let mk (fmt : string) (size : Z) (ok : bool) :=
    {| Result.input_path := mkPath "pics" "a.png";
       Result.output_path := mkPath "pics" ("a_compress." ++ fmt);
       Result.original_size := 10000; Result.compressed_size := size;
       Result.success := ok; Result.format_used := fmt;
       Result.quality_used := None; Result.was_resized := false;
       Result.original_dimensions := None; Result.final_dimensions := None;
       Result.error := if ok then None else Some "failed" |} in
  let results := [mk "png" 9000 true; mk "avif" 0 false; mk "webp" 7000 true] in
  exists best,
    get_best_result results = Some best
    /\ Result.format_used best = "webp"
    /\ Result.success best = true.
Proof.
  intros mk results.
  assert (H : exists best, get_best_result results = Some best
                           /\ Result.format_used best = "webp")
    by (eexists; split; [vm_compute; reflexivity | reflexivity]).
  destruct H as (best & Hbest & Hfmt).
  exists best. split; [exact Hbest |]. split; [exact Hfmt |].
  exact (proj1 (proj2 (proj2 (best_result_is_a_maximal_success results)
                         best Hbest))).
Defined.

Lemma sum_saved_le_original (results : list CompressionResult) :
  (forall r, In r results ->
     0 <= Result.original_size r /\ 0 <= Result.compressed_size r) ->
  0 <= Num.sum (map get_size_saved (List.filter Result.success results))
  /\ Num.sum (map get_size_saved (List.filter Result.success results))
     <= Num.sum (map Result.original_size results).
Proof.
  induction results as [| r rest IH]; intros Hall; [cbn; lia |].
  destruct IH as [IH0 IH1].
  { intros x Hx. apply Hall. right. exact Hx. }
  destruct (Hall r (or_introl eq_refl)) as [Ho Hc].
  cbn [List.filter map].
  change (Num.sum (Result.original_size r :: map Result.original_size rest))
    with (Result.original_size r + Num.sum (map Result.original_size rest)).
  destruct (Result.success r).
  - cbn [map].
    change (Num.sum (get_size_saved r
                     :: map get_size_saved (List.filter Result.success rest)))
      with (get_size_saved r
            + Num.sum (map get_size_saved (List.filter Result.success rest))).
    assert (0 <= get_size_saved r <= Result.original_size r)
      by (unfold get_size_saved; lia).
    lia.
  - lia.
Qed.

(** X19 - in a batch whose results carry sizes that are not negative, the
    total size saved lies between 0 and the total original size, so the
    overall compression ratio is a percentage between 0 and 100; it is 0
    when the total original size is 0. *)
Theorem batch_saving_is_bounded :
  forall (results : list CompressionResult),
    (forall r, In r results ->
       0 <= Result.original_size r /\ 0 <= Result.compressed_size r) ->
    0 <= get_total_size_saved results <= get_total_original_size results
    /\ (0 <= get_overall_compression_ratio results)%Q
    /\ (get_overall_compression_ratio results <= 100)%Q
    /\ (get_total_original_size results = 0 ->
        get_overall_compression_ratio results = 0%Q).
Proof.
  intros results Hall.
  pose proof (sum_saved_le_original results Hall) as [H0 H1].
  unfold get_overall_compression_ratio, get_total_size_saved,
    get_total_original_size, get_successful_items.
  split; [lia |].
  destruct (Z.eqb_spec (Num.sum (map Result.original_size results)) 0)
    as [E | Hnz].
  - split; [discriminate |]. split; [discriminate |]. reflexivity.
  - destruct (percent_bounds
                (Num.sum (map get_size_saved
                            (List.filter Result.success results)))
                (Num.sum (map Result.original_size results))) as [Ha Hb];
      [lia | lia |].
    split; [exact Ha |]. split; [exact Hb |]. intros E. contradiction.
Qed.

Lemma batch_saving_is_bounded_witness :
  let mk (orig size : Z) (ok : bool) :=
    {| Result.input_path := mkPath "pics" "a.png";
       Result.output_path := mkPath "pics" "a_compress.png";
       Result.original_size := orig; Result.compressed_size := size;
       Result.success := ok; Result.format_used := "PNG";
       Result.quality_used := None; Result.was_resized := false;
       Result.original_dimensions := None; Result.final_dimensions := None;
       Result.error := None |} in
  let results := [mk 10000 9000 true; mk 5000 0 false; mk 8000 8200 true] in
  get_total_size_saved results = 1000
  /\ 0 <= get_total_size_saved results <= get_total_original_size results.
Proof.
  intros mk results. split; [reflexivity |].
  apply (batch_saving_is_bounded results).
  intros r [<- | [<- | [<- | []]]]; cbn; lia.
Defined.

(** ** The parameter optimizer *)

(** Splits the conditionals of a goal about a dictionary built by
    insertions and looks the key up. *)
Ltac optimizer_cases :=
  repeat match goal with
         | |- context [if ?b then _ else _] => destruct b eqn:?
         end.

Ltac distinct_keys := let H := fresh in intros H; discriminate H.

Ltac skip_inserts := repeat (rewrite lookup_insert_ne by distinct_keys).

Lemma jpeg_steps_keep_quality (params : Params)
    (characteristics : ImageCharacteristics) (basic : BasicImageInfo)
    (quality : PyVal) :
  Optimizer._apply_jpeg_restart_markers
    (Optimizer._apply_jpeg_size_optimization
       (Optimizer._apply_jpeg_feature_optimization
          (Optimizer._apply_basic_jpeg_optimization params basic quality)
          characteristics basic quality)
       basic)
    basic quality !! "quality"
  = params !! "quality".
Proof.
  assert (H4 : forall p, Optimizer._apply_jpeg_restart_markers p basic quality
                         !! "quality" = p !! "quality").
  { intros p. unfold Optimizer._apply_jpeg_restart_markers.
    optimizer_cases; skip_inserts; reflexivity. }
  assert (H3 : forall p, Optimizer._apply_jpeg_size_optimization p basic
                         !! "quality" = p !! "quality").
  { intros p. unfold Optimizer._apply_jpeg_size_optimization.
    optimizer_cases; skip_inserts; reflexivity. }
  assert (H2 : forall p, Optimizer._apply_jpeg_feature_optimization p
                           characteristics basic quality
                         !! "quality" = p !! "quality").
  { intros p. unfold Optimizer._apply_jpeg_feature_optimization,
      Optimizer._optimize_photo_jpeg, Optimizer._set_photo_subsampling,
      Optimizer._optimize_graphic_jpeg.
    optimizer_cases; skip_inserts; reflexivity. }
  assert (H1 : forall p, Optimizer._apply_basic_jpeg_optimization p basic quality
                         !! "quality" = p !! "quality").
  { intros p. unfold Optimizer._apply_basic_jpeg_optimization.
    optimizer_cases; skip_inserts; reflexivity. }
  rewrite H4, H3, H2, H1. reflexivity.
Qed.

Lemma png_optimizer_keeps_quality (config : CompressionConfig)
    (metadata : ImageMetadata) (params out : Params) :
  Optimizer._optimize_png_params config metadata params = Return out ->
  out !! "quality" = params !! "quality".
Proof.
  unfold Optimizer._optimize_png_params.
  destruct (analyze_image_from_metadata metadata) as [c | e];
    cbn [exc_bind]; [| discriminate].
  destruct (4000000 <? Optimizer.pixels (basic_info metadata)).
  - match goal with
    | |- context [Optimizer.number ?v] => destruct (Optimizer.number v)
    end; cbn [exc_bind]; [| discriminate].
    intros H. inversion H; subst out; clear H.
    optimizer_cases; skip_inserts; reflexivity.
  - destruct (Optimizer.pixels (basic_info metadata) <? 100000);
      cbn [exc_bind]; intros H; inversion H; subst out; clear H;
      optimizer_cases; skip_inserts; reflexivity.
Qed.

Lemma webp_lossy_optimizer_keeps_quality (metadata : ImageMetadata)
    (params out : Params) :
  Optimizer._optimize_webp_lossy_params metadata params = Return out ->
  out !! "quality" = params !! "quality".
Proof.
  unfold Optimizer._optimize_webp_lossy_params.
  destruct (analyze_image_from_metadata metadata) as [c | e];
    cbn [exc_bind]; [| discriminate].
  set (quality := Optimizer.get params "quality" (PyInt 80)).
  assert (Hshape :
    forall p1, (if is_photo_like c
                then Optimizer._apply_webp_photo_settings params quality
                else if is_simple_graphic c
                then Return (Optimizer._apply_webp_graphic_settings params)
                else Optimizer._apply_webp_general_settings params quality)
               = Return p1 ->
               p1 !! "quality" = params !! "quality").
  { intros p1. unfold Optimizer._apply_webp_photo_settings,
      Optimizer._apply_webp_graphic_settings,
      Optimizer._apply_webp_general_settings.
    destruct (Optimizer.number quality) as [q | e]; cbn [exc_bind].
    - optimizer_cases; intros H; inversion H; subst p1; clear H;
        skip_inserts; reflexivity.
    - optimizer_cases; intros H; try discriminate H;
        inversion H; subst p1; clear H; skip_inserts; reflexivity. }
  match goal with
  | |- exc_bind ?m _ = _ -> _ => destruct m as [p1 | e] eqn:E1
  end; cbn [exc_bind]; [| discriminate].
  specialize (Hshape p1 eq_refl).
  unfold Optimizer._apply_webp_transparency_optimization,
    Optimizer._apply_webp_size_optimization.
  destruct (has_transparency (basic_info metadata)).
  - destruct (Optimizer.number _) as [a | e]; cbn [exc_bind]; [| discriminate].
    intros H. inversion H; subst out; clear H.
    optimizer_cases; skip_inserts; exact Hshape.
  - cbn [exc_bind]. intros H. inversion H; subst out; clear H.
    optimizer_cases; skip_inserts; exact Hshape.
Qed.

Lemma avif_optimizer_keeps_quality (config : CompressionConfig)
    (metadata : ImageMetadata) (params out : Params) :
  Optimizer._optimize_avif_params config metadata params = Return out ->
  out !! "quality" = params !! "quality".
Proof.
  unfold Optimizer._optimize_avif_params.
  destruct (analyze_image_from_metadata metadata) as [c | e];
    cbn [exc_bind]; [| discriminate].
  destruct (Optimizer.truthy_and _ _) as [high | e]; cbn [exc_bind];
    [| discriminate].
  intros H. inversion H; subst out; clear H.
  optimizer_cases; skip_inserts; reflexivity.
Qed.

(** X20 - the optimizer leaves the quality of the save parameters alone
    for every format but HEIF and lossless WEBP, so the encoder receives
    the quality the result reports; the one exception is a JPEG source in
    lossless mode, whose parameters are reset to [{"optimize": True}]. *)
Theorem optimizer_keeps_reported_quality :
  forall (format_name : string) (config : CompressionConfig)
         (metadata : ImageMetadata) (base_params : Params),
    let out :=
      Optimizer.optimize_parameters format_name config metadata base_params in
    format_name <> "HEIF" ->
    (format_name = "WEBP" ->
     py_truthy (Optimizer.get base_params "lossless" PyNone) = false) ->
    out !! "quality" = base_params !! "quality"
    \/ (format_name = "JPEG"
        /\ quality_mode config = QualityMode.LOSSLESS
        /\ format (basic_info metadata) = "JPEG"
        /\ out = <["optimize" := PyBool true]> ∅).
Proof.
  intros format_name config metadata base_params out Hheif Hwebp.
  subst out. unfold Optimizer.optimize_parameters.
  destruct (String.eqb_spec format_name "JPEG") as [Ej | _].
  { unfold Optimizer._optimize_jpeg_params.
    destruct (analyze_image_from_metadata metadata) as [c | e];
      cbn [exc_bind]; [| left; reflexivity].
    destruct (quality_mode config) eqn:Hmode; cbn [QualityMode.eqb andb].
    - destruct (String.eqb_spec (format (basic_info metadata)) "JPEG")
        as [Ef | _].
      + right. repeat split; assumption.
      + left. apply jpeg_steps_keep_quality.
    - left. apply jpeg_steps_keep_quality. }
  left.
  destruct (String.eqb_spec format_name "PNG") as [_ | _].
  { destruct (Optimizer._optimize_png_params config metadata base_params)
      as [p | e] eqn:E; [| reflexivity].
    exact (png_optimizer_keeps_quality _ _ _ _ E). }
  destruct (String.eqb_spec format_name "WEBP") as [Ew | _].
  { unfold Optimizer._optimize_webp_params. rewrite (Hwebp Ew).
    destruct (Optimizer._optimize_webp_lossy_params metadata base_params)
      as [p | e] eqn:E; [| reflexivity].
    exact (webp_lossy_optimizer_keeps_quality _ _ _ E). }
  destruct (String.eqb_spec format_name "AVIF") as [_ | _].
  { destruct (Optimizer._optimize_avif_params config metadata base_params)
      as [p | e] eqn:E; [| reflexivity].
    exact (avif_optimizer_keeps_quality _ _ _ _ E). }
  destruct (String.eqb_spec format_name "HEIF") as [Eh | _];
    [contradiction | reflexivity].
Qed.

Lemma optimizer_keeps_reported_quality_witness :
  let config :=
    World.with_quality 60
      (World.with_format "AVIF" (World.auto (mkPath "pics" "a.png"))) in
  let metadata :=
    World.meta (mkPath "pics" "a.png") "PNG" 10000 400 300
      (Some (mkComplexity (6 # 10) (6 # 10) (6 # 10) (6 # 10))) in
  let base_params := get_avif_params (Some 60) config in
  Optimizer.optimize_parameters "AVIF" config metadata base_params
  !! "quality" = Some (PyInt 60)
  /\ Optimizer.optimize_parameters "AVIF" config metadata base_params
     !! "speed" = Some (PyInt 2)
  /\ base_params !! "speed" = Some (PyInt 6).
Proof.
  intros config metadata base_params. split.
  - destruct (optimizer_keeps_reported_quality "AVIF" config metadata
                base_params ltac:(discriminate) ltac:(discriminate))
      as [H | (H & _)]; [| discriminate H].
    rewrite H. vm_compute. reflexivity.
  - split; vm_compute; reflexivity.
Defined.

(** X21 - the HEIF optimizer moves the quality by at most 5 and keeps it
    in [1, 100]: for an integer quality in that range the optimized
    quality is an integer in the range; it is the same, or 5 more for a
    quality under 90, or 5 less but at least 70 for a quality above 70;
    no other parameter changes. *)
Theorem heif_quality_moves_by_at_most_5 :
  forall (config : CompressionConfig) (metadata : ImageMetadata)
         (base_params : Params) (q : Z),
    let out :=
      Optimizer.optimize_parameters "HEIF" config metadata base_params in
    base_params !! "quality" = Some (PyInt q) ->
    1 <= q <= 100 ->
    (exists q',
       out !! "quality" = Some (PyInt q')
       /\ 1 <= q' <= 100
       /\ q - 5 <= q' <= q + 5
       /\ (q' = q \/ (q < 90 /\ q' = q + 5)
           \/ (70 < q /\ q' = Z.max 70 (q - 5))))
    /\ forall key, key <> "quality" -> out !! key = base_params !! key.
Proof.
  intros config metadata base_params q out Hq Hrange. subst out.
  unfold Optimizer.optimize_parameters. cbn [String.eqb Ascii.eqb Bool.eqb].
  unfold Optimizer._optimize_heif_params.
  destruct (analyze_image_from_metadata metadata) as [c | e];
    cbn [exc_bind].
  2:{ split; [exists q; repeat split; try exact Hq; lia | reflexivity]. }
  unfold Optimizer.get. rewrite Hq.
  unfold Optimizer.truthy_and, Optimizer.number. cbn [py_truthy Optimizer.py_int].
  destruct (Z.eqb_spec q 0) as [E | _]; [lia |]. cbn [negb exc_bind].
  destruct (is_photo_like c); cbn [exc_bind].
  - destruct (Z.ltb_spec q 90) as [Hlt | Hge]; cbn [exc_bind].
    + split.
      * exists (Z.min 100 (q + 5)). rewrite lookup_insert_eq.
        repeat split; lia.
      * intros key Hkey. apply lookup_insert_ne. congruence.
    + destruct (is_simple_graphic c); cbn [exc_bind].
      * destruct (Z.ltb_spec 70 q) as [H70 | H70]; [| lia]. cbn [exc_bind].
        split.
        -- exists (Z.max 70 (q - 5)). rewrite lookup_insert_eq.
           repeat split; lia.
        -- intros key Hkey. apply lookup_insert_ne. congruence.
      * split; [exists q; repeat split; try exact Hq; lia | reflexivity].
  - destruct (is_simple_graphic c); cbn [exc_bind].
    + destruct (Z.ltb_spec 70 q) as [H70 | H70]; cbn [exc_bind].
      * split.
        -- exists (Z.max 70 (q - 5)). rewrite lookup_insert_eq.
           repeat split; lia.
        -- intros key Hkey. apply lookup_insert_ne. congruence.
      * split; [exists q; repeat split; try exact Hq; lia | reflexivity].
    + split; [exists q; repeat split; try exact Hq; lia | reflexivity].
Qed.

Lemma heif_quality_moves_by_at_most_5_witness :
  let config :=
    World.with_format "HEIF" (World.auto (mkPath "pics" "logo.png")) in
  let metadata :=
    World.meta (mkPath "pics" "logo.png") "PNG" 10000 400 300
      (Some (mkComplexity (5 # 100) (5 # 100) (5 # 100) (5 # 100))) in
  let base_params := get_heif_params (effective_quality config) config in
  base_params !! "quality" = Some (PyInt 100)
  /\ Optimizer.optimize_parameters "HEIF" config metadata base_params
     !! "quality" = Some (PyInt 95)
  /\ exists q',
       Optimizer.optimize_parameters "HEIF" config metadata base_params
       !! "quality" = Some (PyInt q')
       /\ 1 <= q' <= 100.
Proof.
  intros config metadata base_params.
  split; [vm_compute; reflexivity |]. split; [vm_compute; reflexivity |].
  destruct (heif_quality_moves_by_at_most_5 config metadata base_params 100
              ltac:(vm_compute; reflexivity) ltac:(lia))
    as [(q' & Hq' & Hrange & _) _].
  exists q'. split; [exact Hq' | exact Hrange].
Defined.

Lemma optimize_png_guarded (config : CompressionConfig)
    (metadata : ImageMetadata) (base_params : Params) :
  Optimizer.optimize_parameters "PNG" config metadata base_params
  = match Optimizer._optimize_png_params config metadata base_params with
    | Return params => params
    | Raise _ => base_params
    end.
Proof. reflexivity. Qed.

(** X22 - when the classifier rejects the metadata the PNG parameters are
    returned as they came; otherwise the optimizer always switches
    [optimize] on, whatever the configuration says, and leaves a
    compression level of 6, 7 or 9: 9 for a file above 2 MiB, and below
    that 6 for an image of more than 4 megapixels and 9 for one of less
    than 0.1 megapixels. *)
Theorem png_optimizer_levels :
  forall (config : CompressionConfig) (metadata : ImageMetadata)
         (base_params : Params),
    let basic := basic_info metadata in
    let out :=
      Optimizer.optimize_parameters "PNG" config metadata base_params in
    match analyze_image_from_metadata metadata with
    | Raise _ => out = base_params
    | Return _ =>
        out !! "optimize" = Some (PyBool true)
        /\ exists level,
             out !! "compress_level" = Some (PyInt level)
             /\ (level = 6 \/ level = 7 \/ level = 9)
             /\ (Num.gtb (file_size_mb basic) 2 = true -> level = 9)
             /\ (Num.gtb (file_size_mb basic) 2 = false ->
                 (4000000 < Optimizer.pixels basic -> level = 6)
                 /\ (Optimizer.pixels basic < 100000 -> level = 9))
    end.
Proof.
  intros config metadata base_params basic out. subst out.
  rewrite optimize_png_guarded. unfold Optimizer._optimize_png_params.
  fold basic.
  destruct (analyze_image_from_metadata metadata) as [c | e];
    cbn [exc_bind]; [| reflexivity].
  destruct (Z.ltb_spec 4000000 (Optimizer.pixels basic)) as [Hbig | Hbig].
  - assert (Hlevel :
      forall p : Params,
        Optimizer.number
          (Optimizer.get
             (if is_simple_graphic c
              then
                if negb (has_transparency basic)
                   && Str.mem (mode basic) ["RGB"; "L"]
                then <["bits" := PyInt 8]>
                       (<["optimize" := PyBool true]>
                          (<["compress_level" := PyInt 9]> p))
                else <["optimize" := PyBool true]>
                       (<["compress_level" := PyInt 9]> p)
              else if is_photo_like c
              then <["optimize" := PyBool true]>
                     (<["compress_level" := PyInt 6]> p)
              else <["optimize" := PyBool true]>
                     (<["compress_level" := PyInt 7]> p))
             "compress_level" PyNone)
        = Return (if is_simple_graphic c then 9
                  else if is_photo_like c then 6 else 7)).
    { intros p. unfold Optimizer.get.
      optimizer_cases; skip_inserts; rewrite lookup_insert_eq; reflexivity. }
    rewrite Hlevel. cbn [exc_bind].
    destruct (Num.gtb (file_size_mb basic) 2) eqn:Hsize.
    + split; [optimizer_cases; skip_inserts; apply lookup_insert_eq |].
      exists 9. split; [skip_inserts; apply lookup_insert_eq |].
      split; [auto |]. split; [reflexivity | discriminate].
    + split; [optimizer_cases; skip_inserts; apply lookup_insert_eq |].
      exists 6. split.
      * optimizer_cases; skip_inserts; rewrite lookup_insert_eq;
          reflexivity.
      * split; [auto |]. split; [discriminate |]. intros _. split; [auto | lia].
  - destruct (Z.ltb_spec (Optimizer.pixels basic) 100000) as [Hsmall | Hsmall];
      cbn [exc_bind].
    + destruct (Num.gtb (file_size_mb basic) 2) eqn:Hsize.
      * split; [optimizer_cases; skip_inserts; apply lookup_insert_eq |].
        exists 9. split; [skip_inserts; apply lookup_insert_eq |].
        split; [auto |]. split; [reflexivity | discriminate].
      * split; [optimizer_cases; skip_inserts; apply lookup_insert_eq |].
        exists 9. split.
        -- optimizer_cases; skip_inserts; apply lookup_insert_eq.
        -- split; [auto |]. split; [reflexivity |]. intros _.
           split; [lia | reflexivity].
    + destruct (Num.gtb (file_size_mb basic) 2) eqn:Hsize.
      * split; [optimizer_cases; skip_inserts; apply lookup_insert_eq |].
        exists 9. split; [skip_inserts; apply lookup_insert_eq |].
        split; [auto |]. split; [reflexivity | discriminate].
      * split; [optimizer_cases; skip_inserts; apply lookup_insert_eq |].
        exists (if is_simple_graphic c then 9
                else if is_photo_like c then 6 else 7).
        split.
        -- optimizer_cases; skip_inserts; apply lookup_insert_eq.
        -- split; [optimizer_cases; auto |]. split; [discriminate |].
           intros _. split; lia.
Qed.

Lemma png_optimizer_levels_witness :
  let config :=
    {| input_path := mkPath "pics" "big.png"; output_path := None;
       output_dir := None; quality_mode := QualityMode.LOSSLESS;
       custom_quality := None; target_format := None;
       preserve_format := true; resize_config := None;
       optimize := false; progressive := true; strip_metadata := false;
       keep_orientation := true; fallback_to_original := false |} in
  let metadata :=
    World.meta (mkPath "pics" "big.png") "PNG" 1000000 3000 2000 None in
  let base_params := get_png_params (effective_quality config) config in
  base_params !! "optimize" = Some (PyBool false)
  /\ base_params !! "compress_level" = Some (PyInt 9)
  /\ Optimizer.optimize_parameters "PNG" config metadata base_params
     !! "optimize" = Some (PyBool true)
  /\ Optimizer.optimize_parameters "PNG" config metadata base_params
     !! "compress_level" = Some (PyInt 6).
Proof.
  intros config metadata base_params.
  split; [vm_compute; reflexivity |]. split; [vm_compute; reflexivity |].
  pose proof (png_optimizer_levels config metadata base_params) as H.
  cbv zeta in H.
  change (analyze_image_from_metadata metadata)
    with (Return (mkCharacteristics false false 0 0%Q false)) in H.
  destruct H as (Hopt & level & Hlevel & _ & _ & Hsmall).
  split; [exact Hopt |].
  rewrite Hlevel. f_equal. f_equal.
  apply Hsmall; [vm_compute; reflexivity | vm_compute; reflexivity].
Defined.

(** X23 - a transparent image keeps a good alpha channel in lossy WEBP:
    for the parameters the builder makes from an explicit quality, and
    metadata the classifier accepts, the optimized parameters carry an
    [alpha_quality] between 80 and 100, the builder's clamped quality, and
    method 6. *)
Theorem webp_transparency_keeps_alpha_quality :
  forall (config : CompressionConfig) (metadata : ImageMetadata) (q : Z)
         (c : ImageCharacteristics),
    let out :=
      Optimizer.optimize_parameters "WEBP" config metadata
        (get_webp_params (Some q) config) in
    has_transparency (basic_info metadata) = true ->
    analyze_image_from_metadata metadata = Return c ->
    (exists alpha,
       out !! "alpha_quality" = Some (PyInt alpha) /\ 80 <= alpha <= 100)
    /\ out !! "quality" = Some (PyInt (clamp_quality q))
    /\ out !! "method" = Some (PyInt 6).
Proof.
  intros config metadata q c out Htransparent Hc. subst out.
  unfold Optimizer.optimize_parameters. cbn [String.eqb Ascii.eqb Bool.eqb].
  unfold Optimizer._optimize_webp_params.
  assert (Hq : 1 <= clamp_quality q <= 100) by (unfold clamp_quality; lia).
  assert (Hbase :
    exists a,
      1 <= a <= 100
      /\ get_webp_params (Some q) config
         = <["alpha_quality" := PyInt a]>
             (<["method" := PyInt 6]>
                (<["quality" := PyInt (clamp_quality q)]> ∅))).
  { unfold get_webp_params. cbv zeta.
    destruct (Z.leb_spec 85 (clamp_quality q)).
    - exists 100. split; [lia | reflexivity].
    - destruct (Z.leb_spec 70 (clamp_quality q)).
      + exists (Z.min 100 (clamp_quality q + 10)). split; [lia | reflexivity].
      + exists (clamp_quality q). split; [lia | reflexivity]. }
  destruct Hbase as (a & Ha & ->).
  set (w := clamp_quality q) in *.
  match goal with
  | |- context [py_truthy (Optimizer.get ?m "lossless" PyNone)] =>
      replace (py_truthy (Optimizer.get m "lossless" PyNone)) with false
        by (unfold Optimizer.get; skip_inserts; rewrite lookup_empty;
            reflexivity)
  end.
  unfold Optimizer._optimize_webp_lossy_params. rewrite Hc. cbn [exc_bind].
  match goal with
  | |- context [Optimizer.get ?m "quality" (PyInt 80)] =>
      replace (Optimizer.get m "quality" (PyInt 80)) with (PyInt w)
        by (unfold Optimizer.get; skip_inserts; rewrite lookup_insert_eq;
            reflexivity)
  end.
  unfold Optimizer._apply_webp_photo_settings,
    Optimizer._apply_webp_graphic_settings,
    Optimizer._apply_webp_general_settings,
    Optimizer._apply_webp_transparency_optimization,
    Optimizer._apply_webp_size_optimization.
  rewrite Htransparent.
  cbn [Optimizer.number Optimizer.py_int exc_bind].
  destruct (is_photo_like c); cbn [exc_bind].
  - unfold Optimizer.get. skip_inserts. rewrite lookup_insert_eq.
    cbn [Optimizer.number Optimizer.py_int exc_bind].
    split; [| split].
    + exists (Z.max a 80).
      split; [optimizer_cases; skip_inserts; apply lookup_insert_eq | lia].
    + optimizer_cases; skip_inserts; apply lookup_insert_eq.
    + optimizer_cases; skip_inserts; apply lookup_insert_eq.
  - destruct (is_simple_graphic c); cbn [exc_bind].
    + unfold Optimizer.get. skip_inserts. rewrite lookup_insert_eq.
      cbn [Optimizer.number Optimizer.py_int exc_bind].
      split; [| split].
      * exists (Z.max a 80).
        split; [optimizer_cases; skip_inserts; apply lookup_insert_eq | lia].
      * optimizer_cases; skip_inserts; apply lookup_insert_eq.
      * optimizer_cases; skip_inserts; apply lookup_insert_eq.
    + destruct (Z.leb_spec 90 w); [| destruct (Z.leb_spec 70 w)];
        cbn [exc_bind]; unfold Optimizer.get; rewrite lookup_insert_eq;
        cbn [Optimizer.number Optimizer.py_int exc_bind].
      * split; [| split].
        -- exists (Z.max (Z.min 100 (w + 5)) 80).
           split; [optimizer_cases; skip_inserts; apply lookup_insert_eq
                  | lia].
        -- optimizer_cases; skip_inserts; apply lookup_insert_eq.
        -- optimizer_cases; skip_inserts; apply lookup_insert_eq.
      * split; [| split].
        -- exists (Z.max w 80).
           split; [optimizer_cases; skip_inserts; apply lookup_insert_eq
                  | lia].
        -- optimizer_cases; skip_inserts; apply lookup_insert_eq.
        -- optimizer_cases; skip_inserts; apply lookup_insert_eq.
      * split; [| split].
        -- exists (Z.max (Z.max 50 (w - 10)) 80).
           split; [optimizer_cases; skip_inserts; apply lookup_insert_eq
                  | lia].
        -- optimizer_cases; skip_inserts; apply lookup_insert_eq.
        -- optimizer_cases; skip_inserts; apply lookup_insert_eq.
Qed.

Lemma webp_transparency_keeps_alpha_quality_witness :
  let config :=
    World.with_quality 40
      (World.with_format "WEBP" (World.auto (mkPath "pics" "a.png"))) in
  let metadata :=
    {| basic_info :=
         {| file_path := mkPath "pics" "a.png"; file_size := 10000;
            format := "PNG"; mode := "RGBA"; width := 400; height := 300;
            has_transparency := true; frame_count := 1 |};
       histogram := None; complexity := None |} in
  get_webp_params (Some 40) config !! "alpha_quality" = Some (PyInt 40)
  /\ Optimizer.optimize_parameters "WEBP" config metadata
       (get_webp_params (Some 40) config) !! "alpha_quality"
     = Some (PyInt 80)
  /\ Optimizer.optimize_parameters "WEBP" config metadata
       (get_webp_params (Some 40) config) !! "quality"
     = Some (PyInt 40).
Proof.
  intros config metadata.
  split; [vm_compute; reflexivity |]. split; [vm_compute; reflexivity |].
  exact (proj1 (proj2 (webp_transparency_keeps_alpha_quality config metadata
                         40 (mkCharacteristics false false 0 0%Q true)
                         eq_refl ltac:(vm_compute; reflexivity)))).
Defined.

(** X24 - lossless WEBP is encoded with more effort than the builder asks
    for: for metadata the classifier accepts, the optimizer replaces the
    builder's quality 30 and method 2 by quality 100, 90 or 80 and method
    6 or 4 (method 4 exactly for an image above 2 megapixels that is no
    simple graphic), and the encoding stays lossless and exact. *)
Theorem webp_lossless_effort_is_raised :
  forall (config : CompressionConfig) (metadata : ImageMetadata)
         (c : ImageCharacteristics),
    let basic := basic_info metadata in
    let base_params := get_webp_params None config in
    let out :=
      Optimizer.optimize_parameters "WEBP" config metadata base_params in
    analyze_image_from_metadata metadata = Return c ->
    base_params !! "quality" = Some (PyInt 30)
    /\ base_params !! "method" = Some (PyInt 2)
    /\ out !! "lossless" = Some (PyBool true)
    /\ out !! "exact" = Some (PyBool true)
    /\ exists effort method,
         out !! "quality" = Some (PyInt effort)
         /\ out !! "method" = Some (PyInt method)
         /\ (effort = 100 \/ effort = 90 \/ effort = 80)
         /\ (method = 4 <->
             is_simple_graphic c = false
             /\ 2000000 < Optimizer.pixels basic)
         /\ (method <> 4 -> method = 6).
Proof.
  intros config metadata c basic base_params out Hc. subst out base_params.
  split; [unfold get_webp_params; skip_inserts; apply lookup_insert_eq |].
  split; [unfold get_webp_params; skip_inserts; apply lookup_insert_eq |].
  unfold Optimizer.optimize_parameters. cbn [String.eqb Ascii.eqb Bool.eqb].
  unfold Optimizer._optimize_webp_params, get_webp_params.
  match goal with
  | |- context [py_truthy (Optimizer.get ?m "lossless" PyNone)] =>
      replace (py_truthy (Optimizer.get m "lossless" PyNone)) with true
        by (unfold Optimizer.get; skip_inserts; rewrite lookup_insert_eq;
            reflexivity)
  end.
  unfold Optimizer._optimize_webp_lossless_params. rewrite Hc.
  cbn [exc_bind]. fold basic.
  destruct (is_simple_graphic c).
  - split; [skip_inserts; apply lookup_insert_eq |].
    split; [skip_inserts; apply lookup_insert_eq |].
    exists 100, 6. split; [apply lookup_insert_eq |].
    split; [skip_inserts; apply lookup_insert_eq |].
    split; [auto |]. split; [| reflexivity].
    split; [discriminate | intros [H _]; discriminate H].
  - destruct (Z.ltb_spec 2000000 (Optimizer.pixels basic)) as [Hbig | Hbig].
    + split; [skip_inserts; apply lookup_insert_eq |].
      split; [skip_inserts; apply lookup_insert_eq |].
      exists 80, 4. split; [apply lookup_insert_eq |].
      split; [skip_inserts; apply lookup_insert_eq |].
      split; [auto |]. split; [| intros H; contradiction].
      split; [intros _; split; [reflexivity | exact Hbig] | reflexivity].
    + split; [skip_inserts; apply lookup_insert_eq |].
      split; [skip_inserts; apply lookup_insert_eq |].
      exists 90, 6. split; [apply lookup_insert_eq |].
      split; [skip_inserts; apply lookup_insert_eq |].
      split; [auto |]. split; [| reflexivity].
      split; [discriminate | intros [_ H]; lia].
Qed.

Lemma webp_lossless_effort_is_raised_witness :
  let config :=
    World.with_format "WEBP" (World.auto (mkPath "pics" "big.png")) in
  let metadata :=
    World.meta (mkPath "pics" "big.png") "PNG" 1000000 3000 2000 None in
  Optimizer.optimize_parameters "WEBP" config metadata
    (get_webp_params None config) !! "lossless" = Some (PyBool true)
  /\ Optimizer.optimize_parameters "WEBP" config metadata
       (get_webp_params None config) !! "method" = Some (PyInt 4).
Proof.
  intros config metadata.
  destruct (webp_lossless_effort_is_raised config metadata
              (mkCharacteristics false false 0 0%Q false)
              ltac:(vm_compute; reflexivity))
    as (_ & _ & Hlossless & _ & effort & method & _ & Hmethod & _ & Hiff & _).
  split; [exact Hlossless |].
  rewrite Hmethod. f_equal. f_equal.
  apply Hiff. split; [reflexivity | vm_compute; reflexivity].
Defined.

(** X25 - the AVIF optimizer always decides the encoder speed itself: for
    the builder's parameters and metadata the classifier accepts, the
    speed is 1, 2 or 4, never the 6 the builder gives a quality under 70;
    it is 1 from quality 95 on, which includes lossless mode; the quality
    and the chroma subsampling are the builder's. *)
Theorem avif_speed_is_the_optimizers :
  forall (config : CompressionConfig) (metadata : ImageMetadata)
         (quality : option Z) (c : ImageCharacteristics),
    let base_params := get_avif_params quality config in
    let out :=
      Optimizer.optimize_parameters "AVIF" config metadata base_params in
    let encoded :=
      match quality with Some q => clamp_quality q | None => 100 end in
    analyze_image_from_metadata metadata = Return c ->
    (exists speed,
       out !! "speed" = Some (PyInt speed)
       /\ (speed = 1 \/ speed = 2 \/ speed = 4)
       /\ (95 <= encoded -> speed = 1))
    /\ out !! "quality" = Some (PyInt encoded)
    /\ out !! "subsampling" = base_params !! "subsampling".
Proof.
  intros config metadata quality c base_params out encoded Hc.
  subst out. unfold Optimizer.optimize_parameters.
  cbn [String.eqb Ascii.eqb Bool.eqb].
  unfold Optimizer._optimize_avif_params. rewrite Hc. cbn [exc_bind].
  assert (Hencoded : 1 <= encoded <= 100).
  { subst encoded. destruct quality; [unfold clamp_quality |]; lia. }
  assert (Hquality : base_params !! "quality" = Some (PyInt encoded)).
  { subst base_params encoded. unfold get_avif_params.
    destruct quality as [q |]; cbv zeta;
      optimizer_cases; skip_inserts; apply lookup_insert_eq. }
  unfold Optimizer.get. rewrite Hquality.
  unfold Optimizer.truthy_and, Optimizer.number.
  cbn [py_truthy Optimizer.py_int].
  destruct (Z.eqb_spec encoded 0) as [E | _]; [lia |]. cbn [negb exc_bind].
  destruct (Z.leb_spec 95 encoded) as [Hhigh | Hlow].
  - split; [| split].
    + exists 1. split; [apply lookup_insert_eq | auto].
    + optimizer_cases; skip_inserts; exact Hquality.
    + optimizer_cases; skip_inserts; reflexivity.
  - split; [| split].
    + destruct (is_photo_like c);
        [destruct (4000000 <? Optimizer.pixels (basic_info metadata))
        | destruct (is_simple_graphic c)];
        eexists; (split; [apply lookup_insert_eq |]); (split; [auto | lia]).
    + optimizer_cases; skip_inserts; exact Hquality.
    + optimizer_cases; skip_inserts; reflexivity.
Qed.

Lemma avif_speed_is_the_optimizers_witness :
  let config :=
    World.with_format "AVIF" (World.auto (mkPath "pics" "a.png")) in
  let metadata :=
    World.meta (mkPath "pics" "a.png") "PNG" 10000 400 300 None in
  get_avif_params None config !! "speed" = Some (PyInt 4)
  /\ Optimizer.optimize_parameters "AVIF" config metadata
       (get_avif_params None config) !! "speed" = Some (PyInt 1).
Proof.
  intros config metadata. split; [vm_compute; reflexivity |].
  destruct (avif_speed_is_the_optimizers config metadata None
              (mkCharacteristics false false 0 0%Q false)
              ltac:(vm_compute; reflexivity))
    as ((speed & Hspeed & _ & Hone) & _).
  rewrite Hspeed. f_equal. f_equal. apply Hone. lia.
Defined.

(** X26 - a JPEG whose file name has another extension is re-encoded in
    lossless mode without the quality the result reports: the builder
    does not set the skip signal and chooses quality 85 (75 after a
    .webp, .avif or .heif name), which [get_save_parameters] reports, but
    the optimizer hands the encoder [{"optimize": True}] alone, with no
    quality and no subsampling. *)
Theorem lossless_jpeg_reset_drops_quality :
  forall (config : CompressionConfig) (metadata : ImageMetadata)
         (c : ImageCharacteristics),
    let base_params := fst (get_save_parameters "JPEG" config) in
    let reported := snd (get_save_parameters "JPEG" config) in
    let out :=
      Optimizer.optimize_parameters "JPEG" config metadata base_params in
    quality_mode config = QualityMode.LOSSLESS ->
    jpeg_input config = false ->
    format (basic_info metadata) = "JPEG" ->
    analyze_image_from_metadata metadata = Return c ->
    param_truthy base_params "skip_processing" = false
    /\ (reported = Some 85 \/ reported = Some 75)
    /\ (exists q, base_params !! "quality" = Some (PyInt q)
                  /\ reported = Some q)
    /\ out = <["optimize" := PyBool true]> ∅
    /\ out !! "quality" = None
    /\ out !! "subsampling" = None.
Proof.
  intros config metadata c base_params reported out Hmode Hinput Hformat Hc.
  assert (Hout : out = <["optimize" := PyBool true]> ∅).
  { subst out. unfold Optimizer.optimize_parameters.
    cbn [String.eqb Ascii.eqb Bool.eqb].
    unfold Optimizer._optimize_jpeg_params. rewrite Hc. cbn [exc_bind].
    rewrite Hmode, Hformat. reflexivity. }
  subst base_params reported.
  unfold get_save_parameters. cbn [String.eqb Ascii.eqb Bool.eqb].
  unfold effective_quality. rewrite Hmode.
  unfold get_jpeg_params. rewrite Hinput. cbn [is_some orb negb].
  unfold param_truthy.
  destruct (Str.mem _ _); cbn [fst snd Z.leb Z.compare Pos.compare
                                Pos.compare_cont];
    (split; [optimizer_cases; skip_inserts; rewrite lookup_empty; reflexivity |]);
    (split; [auto |]);
    (split; [eexists; split;
             [optimizer_cases; skip_inserts; apply lookup_insert_eq
             | reflexivity] |]);
    (split; [exact Hout |]); rewrite Hout; split; reflexivity.
Qed.

Lemma lossless_jpeg_reset_drops_quality_witness :
  let config :=
    World.with_format "JPEG" (World.auto (mkPath "pics" "scan.png")) in
  let metadata :=
    World.meta (mkPath "pics" "scan.png") "JPEG" 10000 400 300 None in
  snd (get_save_parameters "JPEG" config) = Some 85
  /\ Optimizer.optimize_parameters "JPEG" config metadata
       (fst (get_save_parameters "JPEG" config)) !! "quality" = None.
Proof.
  intros config metadata.
  split; [vm_compute; reflexivity |].
  exact (proj1 (proj2 (proj2 (proj2 (proj2
           (lossless_jpeg_reset_drops_quality config metadata
              (mkCharacteristics false false 0 0%Q false)
              eq_refl ltac:(vm_compute; reflexivity) eq_refl
              ltac:(vm_compute; reflexivity))))))).
Defined.
